(** * AES67-Router: SAP / SDP discovery, RTP codec and jitter buffer

    A shallow embedding of the protocol code of the Node-RED AES67 nodes
    (aes67-sender.js, aes67-receiver.js, aes67-router.js) and the properties
    of its specification.

    Conventions of the embedding:
    - a JavaScript number that holds an integer is a [Z]; the 32-bit
      conversions of the bitwise operators are written out ([JS.ToInt32]);
    - a [Buffer] is a [list byte]; a JavaScript string is a [string], read as
      the sequence of its UTF-8 bytes, so that [Buffer.from(s, 'utf8')] and
      [buf.toString('utf8')] are the two directions of the same isomorphism
      on well-formed texts; bytes that are not valid UTF-8, which Node
      decodes to U+FFFD, are outside the embedding, and a statement about
      the text of an arbitrary datagram is made for ASCII bytes;
    - the products by 0.1 and 0.8 are taken in [Q]; a division gives a
      [JS.number], the exact quotient in [Q] or, for a divisor 0, NaN or an
      infinity;
    - a [Map] is a [gmap] over its string keys;
    - [null] / [undefined] results are [None]; an exception is [Throw]. *)

From Stdlib Require Import ZArith NArith QArith Lia Lqa Strings.Byte Ascii String DecimalString.
From stdpp Require Import base option list gmap strings.

Local Open Scope Z_scope.

(** ** JavaScript primitives used by the sources *)

Module JS.

(** Outcome of a call that may raise. *)
Inductive completion (A : Type) : Type :=
| Return (a : A)
| Throw (msg : string).
Arguments Return {A} a.
Arguments Throw {A} msg.

(** [ToInt32]: the conversion applied to both operands of [&], [|], [>>]. *)
Definition ToInt32 (x : Z) : Z := (x + 2 ^ 31) mod 2 ^ 32 - 2 ^ 31.

(** [a & b] *)
Definition band (a b : Z) : Z := Z.land (ToInt32 a) (ToInt32 b).

(** [a | b] *)
Definition bor (a b : Z) : Z := Z.lor (ToInt32 a) (ToInt32 b).

(** [a >> n] *)
Definition shr (a n : Z) : Z := Z.shiftr (ToInt32 a) (n mod 32).

(** Truthiness of a number: [0] (and NaN, which [None] stands for) is falsy. *)
Definition truthy (x : Z) : bool := negb (x =? 0).

(** [String(n)] / template-literal rendering of an integer. *)
Definition Number_toString (n : Z) : string :=
  NilZero.string_of_int (Z.to_int n).

(** The byte value of a character. *)
Definition code (c : ascii) : Z := Z.of_N (N_of_ascii c).

(** The white space that [parseInt] skips, as UTF-8: the ASCII characters
    TAB, LF, VT, FF, CR and SP, then U+00A0 (two bytes), and U+1680,
    U+2000 to U+200A, U+2028, U+2029, U+202F, U+205F, U+3000 and U+FEFF
    (three bytes each). *)
Definition is_space (c : ascii) : bool :=
  (code c =? 32) || ((9 <=? code c) && (code c <=? 13)).

Definition is_space2 (c1 c2 : ascii) : bool :=
  (code c1 =? 194) && (code c2 =? 160).

Definition is_space3 (c1 c2 c3 : ascii) : bool :=
  ((code c1 =? 225) && (code c2 =? 154) && (code c3 =? 128))
  || ((code c1 =? 226) && (code c2 =? 128)
      && (((128 <=? code c3) && (code c3 <=? 138))
          || (code c3 =? 168) || (code c3 =? 169) || (code c3 =? 175)))
  || ((code c1 =? 226) && (code c2 =? 129) && (code c3 =? 159))
  || ((code c1 =? 227) && (code c2 =? 128) && (code c3 =? 128))
  || ((code c1 =? 239) && (code c2 =? 187) && (code c3 =? 191)).

Fixpoint skip_space (s : string) : string :=
  match s with
  | String c1 r1 =>
      if is_space c1 then skip_space r1
      else
        match r1 with
        | String c2 r2 =>
            if is_space2 c1 c2 then skip_space r2
            else
              match r2 with
              | String c3 r3 =>
                  if is_space3 c1 c2 c3 then skip_space r3 else s
              | EmptyString => s
              end
        | EmptyString => s
        end
  | EmptyString => s
  end.

(** Value of a digit in the given radix (10 or 16). *)
Definition digit (radix : Z) (c : ascii) : option Z :=
  let n := code c in
  let v :=
    if (48 <=? n) && (n <=? 57) then Some (n - 48)
    else if (97 <=? n) && (n <=? 102) then Some (n - 87)
    else if (65 <=? n) && (n <=? 70) then Some (n - 55)
    else None in
  match v with
  | Some d => if d <? radix then Some d else None
  | None => None
  end.

(** Longest prefix of digits; [None] when there is no digit at all. *)
Fixpoint digits (radix : Z) (s : string) (acc : option Z) : option Z :=
  match s with
  | String c r =>
      match digit radix c with
      | Some d => digits radix r (Some (radix * default 0 acc + d))
      | None => acc
      end
  | EmptyString => acc
  end.

(** [parseInt(s)] with no radix argument; [None] is NaN. The integer is
    the exact one; JavaScript holds it as a double, which is the same
    number up to 2^53. *)
Definition parseInt (s : string) : option Z :=
  let s1 := skip_space s in
  let '(sign, s2) :=
    match s1 with
    | String "-"%char r => (-1, r)
    | String "+"%char r => (1, r)
    | _ => (1, s1)
    end in
  let '(radix, s3) :=
    match s2 with
    | String "0"%char (String "x"%char r) => (16, r)
    | String "0"%char (String "X"%char r) => (16, r)
    | _ => (10, s2)
    end in
  Z.mul sign <$> digits radix s3 None.

(** [s.split(sep)] for a one-character separator. *)
Fixpoint split (sep : ascii) (s : string) : list string :=
  match s with
  | EmptyString => [EmptyString]
  | String c r =>
      if Ascii.eqb c sep then EmptyString :: split sep r
      else match split sep r with
           | h :: t => String c h :: t
           | [] => [String c EmptyString]
           end
  end.

(** [hay.includes(needle)] *)
Fixpoint includes (needle hay : string) : bool :=
  String.prefix needle hay ||
  match hay with
  | String _ r => includes needle r
  | EmptyString => false
  end.

(** [s.startsWith(p)] *)
Definition startsWith (p s : string) : bool := String.prefix p s.

(** The values a field of a parsed SDP object may hold. *)
Inductive value : Type :=
| VUndefined
| VNumber (n : Z)
| VString (s : string).

(** Truthiness of a value. *)
Definition truthyV (v : value) : bool :=
  match v with
  | VUndefined => false
  | VNumber n => truthy n
  | VString s => negb (String.eqb s "")
  end.

(** [String(v)], the conversion [parseInt] applies to its argument. *)
Definition ToString (v : value) : string :=
  match v with
  | VUndefined => "undefined"
  | VNumber n => Number_toString n
  | VString s => s
  end.

(** [parseInt(v) || d] *)
Definition parseIntOr (v : value) (d : Z) : Z :=
  match parseInt (ToString v) with
  | Some n => if truthy n then n else d
  | None => d
  end.

(** [s || d] for an optional string: [undefined] and [''] are falsy. *)
Definition strOr (s : option string) (d : string) : string :=
  match s with
  | Some s => if String.eqb s "" then d else s
  | None => d
  end.

(** The result of a division: a finite number, held as the exact
    rational, or one of the three values that [/] gives for a divisor 0. *)
Inductive number : Type :=
| Num (q : Q)
| NaN
| Infinity
| NegInfinity.

(** [a / b] on two integers: [0 / 0] is NaN and [a / 0] an infinity with
    the sign of [a]. *)
Definition div (a b : Z) : number :=
  if b =? 0 then
    if a =? 0 then NaN else if 0 <? a then Infinity else NegInfinity
  else Num (inject_Z a / inject_Z b)%Q.

(** [x] is the finite number [q]. *)
Definition finite (x : number) (q : Q) : Prop :=
  match x with
  | Num r => (r == q)%Q
  | _ => False
  end.

End JS.

(** ** Node.js [Buffer] *)

Module Buffer.

Abbreviation t := (list byte).

Definition u8 (b : byte) : Z := Z.of_N (Byte.to_N b).

(** Storing a number in a byte cell keeps its low eight bits. *)
Definition of_u8 (z : Z) : byte :=
  default x00 (Byte.of_N (Z.to_N (z mod 256))).

Definition len (b : t) : Z := Z.of_nat (length b).

(** [buf[i]]; [None] is [undefined]. *)
Definition get (b : t) (i : Z) : option Z :=
  if i <? 0 then None else u8 <$> b !! Z.to_nat i.

(** [buf[i]] in a bitwise context, where [undefined] converts to [0]. *)
Definition bits (b : t) (i : Z) : Z := default 0 (get b i).

(** [buf.readUInt16BE(off)]; out of range raises. *)
Definition readUInt16BE (b : t) (off : Z) : option Z :=
  if (0 <=? off) && (off + 2 <=? len b) then
    Some (bits b off * 256 + bits b (off + 1))
  else None.

(** [buf.readUInt32BE(off)]; out of range raises. *)
Definition readUInt32BE (b : t) (off : Z) : option Z :=
  if (0 <=? off) && (off + 4 <=? len b) then
    Some (bits b off * 2 ^ 24 + bits b (off + 1) * 2 ^ 16
          + bits b (off + 2) * 2 ^ 8 + bits b (off + 3))
  else None.

(** The two bytes written by [writeUInt16BE(v, _)]; a value outside
    [0, 65535] raises. *)
Definition bytesUInt16BE (v : Z) : option t :=
  if (0 <=? v) && (v <=? 65535) then
    Some [of_u8 (v / 256); of_u8 v]
  else None.

(** The four bytes written by [writeUInt32BE(v, _)]; a value outside
    [0, 2^32 - 1] raises. *)
Definition bytesUInt32BE (v : Z) : option t :=
  if (0 <=? v) && (v <=? 4294967295) then
    Some [of_u8 (v / 2 ^ 24); of_u8 (v / 2 ^ 16); of_u8 (v / 2 ^ 8); of_u8 v]
  else None.

(** Clamping of a [slice] bound: negative counts from the end. *)
Definition clamp (n i : Z) : Z :=
  if i <? 0 then Z.max (n + i) 0 else Z.min i n.

(** [buf.slice(start, end)] *)
Definition slice (b : t) (start end_ : Z) : t :=
  let s := clamp (len b) start in
  let e := clamp (len b) end_ in
  take (Z.to_nat (e - s)) (drop (Z.to_nat s) b).

(** [buf.slice(start)] *)
Definition slice_from (b : t) (start : Z) : t := slice b start (len b).

(** [Buffer.from(s, 'utf8')] *)
Definition from (s : string) : t := list_byte_of_string s.

(** [buf.toString('utf8')] of bytes that are valid UTF-8, ASCII among
    them: the text with these bytes. (Node puts U+FFFD in the place of
    every invalid sequence; such buffers are outside the embedding.) *)
Definition toString (b : t) : string := string_of_list_byte b.

(** Writing [src] into [dst] at [off], as [src.copy(dst, off)] and
    [dst.write(str, off)] do: only what fits is written. *)
Fixpoint blit_at (dst : t) (off : nat) (src : t) : t :=
  match dst, off with
  | [], _ => []
  | d :: dst', S off' => d :: blit_at dst' off' src
  | d :: dst', O =>
      match src with
      | [] => dst
      | s :: src' => s :: blit_at dst' O src'
      end
  end.

Definition blit (dst : t) (off : Z) (src : t) : t :=
  blit_at dst (Z.to_nat off) src.

(** [dst[i] = v] for a number [v]; out of range is a no-op on a Buffer. *)
Definition set (dst : t) (i : Z) (v : Z) : t :=
  if i <? 0 then dst else <[Z.to_nat i := of_u8 v]> dst.

End Buffer.

(** ** aes67-sender.js *)

(** [Buffer.allocUnsafe(n)]: [n] bytes of whatever the allocator holds,
    here the first bytes of [junk] (zero-extended when [junk] is short). *)
Definition allocUnsafe (n : Z) (junk : Buffer.t) : Buffer.t :=
  take (Z.to_nat n) (junk ++ replicate (Z.to_nat n) x00).

(** [packet.writeUInt16BE(v, off)] *)
Definition writeUInt16BE (packet : Buffer.t) (v off : Z) : option Buffer.t :=
  if (0 <=? off) && (off + 2 <=? Buffer.len packet) then
    (fun bs => Buffer.blit packet off bs) <$> Buffer.bytesUInt16BE v
  else None.

(** [packet.writeUInt32BE(v, off)] *)
Definition writeUInt32BE (packet : Buffer.t) (v off : Z) : option Buffer.t :=
  if (0 <=? off) && (off + 4 <=? Buffer.len packet) then
    (fun bs => Buffer.blit packet off bs) <$> Buffer.bytesUInt32BE v
  else None.

(** The number stored by [packet[k] = ipParts[i]]: a missing element
    ([undefined]) and NaN are both stored as [0]. *)
Definition ipPart (ipParts : list (option Z)) (i : nat) : Z :=
  default 0 (mjoin (ipParts !! i)).

Module RTPPacketBuilder.

Record t : Type := mk {
  payloadType : Z;
  ssrc : Z;
  sampleRate : Z;
  sequenceNumber : Z;
  timestamp : Z
}.

(** [buildPacket(audioData, marker)]: the packet and the builder after
    the call; the two range-checked writes may raise, in which case the
    sequence number has not been touched. *)
Definition buildPacket (this : t) (audioData : Buffer.t) (marker : bool)
    (junk : Buffer.t) : t * JS.completion Buffer.t :=
  let header := allocUnsafe 12 junk in
  let header := Buffer.set header 0 128 in
  let header :=
    Buffer.set header 1
      (JS.bor (if marker then 128 else 0) (JS.band (payloadType this) 127)) in
  match writeUInt16BE header (sequenceNumber this) 2 with
  | None => (this, JS.Throw "ERR_OUT_OF_RANGE")
  | Some header =>
      match writeUInt32BE header (timestamp this) 4 with
      | None => (this, JS.Throw "ERR_OUT_OF_RANGE")
      | Some header =>
          match writeUInt32BE header (ssrc this) 8 with
          | None => (this, JS.Throw "ERR_OUT_OF_RANGE")
          | Some header =>
              let packet := header ++ audioData in
              (mk (payloadType this) (ssrc this) (sampleRate this)
                  (JS.band (sequenceNumber this + 1) 65535)
                  (timestamp this),
               JS.Return packet)
          end
      end
  end.

(** [incrementTimestamp(samples)] *)
Definition incrementTimestamp (this : t) (samples : Z) : t :=
  mk (payloadType this) (ssrc this) (sampleRate this) (sequenceNumber this)
     (JS.band (timestamp this + samples) 4294967295).

End RTPPacketBuilder.

Module SAPAnnouncer.

(** The fields of [streamConfig] that the packet code reads. *)
Record t : Type := mk {
  sourceIP : string;
  msgIdHash : Z
}.

(** ['application/sdp\0'] *)
Definition payloadTypeTag : Buffer.t :=
  Buffer.from "application/sdp" ++ [x00].

(** The body shared, word for word, by [createSAPPacket] and
    [sendDeletion]; [first] is the value stored in [packet[0]]. *)
Definition sapPacket (this : t) (first : Z) (sdpData : string)
    (junk : Buffer.t) : JS.completion Buffer.t :=
  let sdpBuffer := Buffer.from sdpData in
  let payloadType := payloadTypeTag in
  let packet :=
    allocUnsafe (8 + Buffer.len payloadType + Buffer.len sdpBuffer) junk in
  let packet := Buffer.set packet 0 first in
  let packet := Buffer.set packet 1 0 in
  match writeUInt16BE packet (msgIdHash this) 2 with
  | None => JS.Throw "ERR_OUT_OF_RANGE"
  | Some packet =>
      let ipParts := JS.parseInt <$> JS.split "."%char (sourceIP this) in
      let packet := Buffer.set packet 4 (ipPart ipParts 0) in
      let packet := Buffer.set packet 5 (ipPart ipParts 1) in
      let packet := Buffer.set packet 6 (ipPart ipParts 2) in
      let packet := Buffer.set packet 7 (ipPart ipParts 3) in
      let packet := Buffer.blit packet 8 payloadType in
      let packet := Buffer.blit packet (8 + Buffer.len payloadType) sdpBuffer in
      JS.Return packet
  end.

(** [createSAPPacket(sdpData)]: [packet[0] = 0x20]. *)
Definition createSAPPacket (this : t) (sdpData : string) (junk : Buffer.t)
    : JS.completion Buffer.t :=
  sapPacket this 32 sdpData junk.

(** The packet that [sendDeletion()] hands to the socket:
    [packet[0] = 0x24]. *)
Definition sendDeletion (this : t) (sdpData : string) (junk : Buffer.t)
    : JS.completion Buffer.t :=
  sapPacket this 36 sdpData junk.

End SAPAnnouncer.

(** ** aes67-receiver.js *)

(** The header object built, field for field alike, by
    [RTPPacketParser.parsePacket] and by [AES67Router.handleRTPPacket]. *)
Module RTPHeader.

Record t : Type := mk {
  version : Z;
  padding : Z;
  extension : Z;
  csrcCount : Z;
  marker : Z;
  payloadType : Z;
  sequenceNumber : Z;
  timestamp : Z;
  ssrc : Z
}.

(** The object literal; the three reads raise on a short buffer. *)
Definition read (buffer : Buffer.t) : option t :=
  match Buffer.readUInt16BE buffer 2,
        Buffer.readUInt32BE buffer 4,
        Buffer.readUInt32BE buffer 8 with
  | Some sn, Some ts, Some ss =>
      Some (mk (JS.band (JS.shr (Buffer.bits buffer 0) 6) 3)
               (JS.band (JS.shr (Buffer.bits buffer 0) 5) 1)
               (JS.band (JS.shr (Buffer.bits buffer 0) 4) 1)
               (JS.band (Buffer.bits buffer 0) 15)
               (JS.band (JS.shr (Buffer.bits buffer 1) 7) 1)
               (JS.band (Buffer.bits buffer 1) 127)
               sn ts ss)
  | _, _, _ => None
  end.

End RTPHeader.

Module RTPPacketParser.

Record t : Type := mk {
  lastSequence : option Z;
  packetsLost : Z;
  packetsReceived : Z
}.

Record packet : Type := mkPacket {
  header : RTPHeader.t;
  payload : Buffer.t
}.

Record stats : Type := mkStats {
  stats_packetsReceived : Z;
  stats_packetsLost : Z;
  lossRate : JS.number
}.

(** [constructor()] *)
Definition new : t := mk None 0 0.

(** The "Check for lost packets" block together with the two updates
    that follow it. *)
Definition account (this : t) (sequenceNumber : Z) : t :=
  let lost' :=
    match lastSequence this with
    | Some last =>
        let expected := JS.band (last + 1) 65535 in
        if negb (sequenceNumber =? expected) then
          let lost := JS.band (sequenceNumber - expected + 65536) 65535 in
          packetsLost this + lost
        else packetsLost this
    | None => packetsLost this
    end in
  mk (Some sequenceNumber) lost' (packetsReceived this + 1).

(** "Handle extension header if present": the header length after the
    block; the read inside it raises when out of range. *)
Definition extended (buffer : Buffer.t) (h : RTPHeader.t) (headerLength : Z)
    : option Z :=
  if JS.truthy (RTPHeader.extension h) then
    if headerLength + 4 <=? Buffer.len buffer then
      match Buffer.readUInt16BE buffer (headerLength + 2) with
      | Some w => Some (headerLength + (4 + w * 4))
      | None => None
      end
    else Some headerLength
  else Some headerLength.

(** "Remove padding if present" *)
Definition unpad (h : RTPHeader.t) (payload : Buffer.t) : Buffer.t :=
  if JS.truthy (RTPHeader.padding h) && (0 <? Buffer.len payload) then
    let paddingLength := Buffer.bits payload (Buffer.len payload - 1) in
    Buffer.slice payload 0 (- paddingLength)
  else payload.

(** [parsePacket(buffer)]: the parser after the call and what the call
    returned ([None] is [null]). *)
Definition parsePacket (this : t) (buffer : Buffer.t)
    : t * JS.completion (option packet) :=
  if Buffer.len buffer <? 12 then (this, JS.Return None)
  else
    match RTPHeader.read buffer with
    | None => (this, JS.Throw "ERR_OUT_OF_RANGE")
    | Some header =>
        let this := account this (RTPHeader.sequenceNumber header) in
        let headerLength := 12 + RTPHeader.csrcCount header * 4 in
        match extended buffer header headerLength with
        | None => (this, JS.Throw "ERR_OUT_OF_RANGE")
        | Some headerLength =>
            let payload := Buffer.slice_from buffer headerLength in
            let payload := unpad header payload in
            (this, JS.Return (Some (mkPacket header payload)))
        end
    end.

(** [getStats()] *)
Definition getStats (this : t) : stats :=
  mkStats (packetsReceived this) (packetsLost this)
    (if 0 <? packetsReceived this then
       JS.div (packetsLost this) (packetsReceived this + packetsLost this)
     else JS.Num 0).

(** [reset()] *)
Definition reset (this : t) : t := mk None 0 0.

(** The parser after decoding the datagrams of [bufs] in order. *)
Definition feed (this : t) (bufs : list Buffer.t) : t :=
  foldl (fun p b => (parsePacket p b).1) this bufs.

(** States a parser can be in: built by the constructor, then driven by
    [parsePacket] and [reset]. *)
Inductive reachable : t -> Prop :=
| reach_new : reachable new
| reach_parse this buffer :
    reachable this -> reachable (parsePacket this buffer).1
| reach_reset this : reachable this -> reachable (reset this).

End RTPPacketParser.

Module AudioBufferManager.

Record t : Type := mk {
  sampleRate : Z;
  channels : Z;
  bytesPerSample : Z;
  buffers : list Buffer.t;
  maxBufferSize : Q
}.

(** [constructor(sampleRate, channels, bytesPerSample)] *)
Definition new (sampleRate channels bytesPerSample : Z) : t :=
  mk sampleRate channels bytesPerSample []
     (inject_Z (sampleRate * channels * bytesPerSample) * (1 # 10))%Q.

(** [buffers.reduce((sum, buf) => sum + buf.length, 0)] *)
Definition total (buffers : list Buffer.t) : Z :=
  foldl (fun sum buf => sum + Buffer.len buf) 0 buffers.

(** [a > b] on rationals. *)
Definition Qgtb (a b : Q) : bool := negb (Qle_bool a b).

(** The [while] loop: [shift()] as long as the queue is non-empty and
    holds more than [maxBufferSize * 0.8]. *)
Fixpoint trim (maxBufferSize : Q) (buffers : list Buffer.t)
    : list Buffer.t :=
  match buffers with
  | [] => []
  | _ :: rest =>
      if Qgtb (inject_Z (total buffers)) (maxBufferSize * (8 # 10))%Q
      then trim maxBufferSize rest
      else buffers
  end.

(** [addAudioData(data)] *)
Definition addAudioData (this : t) (data : Buffer.t) : t :=
  let buffers := buffers this ++ [data] in
  let totalSize := total buffers in
  let buffers :=
    if Qgtb (inject_Z totalSize) (maxBufferSize this)
    then trim (maxBufferSize this) buffers
    else buffers in
  mk (sampleRate this) (channels this) (bytesPerSample this) buffers
     (maxBufferSize this).

(** [getBufferedAmount()] *)
Definition getBufferedAmount (this : t) : Z := total (buffers this).

(** [clear()] *)
Definition clear (this : t) : t :=
  mk (sampleRate this) (channels this) (bytesPerSample this) []
     (maxBufferSize this).

(** The [while] loop of [getAudioData]: copies chunks from the head of
    the queue into [result] at [offset] until [requestedSize] bytes are
    there; the chunk that fills the request is split and its rest stays
    at the head. Returns [result] and the queue left. *)
Fixpoint fill (requestedSize : Z) (result : Buffer.t) (offset : Z)
    (buffers : list Buffer.t) : Buffer.t * list Buffer.t :=
  match buffers with
  | [] => (result, [])
  | buffer :: rest =>
      if offset <? requestedSize then
        let needed := requestedSize - offset in
        if Buffer.len buffer <=? needed then
          fill requestedSize (Buffer.blit result offset buffer)
            (offset + Buffer.len buffer) rest
        else
          (Buffer.blit result offset (Buffer.slice buffer 0 needed),
           Buffer.slice_from buffer needed :: rest)
      else (result, buffers)
  end.

(** [getAudioData(requestedSize)] for a whole number of bytes: the
    manager after the call and what the call returned ([None] is [null]);
    [Buffer.allocUnsafe] raises on a negative size. *)
Definition getAudioData (this : t) (requestedSize : Z) (junk : Buffer.t)
    : t * JS.completion (option Buffer.t) :=
  match buffers this with
  | [] => (this, JS.Return None)
  | _ :: _ =>
      let available := total (buffers this) in
      if available <? requestedSize then (this, JS.Return None)
      else if requestedSize <? 0 then (this, JS.Throw "ERR_OUT_OF_RANGE")
      else
        let result := allocUnsafe requestedSize junk in
        let '(result, buffers) := fill requestedSize result 0 (buffers this) in
        (mk (sampleRate this) (channels this) (bytesPerSample this) buffers
            (maxBufferSize this),
         JS.Return (Some result))
  end.

End AudioBufferManager.

(** ** aes67-router.js *)

Module AES67Discovery.

Definition AES67_SAMPLE_RATE : Z := 48000.

(** An element of [media.rtpmap]. *)
Record rtpmap : Type := mkRtpmap {
  rtpmap_channels : JS.value;
  rtpmap_rate : JS.value;
  rtpmap_name : JS.value
}.

(** A media section of the object that [parseSDP] reads; only the
    fields it reads. [None] is an absent field, and a [None] element of
    [media_rtpmap] is a null element. In an object returned by
    [sdp.parse] the field [rtpmap] is absent: sdp-transform files the
    a=rtpmap lines under [rtp] (see [parsedMedia]). *)
Record media : Type := mkMedia {
  media_type : string;
  media_protocol : string;
  media_port : Z;
  media_connection_ip : option string;
  media_rtpmap : option (list (option rtpmap));
  media_ptime : Z;
  media_mediaclk : option string;
  media_tsRefClk : option string
}.

(** The session object returned by [sdp.parse]. *)
Record session : Type := mkSession {
  session_origin_sessionId : option string;
  session_name : option string;
  session_description : option string;
  session_connection_ip : option string;
  session_media : list media
}.

Record streamInfo : Type := mkStreamInfo {
  id : string;
  name : string;
  description : string;
  sourceIP : string;
  destIP : string;
  port : Z;
  channels : Z;
  sampleRate : Z;
  encoding : JS.value;
  ptime : Z;
  mediaClk : string;
  isMulticast : bool;
  sdp : string;
  lastSeen : Z;
  status : string
}.

Record device : Type := mkDevice {
  device_ip : string;
  device_name : string;
  device_streams : list string
}.

(** The discovery object together with the module-level
    [globalStreamRegistry]; [sent] lists the [stream/discovered] payloads
    handed to [node.send], oldest first. *)
Record t : Type := mk {
  streams : gmap string streamInfo;
  globalStreamRegistry : gmap string streamInfo;
  devices : gmap string device;
  localIP : string;
  sent : list streamInfo
}.

(** The first element of [media.rtpmap] whose field [f] is truthy. *)
Fixpoint firstTruthy (f : rtpmap -> JS.value) (l : list (option rtpmap))
    : option JS.value :=
  match l with
  | [] => None
  | Some r :: l' => if JS.truthyV (f r) then Some (f r) else firstTruthy f l'
  | None :: l' => firstTruthy f l'
  end.

(** [extractChannels(media)] *)
Definition extractChannels (m : media) : Z :=
  match media_rtpmap m with
  | Some l =>
      match firstTruthy rtpmap_channels l with
      | Some v => JS.parseIntOr v 2
      | None => 2
      end
  | None => 2
  end.

(** [extractSampleRate(media)] *)
Definition extractSampleRate (m : media) : Z :=
  match media_rtpmap m with
  | Some l =>
      match firstTruthy rtpmap_rate l with
      | Some v => JS.parseIntOr v AES67_SAMPLE_RATE
      | None => AES67_SAMPLE_RATE
      end
  | None => AES67_SAMPLE_RATE
  end.

(** [extractEncoding(media)] *)
Definition extractEncoding (m : media) : JS.value :=
  match media_rtpmap m with
  | Some l =>
      match firstTruthy rtpmap_name l with
      | Some v => v
      | None => JS.VString "L24"
      end
  | None => JS.VString "L24"
  end.

(** [extractMediaClock(media)] *)
Definition extractMediaClock (m : media) : string :=
  JS.strOr (media_mediaclk m)
    (JS.strOr (media_tsRefClk m)
       "ptp=IEEE1588-2008:00-00-00-00-00-00-00-00:0").

(** [isMulticastIP(ip)] *)
Definition isMulticastIP (ip : option string) : bool :=
  match ip with
  | None => false
  | Some ip =>
      if String.eqb ip "" then false
      else
        let parts := JS.split "."%char ip in
        if negb (length parts =? 4)%nat then false
        else
          match JS.parseInt (default ""%string (parts !! 0%nat)) with
          | Some firstOctet => (224 <=? firstOctet) && (firstOctet <=? 239)
          | None => false
          end
  end.

(** [a || b] on two optional strings. *)
Definition orElse (a b : option string) : option string :=
  match a with
  | Some s => if String.eqb s "" then b else a
  | None => b
  end.

(** The object literal [streamInfo] of [parseSDP]; [rnd] is the value of
    [crypto.randomBytes(8).toString('hex')] and [now] that of
    [Date.now()]. *)
Definition streamInfoOf (s : session) (m : media) (sdpString sourceIP : string)
    (actualIP : option string) (messageType : Z) (rnd : string) (now : Z)
    : streamInfo :=
  let ip := orElse (media_connection_ip m) (session_connection_ip s) in
  mkStreamInfo
    (JS.strOr (session_origin_sessionId s) rnd)
    (JS.strOr (session_name s) "AES67 Stream")
    (JS.strOr (session_description s) "")
    (JS.strOr actualIP (JS.strOr (Some sourceIP) "unknown"))
    (JS.strOr ip "unknown")
    (media_port m)
    (extractChannels m)
    (extractSampleRate m)
    (extractEncoding m)
    (if JS.truthy (media_ptime m) then media_ptime m else 1)
    (extractMediaClock m)
    (isMulticastIP ip)
    sdpString
    now
    (if messageType =? 0 then "active" else "deleted").

(** [`${streamInfo.sourceIP}:${streamInfo.port}`] *)
Definition streamKey (info : streamInfo) : string :=
  sourceIP info +:+ ":" +:+ JS.Number_toString (port info).

(** [registerStream(streamInfo)]: the state after the call and the value
    the call returns. The calls of [node.log] and [updateNodeStatus]
    only report and are left out. *)
Definition registerStream (this : t) (info : streamInfo) : t * JS.value :=
  if String.eqb (sourceIP info) "" || negb (JS.truthy (port info)) then
    (this, JS.VUndefined)
  else
    let streamKey := streamKey info in
    let isNew := negb (bool_decide (is_Some (streams this !! streamKey))) in
    let streams' := <[streamKey := info]> (streams this) in
    let global' := <[streamKey := info]> (globalStreamRegistry this) in
    let deviceKey := sourceIP info in
    let devices' :=
      if bool_decide (is_Some (devices this !! deviceKey)) then devices this
      else <[deviceKey := mkDevice (sourceIP info) (sourceIP info) []]>
             (devices this) in
    let devices'' :=
      match devices' !! deviceKey with
      | Some d =>
          if negb (bool_decide (streamKey ∈ device_streams d)) then
            <[deviceKey := mkDevice (device_ip d) (device_name d)
                             (device_streams d ++ [streamKey])]> devices'
          else devices'
      | None => devices'
      end in
    let sent' :=
      if isNew && String.eqb (status info) "active"
      then sent this ++ [info] else sent this in
    (mk streams' global' devices'' (localIP this) sent', JS.VUndefined).

(** [parseSDP(sdpString, sourceIP, actualIP, messageType)], given the
    result of [sdp.parse(sdpString)] ([None] when it raises or yields no
    media array). *)
Definition parseSDP (this : t) (parsed : option session)
    (sdpString sourceIP : string) (actualIP : option string)
    (messageType : Z) (rnd : string) (now : Z) : t :=
  if String.eqb sdpString "" then this
  else
    match parsed with
    | None => this
    | Some s =>
        foldl (fun this m =>
                 if String.eqb (media_type m) "audio"
                    && String.eqb (media_protocol m) "RTP/AVP"
                 then (registerStream this
                         (streamInfoOf s m sdpString sourceIP actualIP
                            messageType rnd now)).1
                 else this)
              this (session_media s)
    end.

(** The arguments with which [handleSAPMessage] calls [parseSDP]. *)
Record sapMessage : Type := mkSapMessage {
  sap_sdpData : string;
  sap_sourceIP : string;
  sap_messageType : Z
}.

(** The [while] loop of [handleSAPMessage] that looks for the null
    terminator; [rest] is the buffer from [sdpOffset] on. *)
Fixpoint skipToNull (rest : Buffer.t) (sdpOffset : Z) : Z :=
  match rest with
  | [] => sdpOffset
  | b :: rest' =>
      if negb (Buffer.u8 b =? 0) then skipToNull rest' (sdpOffset + 1)
      else sdpOffset
  end.

(** [handleSAPMessage(msg, rinfo)] up to its call of [parseSDP]: the
    decoded arguments of that call, or [None] when the handler returns
    (or catches) before it. *)
Definition decodeSAP (msg : Buffer.t) : option sapMessage :=
  if Buffer.len msg <? 8 then None
  else
    let version := JS.band (JS.shr (Buffer.bits msg 0) 5) 7 in
    let messageType := JS.band (JS.shr (Buffer.bits msg 0) 2) 1 in
    let authLength := Buffer.bits msg 1 in
    match Buffer.readUInt16BE msg 2 with
    | None => None
    | Some msgIdHash =>
        if negb (version =? 1) then None
        else if Buffer.len msg <? 8 then None
        else
          let sourceIP :=
            JS.Number_toString (Buffer.bits msg 4) +:+ "." +:+
            JS.Number_toString (Buffer.bits msg 5) +:+ "." +:+
            JS.Number_toString (Buffer.bits msg 6) +:+ "." +:+
            JS.Number_toString (Buffer.bits msg 7) in
          let sdpOffset := 8 + authLength * 4 in
          if Buffer.len msg <=? sdpOffset then None
          else
            let sdpOffset :=
              skipToNull (drop (Z.to_nat sdpOffset) msg) sdpOffset in
            let sdpOffset := sdpOffset + 1 in
            if Buffer.len msg <=? sdpOffset then None
            else
              let sdpOffset :=
                if sdpOffset + 8 <? Buffer.len msg then
                  let payloadType :=
                    Buffer.toString
                      (Buffer.slice msg sdpOffset (sdpOffset + 8)) in
                  if JS.includes "sdp" payloadType then sdpOffset + 8
                  else sdpOffset
                else sdpOffset in
              if Buffer.len msg <=? sdpOffset then None
              else
                let sdpData :=
                  Buffer.toString (Buffer.slice_from msg sdpOffset) in
                if negb (String.eqb sdpData "")
                   && JS.startsWith "v=0" sdpData
                then Some (mkSapMessage sdpData sourceIP messageType)
                else None
    end.

(** [handleSAPMessage(msg, rinfo)]; [parse] stands for [sdp.parse]. *)
Definition handleSAPMessage (this : t) (parse : string -> option session)
    (msg : Buffer.t) (rinfo_address : option string) (rnd : string)
    (now : Z) : t :=
  match decodeSAP msg with
  | Some d =>
      parseSDP this (parse (sap_sdpData d)) (sap_sdpData d) (sap_sourceIP d)
        rinfo_address (sap_messageType d) rnd now
  | None => this
  end.

(** [createSAPPacket(sdpData)]; [None] is [null]. *)
Definition createSAPPacket (this : t) (sdpData : string) (junk : Buffer.t)
    : option Buffer.t :=
  if String.eqb sdpData "" then None
  else
    let sdpBuffer := Buffer.from sdpData in
    let packet := allocUnsafe (8 + 8 + Buffer.len sdpBuffer) junk in
    let packet := Buffer.set packet 0 32 in
    let packet := Buffer.set packet 1 0 in
    match writeUInt16BE packet 0 2 with
    | None => None
    | Some packet =>
        let ipParts :=
          (fun p => Some (JS.parseIntOr (JS.VString p) 0))
            <$> JS.split "."%char (localIP this) in
        if negb (length ipParts =? 4)%nat then None
        else
          let packet := Buffer.set packet 4 (ipPart ipParts 0) in
          let packet := Buffer.set packet 5 (ipPart ipParts 1) in
          let packet := Buffer.set packet 6 (ipPart ipParts 2) in
          let packet := Buffer.set packet 7 (ipPart ipParts 3) in
          let packet := Buffer.blit packet 8 (Buffer.from "application/sdp") in
          let packet := Buffer.blit packet (8 + 8) sdpBuffer in
          Some packet
    end.

(** The test of [cleanupStaleStreams] on one stream:
    [stream.lastSeen && (now - stream.lastSeen > timeout)]. *)
Definition stale (now : Z) (stream : streamInfo) : bool :=
  JS.truthy (lastSeen stream) && (120000 <? now - lastSeen stream).

(** [cleanupStaleStreams()] at [Date.now() = now]: the state after the
    call, and the entries for which a [stream/removed] message is sent (the
    messages go out in the insertion order of the Map, which the registry
    does not record, so they are given as the set of removed entries). *)
Definition cleanupStaleStreams (this : t) (now : Z)
    : t * gmap string streamInfo :=
  let removed := filter (fun kv => stale now kv.2 = true) (streams this) in
  (mk (filter (fun kv => stale now kv.2 = false) (streams this))
      (globalStreamRegistry this ∖ removed)
      (devices this) (localIP this) (sent this),
   removed).

End AES67Discovery.

Module AES67Router.

Record subscription : Type := mkSubscription {
  id : string;
  stream : AES67Discovery.streamInfo;
  localPort : Z;
  created : string;
  packetsReceived : Z;
  bytesReceived : Z;
  status : string
}.

(** The payload of an [audio/data] message. *)
Record audioData : Type := mkAudioData {
  subscriptionId : string;
  streamName : string;
  rtp : RTPHeader.t;
  audio : Buffer.t;
  format_encoding : JS.value;
  format_channels : Z;
  format_sampleRate : Z
}.

(** The router object; [sent] lists the [audio/data] payloads handed to
    [node.send], oldest first. *)
Record t : Type := mk {
  subscriptions : gmap string subscription;
  sent : list audioData
}.

(** [handleRTPPacket(msg, rinfo, subscriptionId)]. An exception raised
    inside is caught by the handler itself, after the statistics have
    been updated. *)
Definition handleRTPPacket (this : t) (msg : Buffer.t) (subscriptionId : string)
    : t :=
  if Buffer.len msg <? 12 then this
  else
    match subscriptions this !! subscriptionId with
    | None => this
    | Some sub =>
        let sub :=
          mkSubscription (id sub) (stream sub) (localPort sub) (created sub)
            (packetsReceived sub + 1) (bytesReceived sub + Buffer.len msg)
            (status sub) in
        let this := mk (<[subscriptionId := sub]> (subscriptions this))
                       (sent this) in
        match RTPHeader.read msg with
        | None => this
        | Some rtpHeader =>
            let headerLength := 12 + RTPHeader.csrcCount rtpHeader * 4 in
            if Buffer.len msg <? headerLength then this
            else
              let extended :=
                if JS.truthy (RTPHeader.extension rtpHeader)
                   && (headerLength + 4 <=? Buffer.len msg)
                then
                  match Buffer.readUInt16BE msg (headerLength + 2) with
                  | Some w => Some (headerLength + (4 + w * 4))
                  | None => None
                  end
                else Some headerLength in
              match extended with
              | None => this
              | Some headerLength =>
                  if Buffer.len msg <? headerLength then this
                  else
                    let audioPayload := Buffer.slice_from msg headerLength in
                    mk (subscriptions this)
                       (sent this ++
                        [mkAudioData subscriptionId
                           (AES67Discovery.name (stream sub))
                           rtpHeader audioPayload
                           (AES67Discovery.encoding (stream sub))
                           (AES67Discovery.channels (stream sub))
                           (AES67Discovery.sampleRate (stream sub))])
              end
        end
    end.

End AES67Router.

(** ** Vocabulary of the statements *)

(** A datagram long enough to be decoded whose sequence-number field
    (bytes 2-3) holds [n]. *)
Definition carriesSeq (buffer : Buffer.t) (n : Z) : Prop :=
  12 <= Buffer.len buffer /\ Buffer.readUInt16BE buffer 2 = Some n.

(** A minimal RTP datagram: version 2, payload type 96, the given
    sequence number in bytes 2-3, no payload. *)
Definition rtpDatagram (hi lo : byte) : Buffer.t :=
  [x80; x60; hi; lo; x00; x00; x00; x00; x00; x00; x00; x01].

(** Twelve bytes whose CSRC count is 1: the computed header length, 16,
    exceeds the buffer. *)
Definition csrcOverrun : Buffer.t :=
  [x81; x60; x00; x01; x00; x00; x00; x00; x00; x00; x00; x01].

(** Sixteen bytes with the extension bit set and an extension length of
    65535 words: the computed header length, 262156, exceeds the buffer. *)
Definition extensionOverrun : Buffer.t :=
  [x90; x60; x00; x01; x00; x00; x00; x00; x00; x00; x00; x01;
   x00; x00; xff; xff].

(** A datagram with the padding bit set whose raw payload is the three
    bytes 0x11 0x22 0x00, that is, with a padding count of 0. *)
Definition paddedByZero : Buffer.t :=
  [xa0; x60; x00; x01; x00; x00; x00; x00; x00; x00; x00; x01;
   x11; x22; x00].

(** A manager as its constructor builds it and [addAudioData],
    [getAudioData] and [clear] keep it: the cap is the one computed from
    the three parameters, none of which is negative. *)
Definition wellFormed (this : AudioBufferManager.t) : Prop :=
  0 <= AudioBufferManager.sampleRate this
  /\ 0 <= AudioBufferManager.channels this
  /\ 0 <= AudioBufferManager.bytesPerSample this
  /\ AudioBufferManager.maxBufferSize this
     = AudioBufferManager.maxBufferSize
         (AudioBufferManager.new (AudioBufferManager.sampleRate this)
            (AudioBufferManager.channels this)
            (AudioBufferManager.bytesPerSample this)).

(** The manager after the appends of [datas], in order. *)
Definition appendAll (this : AudioBufferManager.t) (datas : list Buffer.t)
    : AudioBufferManager.t :=
  foldl AudioBufferManager.addAudioData this datas.

(** The eight header bytes of a SAP packet. *)
Definition sapHeader (first msgIdHash ip0 ip1 ip2 ip3 : Z) : Buffer.t :=
  [Buffer.of_u8 first; Buffer.of_u8 0;
   Buffer.of_u8 (msgIdHash / 256); Buffer.of_u8 msgIdHash;
   Buffer.of_u8 ip0; Buffer.of_u8 ip1; Buffer.of_u8 ip2; Buffer.of_u8 ip3].

(** The dotted-quad text of four octets. *)
Definition dotted (a b c d : Z) : string :=
  JS.Number_toString a +:+ "." +:+
  JS.Number_toString b +:+ "." +:+
  JS.Number_toString c +:+ "." +:+
  JS.Number_toString d.

(** A string without the character ['.']. *)
Fixpoint noDot (s : string) : bool :=
  match s with
  | EmptyString => true
  | String c r => negb (Ascii.eqb c "."%char) && noDot r
  end.

(** The first [n] characters of a string. *)
Definition firstChars (n : nat) (s : string) : string := substring 0 n s.

(** Carriage return, line feed. *)
Definition CRLF : string := String "013"%char (String "010"%char "").

(** An SDP text whose second line starts with "sdp": it begins with "v=0",
    holds no null byte, and its first eight bytes contain "sdp". *)
Definition sdpNamedSdp : string :=
  "v=0" +:+ CRLF +:+ "sdp=1" +:+ CRLF +:+ "s=Test" +:+ CRLF.

(** The session description of the end-to-end scenario. *)
Definition scenarioSDP : string :=
  "v=0" +:+ CRLF +:+ "o=- 1 1 IN IP4 192.168.1.10" +:+ CRLF +:+
  "s=Test" +:+ CRLF +:+ "c=IN IP4 239.69.1.1" +:+ CRLF +:+
  "t=0 0" +:+ CRLF +:+ "m=audio 5004 RTP/AVP 96" +:+ CRLF +:+
  "a=rtpmap:96 L24/48000/2" +:+ CRLF.

(** No byte of the text is null. *)
Definition nullFree (s : string) : bool :=
  forallb (fun b => negb (Buffer.u8 b =? 0)) (Buffer.from s).

(** A discovery object with empty registries on the given address. *)
Definition discoveryAt (localIP : string) : AES67Discovery.t :=
  AES67Discovery.mk ∅ ∅ ∅ localIP [].

(** The bytes the router's [createSAPPacket] produces on 192.168.1.10 for
    [scenarioSDP]. *)
Definition routerPacket : Buffer.t :=
  [x20; x00; x00; x00; xc0; xa8; x01; x0a]
  ++ Buffer.from "applicat" ++ Buffer.from scenarioSDP.

(** The bytes the specification describes for the same announcement. *)
Definition specifiedPacket : Buffer.t :=
  [x20; x00; x00; x00; xc0; xa8; x01; x0a]
  ++ SAPAnnouncer.payloadTypeTag ++ Buffer.from scenarioSDP.

(** A descriptor of the stream 192.168.1.10:[port] with the given channel
    count and status. *)
Definition descriptor (port channels : Z) (status : string)
    : AES67Discovery.streamInfo :=
  AES67Discovery.mkStreamInfo "1" "Test" "" "192.168.1.10" "239.69.1.1" port
    channels 48000 (JS.VString "L24") 1
    "ptp=IEEE1588-2008:00-00-00-00-00-00-00-00:0" true scenarioSDP 0 status.

(** The media section of the end-to-end scenario, m=audio 5004 RTP/AVP
    96, as [sdp.parse] returns it: the a=rtpmap line is filed under [rtp],
    which [parseSDP] does not read, and there is no [rtpmap]. *)
Definition scenarioMedia : AES67Discovery.media :=
  AES67Discovery.mkMedia "audio" "RTP/AVP" 5004 None None 0 None None.





(** Every byte of [msg] from offset [off] on is ASCII. *)
Definition asciiFrom (off : Z) (msg : Buffer.t) : bool :=
  forallb (fun b => Buffer.u8 b <? 128) (drop (Z.to_nat off) msg).

(** The session of the end-to-end scenario. *)
Definition scenarioSession : AES67Discovery.session :=
  AES67Discovery.mkSession (Some "1") (Some "Test") None (Some "239.69.1.1")
    [scenarioMedia].


(** ** Vocabulary of the further properties *)

(** The twelve header bytes that [buildPacket] writes. *)
Definition rtpHeaderBytes (marker : bool) (payloadType sequenceNumber
    timestamp ssrc : Z) : Buffer.t :=
  [Buffer.of_u8 128;
   Buffer.of_u8 (JS.bor (if marker then 128 else 0) (JS.band payloadType 127));
   Buffer.of_u8 (sequenceNumber / 256); Buffer.of_u8 sequenceNumber;
   Buffer.of_u8 (timestamp / 2 ^ 24); Buffer.of_u8 (timestamp / 2 ^ 16);
   Buffer.of_u8 (timestamp / 2 ^ 8); Buffer.of_u8 timestamp;
   Buffer.of_u8 (ssrc / 2 ^ 24); Buffer.of_u8 (ssrc / 2 ^ 16);
   Buffer.of_u8 (ssrc / 2 ^ 8); Buffer.of_u8 ssrc].

(** A sender session whose three range-checked fields fit their header
    fields. *)
Definition inRange (this : RTPPacketBuilder.t) : Prop :=
  0 <= RTPPacketBuilder.sequenceNumber this <= 65535
  /\ 0 <= RTPPacketBuilder.timestamp this <= 4294967295
  /\ 0 <= RTPPacketBuilder.ssrc this <= 4294967295.

(** [buildPacket] called once per payload, in order: the session left
    and the results of the calls. *)
Fixpoint buildAll (this : RTPPacketBuilder.t) (payloads : list Buffer.t)
    (junk : Buffer.t) : RTPPacketBuilder.t * list (JS.completion Buffer.t) :=
  match payloads with
  | [] => (this, [])
  | audioData :: rest =>
      let '(this', r) := RTPPacketBuilder.buildPacket this audioData false junk in
      let '(this'', rs) := buildAll this' rest junk in
      (this'', r :: rs)
  end.

(** The bytes held by the queue, oldest first. *)
Definition queued (buffers : list Buffer.t) : Buffer.t := concat buffers.

(** A router holding one subscription, "cam_5004", to the stream
    192.168.1.10:5004, with 3 packets and 600 bytes counted so far. *)
Definition oneSubscription : AES67Router.t :=
  AES67Router.mk
    {[ "cam_5004"%string :=
         AES67Router.mkSubscription "cam_5004" (descriptor 5004 2 "active")
           5004 "2024-01-01T00:00:00.000Z" 3 600 "active" ]}
    [].

(** A datagram with the padding bit set, payload type 96, sequence number
    1 and the raw payload 0x11 0x22 0x33 0x02 (two bytes of padding). *)
Definition paddedByTwo : Buffer.t :=
  [xa0; x60; x00; x01; x00; x00; x00; x00; x00; x00; x00; x01;
   x11; x22; x33; x02].

(** The audio message the router sends for [paddedByTwo] on that
    subscription: the four raw payload bytes, padding included. *)
Definition paddedByTwoAudio : AES67Router.audioData :=
  AES67Router.mkAudioData "cam_5004" "Test" (RTPHeader.mk 2 1 0 0 0 96 1 0 1)
    [x11; x22; x33; x02] (JS.VString "L24") 2 48000.

(** The registries agree with one another: every stream of the discovery
    object is filed under its own key, is held by the global registry
    too, and is listed by the device of its source address; every device
    is filed under its own address and lists no key twice. *)
Definition indexed (this : AES67Discovery.t) : Prop :=
  (forall k v,
     AES67Discovery.streams this !! k = Some v ->
     k = AES67Discovery.streamKey v
     /\ AES67Discovery.globalStreamRegistry this !! k = Some v
     /\ exists d,
          AES67Discovery.devices this !! AES67Discovery.sourceIP v = Some d
          /\ k ∈ AES67Discovery.device_streams d)
  /\ (forall ip d,
        AES67Discovery.devices this !! ip = Some d ->
        AES67Discovery.device_ip d = ip
        /\ NoDup (AES67Discovery.device_streams d)).

(** [this'] holds all that [this] holds: every key of the two stream
    registries, every device with its address, its name and the keys it
    listed, in their order, the messages sent, and the local address. *)
Definition extends (this this' : AES67Discovery.t) : Prop :=
  (forall k, is_Some (AES67Discovery.streams this !! k) ->
             is_Some (AES67Discovery.streams this' !! k))
  /\ (forall k, is_Some (AES67Discovery.globalStreamRegistry this !! k) ->
                is_Some (AES67Discovery.globalStreamRegistry this' !! k))
  /\ (forall ip d,
        AES67Discovery.devices this !! ip = Some d ->
        exists d',
          AES67Discovery.devices this' !! ip = Some d'
          /\ AES67Discovery.device_ip d' = AES67Discovery.device_ip d
          /\ AES67Discovery.device_name d' = AES67Discovery.device_name d
          /\ AES67Discovery.device_streams d
             `prefix_of` AES67Discovery.device_streams d')
  /\ AES67Discovery.sent this `prefix_of` AES67Discovery.sent this'
  /\ AES67Discovery.localIP this' = AES67Discovery.localIP this.

(** The deletion packet the sender builds for the session of the
    end-to-end scenario. *)
Definition deletionPacket : Buffer.t :=
  [x24; x00; x00; x00; xc0; xa8; x01; x0a]
  ++ SAPAnnouncer.payloadTypeTag ++ Buffer.from scenarioSDP.

(** A discovery object that filed the stream 192.168.1.10:5004 at time
    1000. *)
Definition oneStream : AES67Discovery.t :=
  (AES67Discovery.registerStream (discoveryAt "192.168.1.20")
     (AES67Discovery.mkStreamInfo "1" "Test" "" "192.168.1.10" "239.69.1.1"
        5004 2 48000 (JS.VString "L24") 1
        "ptp=IEEE1588-2008:00-00-00-00-00-00-00-00:0" true scenarioSDP 1000
        "active")).1.
(** * Properties *)

(** ** Bitwise operators *)

Lemma ToInt32_range x : - 2 ^ 31 <= JS.ToInt32 x < 2 ^ 31.
Proof.
  unfold JS.ToInt32.
  pose proof (Z.mod_pos_bound (x + 2 ^ 31) (2 ^ 32) ltac:(lia)). lia.
Qed.

Lemma ToInt32_id x : - 2 ^ 31 <= x < 2 ^ 31 -> JS.ToInt32 x = x.
Proof.
  intros Hx. unfold JS.ToInt32. rewrite Z.mod_small; lia.
Qed.

Lemma ToInt32_mod_pow2 x n :
  0 <= n <= 32 -> JS.ToInt32 x mod 2 ^ n = x mod 2 ^ n.
Proof.
  intros Hn. unfold JS.ToInt32.
  rewrite (Z.mod_eq (x + 2 ^ 31) (2 ^ 32)) by lia.
  replace (2 ^ 32) with (2 ^ (32 - n) * 2 ^ n)
    by (rewrite <- Z.pow_add_r by lia; f_equal; lia).
  set (q := (x + 2 ^ 31) / (2 ^ (32 - n) * 2 ^ n)).
  replace (x + 2 ^ 31 - 2 ^ (32 - n) * 2 ^ n * q - 2 ^ 31)
    with (x + (- (2 ^ (32 - n) * q)) * 2 ^ n) by ring.
  apply Z_mod_plus_full.
Qed.

(** [x & (2^n - 1)] is [x mod 2^n], whatever the sign of [x]. *)
Lemma band_ones x n :
  0 <= n < 31 -> JS.band x (Z.ones n) = x mod 2 ^ n.
Proof.
  intros Hn. unfold JS.band.
  assert (Hm : 0 <= Z.ones n < 2 ^ 31).
  { rewrite Z.ones_equiv.
    assert (0 < 2 ^ n) by (apply Z.pow_pos_nonneg; lia).
    assert (2 ^ n <= 2 ^ 30) by (apply Z.pow_le_mono_r; lia). lia. }
  rewrite (ToInt32_id (Z.ones n)) by lia.
  rewrite Z.land_ones by lia. apply ToInt32_mod_pow2. lia.
Qed.

Lemma band_65535 x : JS.band x 65535 = x mod 65536.
Proof. exact (band_ones x 16 ltac:(lia)). Qed.

Lemma band_nonneg_r x m : 0 <= m < 2 ^ 31 -> 0 <= JS.band x m.
Proof.
  intros Hm. unfold JS.band. rewrite (ToInt32_id m) by lia.
  apply Z.land_nonneg. right. lia.
Qed.

(** [x & 0xFFFFFFFF] is the signed 32-bit reading of [x]. *)
Lemma band_all_ones x : JS.band x 4294967295 = JS.ToInt32 x.
Proof.
  unfold JS.band. change (JS.ToInt32 4294967295) with (-1).
  apply Z.land_m1_r.
Qed.

(** ** RTP sender session *)

(** What [incrementTimestamp] stores: the sum reduced modulo 2^32 and
    read as a signed word, negative as soon as bit 31 of the sum is set. *)
Lemma incrementTimestamp_signed this samples :
  let t' := RTPPacketBuilder.timestamp
              (RTPPacketBuilder.incrementTimestamp this samples) in
  let m := (RTPPacketBuilder.timestamp this + samples) mod 2 ^ 32 in
  t' = (if m <? 2 ^ 31 then m else m - 2 ^ 32).
Proof.
  cbn. rewrite band_all_ones. unfold JS.ToInt32.
  set (s := RTPPacketBuilder.timestamp this + samples).
  pose proof (Z.mod_pos_bound s (2 ^ 32) ltac:(lia)) as Hb.
  destruct (Z.ltb_spec (s mod 2 ^ 32) (2 ^ 31)) as [Hlt | Hge].
  - rewrite <- (Zplus_mod_idemp_l s). rewrite Z.mod_small; lia.
  - rewrite <- (Zplus_mod_idemp_l s).
    replace (s mod 2 ^ 32 + 2 ^ 31)
      with (s mod 2 ^ 32 - 2 ^ 31 + 1 * 2 ^ 32) by ring.
    rewrite Z_mod_plus_full. rewrite Z.mod_small; lia.
Qed.

(** C3 (the code departs from it): advancing the timestamp 2^31 - 1 by one
    sample stores -2147483648, which is outside [0, 2^32) and is not
    (old + s) mod 2^32 = 2147483648; the next [buildPacket] then raises
    in [writeUInt32BE] instead of producing a packet. *)
Theorem incrementTimestamp_bit31_negative :
  let this := RTPPacketBuilder.mk 96 1734803456 48000 7 2147483647 in
  let this' := RTPPacketBuilder.incrementTimestamp this 1 in
  RTPPacketBuilder.timestamp this' = -2147483648
  /\ RTPPacketBuilder.timestamp this' <> (2147483647 + 1) mod 2 ^ 32
  /\ ~ (0 <= RTPPacketBuilder.timestamp this' < 2 ^ 32)
  /\ (RTPPacketBuilder.buildPacket this' [] false []).2
     = JS.Throw "ERR_OUT_OF_RANGE".
Proof.
  vm_compute. repeat split; try discriminate.
  intros [H _]. apply H. reflexivity.
Qed.

(** ** RTP parser *)

Lemma u8_range b : 0 <= Buffer.u8 b < 256.
Proof.
  unfold Buffer.u8. pose proof (Byte.to_N_bounded b). lia.
Qed.

Lemma bits_range b i : 0 <= Buffer.bits b i < 256.
Proof.
  unfold Buffer.bits, Buffer.get.
  destruct (i <? 0); [cbn; lia|].
  destruct (b !! Z.to_nat i) as [x|]; cbn; [apply u8_range | lia].
Qed.

Lemma readUInt16BE_range b off w :
  Buffer.readUInt16BE b off = Some w -> 0 <= w < 65536.
Proof.
  unfold Buffer.readUInt16BE.
  destruct (_ && _); [|discriminate]. intros [= <-].
  pose proof (bits_range b off). pose proof (bits_range b (off + 1)). lia.
Qed.

Lemma read_long buffer :
  12 <= Buffer.len buffer ->
  exists h, RTPHeader.read buffer = Some h
            /\ Buffer.readUInt16BE buffer 2 = Some (RTPHeader.sequenceNumber h)
            /\ 0 <= RTPHeader.csrcCount h.
Proof.
  intros Hlen. unfold RTPHeader.read, Buffer.readUInt16BE, Buffer.readUInt32BE.
  destruct (Z.leb_spec (2 + 2) (Buffer.len buffer)); [|lia].
  destruct (Z.leb_spec (4 + 4) (Buffer.len buffer)); [|lia].
  destruct (Z.leb_spec (8 + 4) (Buffer.len buffer)); [|lia].
  cbn [andb Z.leb Z.compare]. eexists. split; [reflexivity|].
  split; [reflexivity|]. cbn [RTPHeader.csrcCount].
  apply band_nonneg_r. lia.
Qed.

Lemma extended_in_range buffer h headerLength :
  0 <= headerLength ->
  exists headerLength', RTPPacketParser.extended buffer h headerLength
                        = Some headerLength'.
Proof.
  intros Hh. unfold RTPPacketParser.extended.
  destruct (JS.truthy _); [|eauto].
  destruct (Z.leb_spec (headerLength + 4) (Buffer.len buffer)); [|eauto].
  unfold Buffer.readUInt16BE.
  destruct (Z.leb_spec 0 (headerLength + 2)); [|lia].
  destruct (Z.leb_spec (headerLength + 2 + 2) (Buffer.len buffer)); [|lia].
  cbn [andb]. eauto.
Qed.

(** On twelve bytes or more the call returns a packet, and the parser is
    left as [account] leaves it. *)
Lemma parsePacket_long this buffer :
  12 <= Buffer.len buffer ->
  exists h pay,
    RTPHeader.read buffer = Some h
    /\ RTPPacketParser.parsePacket this buffer
       = (RTPPacketParser.account this (RTPHeader.sequenceNumber h),
          JS.Return (Some (RTPPacketParser.mkPacket h pay))).
Proof.
  intros Hlen. destruct (read_long buffer Hlen) as (h & Hr & _ & Hcc).
  destruct (extended_in_range buffer h (12 + RTPHeader.csrcCount h * 4)
              ltac:(lia)) as [hl Hext].
  exists h. eexists. split; [exact Hr|].
  unfold RTPPacketParser.parsePacket.
  destruct (Z.ltb_spec (Buffer.len buffer) 12); [lia|].
  rewrite Hr, Hext. reflexivity.
Qed.

Lemma parsePacket_short this buffer :
  Buffer.len buffer < 12 ->
  RTPPacketParser.parsePacket this buffer = (this, JS.Return None).
Proof.
  intros Hlen. unfold RTPPacketParser.parsePacket.
  destruct (Z.ltb_spec (Buffer.len buffer) 12); [reflexivity|lia].
Qed.

(** [parsePacket] never raises. *)
Lemma parsePacket_returns this buffer :
  exists r, (RTPPacketParser.parsePacket this buffer).2 = JS.Return r.
Proof.
  destruct (Z.lt_ge_cases (Buffer.len buffer) 12) as [Hs | Hl].
  - rewrite parsePacket_short by exact Hs. eauto.
  - destruct (parsePacket_long this buffer Hl) as (h & pay & _ & ->). eauto.
Qed.

Lemma parsePacket_carriesSeq this buffer n :
  carriesSeq buffer n ->
  exists pkt, RTPPacketParser.parsePacket this buffer
              = (RTPPacketParser.account this n, JS.Return (Some pkt)).
Proof.
  intros [Hlen Hseq].
  destruct (read_long buffer Hlen) as (h & Hr & Hs & _).
  destruct (parsePacket_long this buffer Hlen) as (h' & pay & Hr' & ->).
  assert (h' = h) as -> by congruence.
  assert (RTPHeader.sequenceNumber h = n) as -> by congruence.
  eauto.
Qed.

(** What one accounted packet adds to the loss counter. *)
Lemma account_lost this actual :
  RTPPacketParser.packetsLost (RTPPacketParser.account this actual)
  = match RTPPacketParser.lastSequence this with
    | None => RTPPacketParser.packetsLost this
    | Some last =>
        RTPPacketParser.packetsLost this
        + (actual - (last + 1) mod 65536 + 65536) mod 65536
    end.
Proof.
  unfold RTPPacketParser.account. cbn [RTPPacketParser.packetsLost].
  destruct (RTPPacketParser.lastSequence this) as [last|]; [|reflexivity].
  rewrite !band_65535.
  destruct (Z.eqb_spec actual ((last + 1) mod 65536)) as [-> | Hne];
    cbn [negb]; [|reflexivity].
  replace ((last + 1) mod 65536 - (last + 1) mod 65536 + 65536)
    with (0 + 1 * 65536) by ring.
  rewrite Z_mod_plus_full. rewrite Z.mod_0_l by lia. lia.
Qed.

(** The counters never go negative. *)
Lemma account_nonneg this sn :
  0 <= RTPPacketParser.packetsLost this ->
  0 <= RTPPacketParser.packetsReceived this ->
  0 <= RTPPacketParser.packetsLost (RTPPacketParser.account this sn)
  /\ 0 < RTPPacketParser.packetsReceived (RTPPacketParser.account this sn).
Proof.
  intros Hl Hr. rewrite account_lost. cbn [RTPPacketParser.account
    RTPPacketParser.packetsReceived].
  split; [|lia].
  destruct (RTPPacketParser.lastSequence this) as [last|]; [|lia].
  pose proof (Z.mod_pos_bound (sn - (last + 1) mod 65536 + 65536) 65536
                ltac:(lia)). lia.
Qed.

Lemma reachable_nonneg this :
  RTPPacketParser.reachable this ->
  0 <= RTPPacketParser.packetsLost this
  /\ 0 <= RTPPacketParser.packetsReceived this.
Proof.
  induction 1 as [| this buffer _ [IHl IHr] | this _ _].
  - cbn. lia.
  - destruct (Z.lt_ge_cases (Buffer.len buffer) 12) as [Hs | Hl].
    + rewrite parsePacket_short by exact Hs. cbn. lia.
    + destruct (parsePacket_long this buffer Hl) as (h & pay & _ & ->).
      cbn [fst]. destruct (account_nonneg this (RTPHeader.sequenceNumber h));
        lia.
  - cbn. lia.
Qed.

(** C4: on a fresh parser the datagrams numbered 1, 2, 4, 5 leave
    packetsLost = 1, packetsReceived = 4 and a loss rate of 0.2; and any
    decoded datagram numbered [actual] sets lastSequence to [actual],
    counts one more packet received, adds nothing to packetsLost when it
    is the first one, and otherwise adds
    (actual - expected + 65536) mod 65536 with
    expected = (lastSequence + 1) mod 65536. *)
Theorem loss_accounting (b1 b2 b3 b4 buffer : Buffer.t)
    (this : RTPPacketParser.t) (actual : Z) :
  carriesSeq b1 1 -> carriesSeq b2 2 -> carriesSeq b3 4 -> carriesSeq b4 5 ->
  carriesSeq buffer actual ->
  (let p := RTPPacketParser.feed RTPPacketParser.new [b1; b2; b3; b4] in
   RTPPacketParser.packetsLost p = 1
   /\ RTPPacketParser.packetsReceived p = 4
   /\ JS.finite (RTPPacketParser.lossRate (RTPPacketParser.getStats p))
        0.2%Q)
  /\ (let this' := (RTPPacketParser.parsePacket this buffer).1 in
      (exists pkt, (RTPPacketParser.parsePacket this buffer).2
                   = JS.Return (Some pkt))
      /\ RTPPacketParser.lastSequence this' = Some actual
      /\ RTPPacketParser.packetsReceived this'
         = RTPPacketParser.packetsReceived this + 1
      /\ RTPPacketParser.packetsLost this'
         = match RTPPacketParser.lastSequence this with
           | None => RTPPacketParser.packetsLost this
           | Some last =>
               RTPPacketParser.packetsLost this
               + (actual - (last + 1) mod 65536 + 65536) mod 65536
           end).
Proof.
  intros H1 H2 H3 H4 Hb. split.
  - unfold RTPPacketParser.feed. cbn [foldl].
    destruct (parsePacket_carriesSeq RTPPacketParser.new b1 1 H1) as [? ->].
    cbn [fst].
    destruct (parsePacket_carriesSeq
                (RTPPacketParser.account RTPPacketParser.new 1) b2 2 H2)
      as [? ->]. cbn [fst].
    destruct (parsePacket_carriesSeq
                (RTPPacketParser.account
                   (RTPPacketParser.account RTPPacketParser.new 1) 2) b3 4 H3)
      as [? ->]. cbn [fst].
    destruct (parsePacket_carriesSeq
                (RTPPacketParser.account
                   (RTPPacketParser.account
                      (RTPPacketParser.account RTPPacketParser.new 1) 2) 4)
                b4 5 H4) as [? ->]. cbn [fst].
    vm_compute. repeat split; reflexivity.
  - destruct (parsePacket_carriesSeq this buffer actual Hb) as [pkt ->].
    cbn [fst snd]. split; [eauto|]. split; [reflexivity|].
    split; [reflexivity|]. apply account_lost.
Qed.

(** The loss accounting on four minimal datagrams numbered 1, 2, 4, 5, and
    one step across the wrap from 65535 to 2 (two packets lost). *)
Lemma loss_accounting_witness :
  let b := rtpDatagram x00 in
  (let p := RTPPacketParser.feed RTPPacketParser.new
              [b x01; b x02; b x04; b x05] in
   RTPPacketParser.packetsLost p = 1
   /\ RTPPacketParser.packetsReceived p = 4
   /\ JS.finite (RTPPacketParser.lossRate (RTPPacketParser.getStats p))
        0.2%Q)
  /\ (let this := RTPPacketParser.mk (Some 65535) 3 9 in
      let this' := (RTPPacketParser.parsePacket this (b x02)).1 in
      (exists pkt, (RTPPacketParser.parsePacket this (b x02)).2
                   = JS.Return (Some pkt))
      /\ RTPPacketParser.lastSequence this' = Some 2
      /\ RTPPacketParser.packetsReceived this' = 9 + 1
      /\ RTPPacketParser.packetsLost this'
         = 3 + (2 - (65535 + 1) mod 65536 + 65536) mod 65536).
Proof.
  intro b.
  apply (loss_accounting (b x01) (b x02) (b x04) (b x05) (b x02)
           (RTPPacketParser.mk (Some 65535) 3 9) 2);
    split; vm_compute; first [reflexivity | discriminate].
Defined.

Lemma reachable_idle this :
  RTPPacketParser.reachable this ->
  RTPPacketParser.packetsReceived this = 0 ->
  RTPPacketParser.packetsLost this = 0.
Proof.
  induction 1 as [| this buffer Hr IH | this _ _]; [reflexivity | | reflexivity].
  destruct (Z.lt_ge_cases (Buffer.len buffer) 12) as [Hs | Hl].
  - rewrite parsePacket_short by exact Hs. exact IH.
  - destruct (parsePacket_long this buffer Hl) as (h & pay & _ & ->).
    cbn [fst]. destruct (reachable_nonneg this Hr) as [Hlost Hrecv].
    destruct (account_nonneg this (RTPHeader.sequenceNumber h) Hlost Hrecv).
    lia.
Qed.

(** C10: in every state a parser can reach, [getStats] returns a loss
    rate that is a number between 0 and 1, never NaN or an infinity.
    While no packet has been received it returns 0 and the division is
    not evaluated, which would be 0 / 0, that is NaN; once a packet has
    been received the divisor packetsReceived + packetsLost is positive
    and the rate is packetsLost / (packetsReceived + packetsLost). *)
Theorem lossRate_unit_interval (this : RTPPacketParser.t) :
  RTPPacketParser.reachable this ->
  let received := RTPPacketParser.packetsReceived this in
  let lost := RTPPacketParser.packetsLost this in
  let rate := RTPPacketParser.lossRate (RTPPacketParser.getStats this) in
  (exists q : Q, rate = JS.Num q /\ (0 <= q)%Q /\ (q <= 1)%Q)
  /\ (received = 0 ->
      rate = JS.Num 0 /\ JS.div lost (received + lost) = JS.NaN)
  /\ (0 < received ->
      0 < received + lost
      /\ rate = JS.Num (inject_Z lost / inject_Z (received + lost))).
Proof.
  intros Hr received lost rate.
  destruct (reachable_nonneg this Hr) as [Hl Hrecv].
  pose proof (reachable_idle this Hr) as Hidle.
  fold received in Hrecv, Hidle. fold lost in Hl, Hidle.
  subst rate. unfold RTPPacketParser.getStats.
  cbn [RTPPacketParser.lossRate]. fold received lost.
  destruct (Z.ltb_spec 0 received) as [Hpos | Hzero].
  - assert (JS.div lost (received + lost)
            = JS.Num (inject_Z lost / inject_Z (received + lost))) as ->.
    { unfold JS.div. destruct (Z.eqb_spec (received + lost) 0); [lia|].
      reflexivity. }
    split; [|split; [lia | split; [lia | reflexivity]]].
    eexists. split; [reflexivity|]. split.
    + apply Qle_shift_div_l.
      * unfold Qlt. cbn. lia.
      * unfold Qle. cbn. lia.
    + apply Qle_shift_div_r.
      * unfold Qlt. cbn. lia.
      * unfold Qle. cbn. lia.
  - assert (received = 0) as Hnone by lia.
    split; [|split; [|lia]].
    + exists 0%Q. split; [reflexivity|]. split; [apply Qle_refl|].
      unfold Qle. cbn. lia.
    + intros _. split; [reflexivity|].
      rewrite (Hidle Hnone), Hnone. reflexivity.
Qed.

(** On the fresh parser the rate is 0 where the division would give NaN,
    and the parser that has decoded the datagrams numbered 1 and 4 has a
    rate between 0 and 1. *)
Lemma lossRate_unit_interval_witness :
  (RTPPacketParser.lossRate (RTPPacketParser.getStats RTPPacketParser.new)
   = JS.Num 0
   /\ JS.div (RTPPacketParser.packetsLost RTPPacketParser.new)
        (RTPPacketParser.packetsReceived RTPPacketParser.new
         + RTPPacketParser.packetsLost RTPPacketParser.new)
      = JS.NaN)
  /\ (let this := RTPPacketParser.feed RTPPacketParser.new
                    [rtpDatagram x00 x01; rtpDatagram x00 x04] in
      RTPPacketParser.reachable this
      /\ exists q : Q,
           RTPPacketParser.lossRate (RTPPacketParser.getStats this) = JS.Num q
           /\ (0 <= q)%Q /\ (q <= 1)%Q).
Proof.
  split.
  - destruct (lossRate_unit_interval RTPPacketParser.new
                RTPPacketParser.reach_new) as (_ & H & _).
    exact (H eq_refl).
  - assert (Hr : RTPPacketParser.reachable
                   (RTPPacketParser.feed RTPPacketParser.new
                      [rtpDatagram x00 x01; rtpDatagram x00 x04])).
    { unfold RTPPacketParser.feed. cbn [foldl].
      do 2 apply RTPPacketParser.reach_parse. apply RTPPacketParser.reach_new. }
    split; [exact Hr|].
    destruct (lossRate_unit_interval _ Hr) as (H & _).
    exact H.
Defined.

(** [handleRTPPacket] sends at most one message, and only one whose audio
    starts at a header length that lies within the datagram. *)
Lemma handleRTPPacket_sent this msg subscriptionId :
  AES67Router.sent (AES67Router.handleRTPPacket this msg subscriptionId)
  = AES67Router.sent this
  \/ exists a headerLength,
       AES67Router.sent (AES67Router.handleRTPPacket this msg subscriptionId)
       = AES67Router.sent this ++ [a]
       /\ 12 <= headerLength <= Buffer.len msg
       /\ AES67Router.audio a = Buffer.slice_from msg headerLength.
Proof.
  unfold AES67Router.handleRTPPacket.
  destruct (Z.ltb_spec (Buffer.len msg) 12) as [|Hlen]; [by left|].
  destruct (AES67Router.subscriptions this !! subscriptionId) as [sub|];
    [|by left].
  destruct (read_long msg Hlen) as (h & -> & _ & Hcc).
  cbn [AES67Router.sent AES67Router.subscriptions].
  destruct (Z.ltb_spec (Buffer.len msg) (12 + RTPHeader.csrcCount h * 4));
    [by left|].
  destruct (JS.truthy (RTPHeader.extension h)
            && (12 + RTPHeader.csrcCount h * 4 + 4 <=? Buffer.len msg)).
  - destruct (Buffer.readUInt16BE msg _) as [w|] eqn:Hw; [|by left].
    apply readUInt16BE_range in Hw.
    destruct (Z.ltb_spec (Buffer.len msg)
                (12 + RTPHeader.csrcCount h * 4 + (4 + w * 4))); [by left|].
    right. eexists _, _. cbn [AES67Router.sent].
    split; [reflexivity|]. split; [|reflexivity].
    lia.
  - destruct (Z.ltb_spec (Buffer.len msg) (12 + RTPHeader.csrcCount h * 4));
      [by left|].
    right. eexists _, _. cbn [AES67Router.sent].
    split; [reflexivity|]. split; [|reflexivity]. lia.
Qed.

(** C2 (the code departs from it): [parsePacket] does return null below
    twelve bytes and never raises, but it has no check of the computed
    header length. On twelve bytes with CSRC count 1 (header length 16) and
    on sixteen bytes with an extension of 65535 words (header length
    262156) it returns a packet with an empty payload, where
    [handleRTPPacket], which has the check, sends nothing. *)
Theorem parsePacket_header_overrun_not_null :
  Buffer.len csrcOverrun < 12 + 1 * 4
  /\ Buffer.len extensionOverrun < 12 + 0 * 4 + (4 + 65535 * 4)
  /\ (exists h, (RTPPacketParser.parsePacket RTPPacketParser.new csrcOverrun).2
                = JS.Return (Some (RTPPacketParser.mkPacket h []))
                /\ RTPHeader.csrcCount h = 1)
  /\ (exists h,
        (RTPPacketParser.parsePacket RTPPacketParser.new extensionOverrun).2
        = JS.Return (Some (RTPPacketParser.mkPacket h []))
        /\ RTPHeader.extension h = 1
        /\ Buffer.readUInt16BE extensionOverrun 14 = Some 65535)
  /\ (forall this subscriptionId,
        AES67Router.sent
          (AES67Router.handleRTPPacket this csrcOverrun subscriptionId)
        = AES67Router.sent this
        /\ AES67Router.sent
             (AES67Router.handleRTPPacket this extensionOverrun subscriptionId)
           = AES67Router.sent this).
Proof.
  split; [vm_compute; reflexivity|].
  split; [vm_compute; reflexivity|].
  split; [eexists; vm_compute; split; reflexivity|].
  split; [eexists; vm_compute; repeat split; reflexivity|].
  intros this subscriptionId. unfold AES67Router.handleRTPPacket.
  split.
  - change (Buffer.len csrcOverrun <? 12) with false. cbv iota.
    destruct (AES67Router.subscriptions this !! subscriptionId);
      reflexivity.
  - change (Buffer.len extensionOverrun <? 12) with false. cbv iota.
    destruct (AES67Router.subscriptions this !! subscriptionId);
      reflexivity.
Qed.

(** With the padding bit set and a last payload byte k of at least 1, the
    returned payload is the raw payload without its last k bytes, and is
    empty when k exceeds the payload length. *)
Lemma unpad_positive h payload k :
  JS.truthy (RTPHeader.padding h) = true ->
  payload <> [] ->
  Buffer.bits payload (Buffer.len payload - 1) = k ->
  1 <= k ->
  RTPPacketParser.unpad h payload
  = take (length payload - Z.to_nat k) payload.
Proof.
  intros Hp Hne Hk Hpos. unfold RTPPacketParser.unpad. rewrite Hp, Hk.
  assert (0 < Buffer.len payload) as Hlen.
  { unfold Buffer.len. destruct payload; [done | cbn; lia]. }
  destruct (Z.ltb_spec 0 (Buffer.len payload)); [|lia]. cbn [andb].
  unfold Buffer.slice, Buffer.clamp.
  destruct (Z.ltb_spec (- k) 0); [|lia].
  change (0 <? 0) with false. cbv iota.
  rewrite Z.min_l by lia. cbn [Z.to_nat drop]. f_equal.
  unfold Buffer.len in *. lia.
Qed.

(** C7 (the code departs from it): a padding count of 0 does not return
    the payload unchanged. The datagram [paddedByZero] has the padding bit
    set and the raw payload 0x11 0x22 0x00, whose last byte is 0;
    [parsePacket] returns an empty payload, three bytes short of the
    n - k = 3 - 0 that the property gives. *)
Theorem parsePacket_padding_zero_strips_all :
  exists h,
    (RTPPacketParser.parsePacket RTPPacketParser.new paddedByZero).2
    = JS.Return (Some (RTPPacketParser.mkPacket h []))
    /\ RTPHeader.padding h = 1
    /\ Buffer.slice_from paddedByZero 12 = [x11; x22; x00]
    /\ Buffer.bits [x11; x22; x00] 2 = 0
    /\ RTPPacketParser.unpad h [x11; x22; x00] = [].
Proof.
  eexists. vm_compute. repeat split; reflexivity.
Qed.

(** ** Jitter buffer *)

Lemma total_from acc buffers :
  foldl (fun sum buf => sum + Buffer.len buf) acc buffers
  = acc + AudioBufferManager.total buffers.
Proof.
  unfold AudioBufferManager.total. revert acc.
  induction buffers as [|b l IH]; intros acc; cbn [foldl]; [lia|].
  rewrite (IH (acc + Buffer.len b)), (IH (0 + Buffer.len b)). lia.
Qed.

Lemma total_cons b buffers :
  AudioBufferManager.total (b :: buffers)
  = Buffer.len b + AudioBufferManager.total buffers.
Proof.
  unfold AudioBufferManager.total at 1. cbn [foldl]. apply total_from.
Qed.

Lemma total_nonneg buffers : 0 <= AudioBufferManager.total buffers.
Proof.
  induction buffers as [|b l IH]; [by cbn|].
  rewrite total_cons. unfold Buffer.len. lia.
Qed.

Lemma Qgtb_true a b : AudioBufferManager.Qgtb a b = true <-> ~ (a <= b)%Q.
Proof.
  unfold AudioBufferManager.Qgtb. rewrite negb_true_iff.
  rewrite <- Qle_bool_iff. destruct (Qle_bool a b); split; done.
Qed.

Lemma Qgtb_false a b : AudioBufferManager.Qgtb a b = false <-> (a <= b)%Q.
Proof.
  unfold AudioBufferManager.Qgtb. rewrite negb_false_iff.
  apply Qle_bool_iff.
Qed.

(** The loop drops the shortest prefix of the queue that brings the
    total down to 80 % of the cap. *)
Lemma trim_spec (cap : Q) buffers :
  (0 <= cap)%Q ->
  exists k : nat,
    AudioBufferManager.trim cap buffers = drop k buffers
    /\ (inject_Z (AudioBufferManager.total (drop k buffers))
        <= cap * (8 # 10))%Q
    /\ forall j : nat, (j < k)%nat ->
         ~ (inject_Z (AudioBufferManager.total (drop j buffers))
            <= cap * (8 # 10))%Q.
Proof.
  intros Hcap. induction buffers as [|b l IH].
  - exists 0%nat. cbn. split; [reflexivity|]. split; [|intros; lia].
    change (inject_Z 0) with 0%Q. lra.
  - cbn [AudioBufferManager.trim].
    destruct (AudioBufferManager.Qgtb _ _) eqn:Hgt.
    + destruct IH as (k & Hk & Hle & Hmin). exists (S k). cbn [drop].
      split; [exact Hk|]. split; [exact Hle|].
      intros [|j] Hj; cbn [drop].
      * apply Qgtb_true. exact Hgt.
      * apply Hmin. lia.
    + exists 0%nat. cbn [drop]. split; [reflexivity|].
      split; [by apply Qgtb_false | intros; lia].
Qed.

Lemma cap_nonneg sampleRate channels bytesPerSample :
  0 <= sampleRate -> 0 <= channels -> 0 <= bytesPerSample ->
  (0 <= AudioBufferManager.maxBufferSize
          (AudioBufferManager.new sampleRate channels bytesPerSample))%Q.
Proof.
  intros. cbn. unfold Qle. cbn. nia.
Qed.

(** One append, from any well-formed manager. *)
Lemma addAudioData_step this data :
  wellFormed this ->
  let cap := AudioBufferManager.maxBufferSize this in
  let queue := AudioBufferManager.buffers this ++ [data] in
  let this' := AudioBufferManager.addAudioData this data in
  wellFormed this'
  /\ ((inject_Z (AudioBufferManager.total queue) <= cap)%Q ->
      AudioBufferManager.buffers this' = queue)
  /\ (~ (inject_Z (AudioBufferManager.total queue) <= cap)%Q ->
      exists k : nat,
        AudioBufferManager.buffers this' = drop k queue
        /\ (inject_Z (AudioBufferManager.total (drop k queue))
            <= cap * (8 # 10))%Q
        /\ forall j : nat, (j < k)%nat ->
             ~ (inject_Z (AudioBufferManager.total (drop j queue))
                <= cap * (8 # 10))%Q)
  /\ (inject_Z (AudioBufferManager.getBufferedAmount this') <= cap)%Q.
Proof.
  intros (Hs & Hc & Hb & Hcap) cap queue this'.
  assert (0 <= cap)%Q as Hpos.
  { subst cap. rewrite Hcap. by apply cap_nonneg. }
  split; [by repeat split|].
  subst this'. unfold AudioBufferManager.addAudioData,
    AudioBufferManager.getBufferedAmount.
  cbn [AudioBufferManager.buffers]. fold queue. fold cap.
  destruct (AudioBufferManager.Qgtb _ cap) eqn:Hgt.
  - apply Qgtb_true in Hgt.
    destruct (trim_spec cap queue Hpos) as (k & Hk & Hle & Hmin).
    split; [intros; contradiction|].
    split; [intros _; exists k; by repeat split|].
    rewrite Hk. lra.
  - apply Qgtb_false in Hgt.
    split; [reflexivity|]. split; [intros; contradiction | exact Hgt].
Qed.

Lemma appendAll_wellFormed this datas :
  wellFormed this ->
  wellFormed (appendAll this datas)
  /\ AudioBufferManager.maxBufferSize (appendAll this datas)
     = AudioBufferManager.maxBufferSize this.
Proof.
  unfold appendAll. revert this.
  induction datas as [|d l IH]; intros this Hwf; cbn [foldl]; [done|].
  destruct (addAudioData_step this d Hwf) as (Hwf' & _).
  destruct (IH _ Hwf') as [H1 H2]. split; [exact H1|]. rewrite H2.
  reflexivity.
Qed.

(** C8: after any sequence of appends to a manager built for a sample
    rate, channel count and sample width, one more append leaves the
    queue as pushed when its total does not exceed
    maxBufferedBytes = sampleRate x channels x bytesPerSample x 0.1, and
    otherwise drops chunks from the head, oldest first and no more than
    needed, until the total is at most 80 % of that cap; either way the
    buffered total is at most maxBufferedBytes afterwards. *)
Theorem addAudioData_bounded (sampleRate channels bytesPerSample : Z)
    (datas : list Buffer.t) (data : Buffer.t) :
  0 <= sampleRate -> 0 <= channels -> 0 <= bytesPerSample ->
  let maxBufferedBytes :=
    (inject_Z (sampleRate * channels * bytesPerSample) * (1 # 10))%Q in
  let this :=
    appendAll (AudioBufferManager.new sampleRate channels bytesPerSample)
      datas in
  let queue := AudioBufferManager.buffers this ++ [data] in
  let this' := AudioBufferManager.addAudioData this data in
  ((inject_Z (AudioBufferManager.total queue) <= maxBufferedBytes)%Q ->
   AudioBufferManager.buffers this' = queue)
  /\ (~ (inject_Z (AudioBufferManager.total queue) <= maxBufferedBytes)%Q ->
      exists k : nat,
        AudioBufferManager.buffers this' = drop k queue
        /\ (inject_Z (AudioBufferManager.total (drop k queue))
            <= maxBufferedBytes * (8 # 10))%Q
        /\ forall j : nat, (j < k)%nat ->
             ~ (inject_Z (AudioBufferManager.total (drop j queue))
                <= maxBufferedBytes * (8 # 10))%Q)
  /\ (inject_Z (AudioBufferManager.getBufferedAmount this')
      <= maxBufferedBytes)%Q.
Proof.
  intros Hs Hc Hb maxBufferedBytes this queue this'.
  assert (wellFormed
            (AudioBufferManager.new sampleRate channels bytesPerSample))
    as Hwf0 by (by repeat split).
  destruct (appendAll_wellFormed _ datas Hwf0) as [Hwf Hcap].
  fold this in Hwf, Hcap. cbn [AudioBufferManager.new
    AudioBufferManager.maxBufferSize] in Hcap. fold maxBufferedBytes in Hcap.
  destruct (addAudioData_step this data Hwf) as (_ & H1 & H2 & H3).
  rewrite Hcap in H1, H2, H3. by repeat split.
Qed.

(** A cap of 200 bytes: after chunks of 150 and 40 bytes, a chunk of 30
    bytes makes 220, the oldest chunk is dropped and 70 bytes remain. *)
Lemma addAudioData_bounded_witness :
  let this :=
    appendAll (AudioBufferManager.new 1000 1 2)
      [replicate 150 x00; replicate 40 x01] in
  let this' := AudioBufferManager.addAudioData this (replicate 30 x02) in
  AudioBufferManager.buffers this' = [replicate 40 x01; replicate 30 x02]
  /\ (inject_Z (AudioBufferManager.getBufferedAmount this')
      <= inject_Z (1000 * 1 * 2) * (1 # 10))%Q.
Proof.
  split; [vm_compute; reflexivity|].
  apply (addAudioData_bounded 1000 1 2
           [replicate 150 x00; replicate 40 x01] (replicate 30 x02)); lia.
Defined.

(** ** SAP packets *)

Lemma allocUnsafe_length n junk :
  length (allocUnsafe n junk) = Z.to_nat n.
Proof.
  unfold allocUnsafe. rewrite length_take, length_app, length_replicate. lia.
Qed.

Lemma blit_at_nil dst : Buffer.blit_at dst 0 [] = dst.
Proof. destruct dst; reflexivity. Qed.

Lemma blit_at_full dst src :
  length src = length dst -> Buffer.blit_at dst 0 src = src.
Proof.
  revert src. induction dst as [|d dst IH]; intros [|s src] Hlen;
    cbn in *; try done.
  f_equal. apply IH. lia.
Qed.

Lemma from_length s : length (Buffer.from s) = String.length s.
Proof.
  unfold Buffer.from, list_byte_of_string. rewrite List.length_map.
  induction s as [|c s IH]; cbn; [done|]. by rewrite IH.
Qed.

(** The packet of the sender: the header, the sixteen bytes of the
    payload-type tag, then the SDP text, whatever the allocator held. *)
Lemma sapPacket_layout this first sdpData junk :
  0 <= SAPAnnouncer.msgIdHash this <= 65535 ->
  let ipParts :=
    JS.parseInt <$> JS.split "."%char (SAPAnnouncer.sourceIP this) in
  SAPAnnouncer.sapPacket this first sdpData junk
  = JS.Return
      (sapHeader first (SAPAnnouncer.msgIdHash this)
         (ipPart ipParts 0) (ipPart ipParts 1) (ipPart ipParts 2)
         (ipPart ipParts 3)
       ++ SAPAnnouncer.payloadTypeTag ++ Buffer.from sdpData).
Proof.
  intros Hhash ipParts. unfold SAPAnnouncer.sapPacket. fold ipParts.
  set (ip0 := ipPart ipParts 0). set (ip1 := ipPart ipParts 1).
  set (ip2 := ipPart ipParts 2). set (ip3 := ipPart ipParts 3).
  set (body := Buffer.from sdpData).
  set (p := allocUnsafe _ junk).
  assert (length p = (24 + length body)%nat) as Hp.
  { subst p. rewrite allocUnsafe_length. unfold Buffer.len.
    change (length SAPAnnouncer.payloadTypeTag) with 16%nat. lia. }
  do 24 (destruct p as [|? p]; [cbn in Hp; lia|]).
  assert (length body = length p) as Hrest by (cbn in Hp; lia).
  unfold writeUInt16BE, Buffer.bytesUInt16BE, Buffer.set, Buffer.blit,
    sapHeader.
  destruct (Z.leb_spec 0 (SAPAnnouncer.msgIdHash this)); [|lia].
  destruct (Z.leb_spec (SAPAnnouncer.msgIdHash this) 65535); [|lia].
  change (Buffer.len SAPAnnouncer.payloadTypeTag) with 16.
  generalize (Buffer.of_u8 first) (Buffer.of_u8 0)
    (Buffer.of_u8 (SAPAnnouncer.msgIdHash this / 256))
    (Buffer.of_u8 (SAPAnnouncer.msgIdHash this))
    (Buffer.of_u8 ip0) (Buffer.of_u8 ip1) (Buffer.of_u8 ip2)
    (Buffer.of_u8 ip3).
  intros c0 c1 c2 c3 c4 c5 c6 c7.
  change (0 <? 0) with false. change (1 <? 0) with false.
  change (4 <? 0) with false. change (5 <? 0) with false.
  change (6 <? 0) with false. change (7 <? 0) with false. cbv iota.
  match goal with
  | |- context [Z.leb (2 + 2) ?y] =>
      destruct (Z.leb_spec (2 + 2) y) as [_ | Hbad];
      [|exfalso; unfold Buffer.len in Hbad; rewrite !length_insert in Hbad;
        cbn [length] in Hbad; lia]
  end.
  change (0 <=? 2) with true. cbv iota. cbn [andb fmap option_fmap option_map].
  match goal with
  | |- JS.Return ?l = _ =>
      change l
        with ([c0; c1; c2; c3; c4; c5; c6; c7] ++ SAPAnnouncer.payloadTypeTag
              ++ Buffer.blit_at (Buffer.blit_at p 0 []) 0 body)
  end.
  rewrite blit_at_nil, blit_at_full by exact Hrest. reflexivity.
Qed.

Lemma sapHeader_length first hash a b c d :
  length (sapHeader first hash a b c d) = 8%nat.
Proof. reflexivity. Qed.

Lemma u8_of_u8 z : 0 <= z < 256 -> Buffer.u8 (Buffer.of_u8 z) = z.
Proof.
  intros Hz. unfold Buffer.u8, Buffer.of_u8. rewrite Z.mod_small by lia.
  destruct (Byte.of_N (Z.to_N z)) as [b|] eqn:Hb.
  - apply Byte.to_of_N in Hb. cbn. lia.
  - apply Byte.of_N_None_iff in Hb. lia.
Qed.

(** A property checked on each of the 256 octets holds of all of them. *)
Lemma octets_all (P : Z -> bool) :
  forallb P (List.map Z.of_nat (seq 0 256)) = true ->
  forall n, 0 <= n < 256 -> P n = true.
Proof.
  intros Hall n Hn. rewrite forallb_forall in Hall. apply Hall.
  rewrite <- (Z2Nat.id n) by lia. apply in_map. apply in_seq. lia.
Qed.

(** The decimal text of an octet has no dot and is read back by
    [parseInt]. *)
Lemma octet_text n :
  0 <= n < 256 ->
  noDot (JS.Number_toString n) = true
  /\ JS.parseInt (JS.Number_toString n) = Some n.
Proof.
  intros Hn.
  set (P := fun n : Z =>
              noDot (JS.Number_toString n)
              && match JS.parseInt (JS.Number_toString n) with
                 | Some m => m =? n
                 | None => false
                 end).
  assert (forallb P (List.map Z.of_nat (seq 0 256)) = true) as Hall
    by (vm_compute; reflexivity).
  pose proof (octets_all P Hall n Hn) as H. unfold P in H.
  apply andb_true_iff in H as [H1 H2]. split; [exact H1|].
  destruct (JS.parseInt (JS.Number_toString n)) as [m|]; [|discriminate].
  apply Z.eqb_eq in H2. by subst.
Qed.

Lemma split_noDot s : noDot s = true -> JS.split "."%char s = [s].
Proof.
  induction s as [|c s IH]; cbn [noDot JS.split]; [done|].
  intros [Hc Hs]%andb_true_iff. apply negb_true_iff in Hc. rewrite Hc.
  by rewrite (IH Hs).
Qed.

Lemma split_dot s r :
  noDot s = true ->
  JS.split "."%char (s +:+ String "."%char r) = s :: JS.split "."%char r.
Proof.
  induction s as [|c s IH]; cbn [noDot].
  - intros _. change ("" +:+ String "."%char r) with (String "."%char r).
    reflexivity.
  - intros [Hc Hs]%andb_true_iff. apply negb_true_iff in Hc.
    change (String c s +:+ String "."%char r)
      with (String c (s +:+ String "."%char r)).
    cbn [JS.split]. rewrite Hc. by rewrite (IH Hs).
Qed.

Lemma ipParts_dotted a b c d :
  0 <= a < 256 -> 0 <= b < 256 -> 0 <= c < 256 -> 0 <= d < 256 ->
  JS.parseInt <$> JS.split "."%char (dotted a b c d)
  = [Some a; Some b; Some c; Some d].
Proof.
  intros Ha Hb Hc Hd. unfold dotted.
  destruct (octet_text a Ha) as [Na Pa]. destruct (octet_text b Hb) as [Nb Pb].
  destruct (octet_text c Hc) as [Nc Pc]. destruct (octet_text d Hd) as [Nd Pd].
  change (JS.Number_toString a +:+ "." +:+ JS.Number_toString b +:+ "."
          +:+ JS.Number_toString c +:+ "." +:+ JS.Number_toString d)
    with (JS.Number_toString a +:+ String "."%char
            (JS.Number_toString b +:+ String "."%char
               (JS.Number_toString c +:+ String "."%char
                  (JS.Number_toString d)))).
  rewrite !split_dot, split_noDot by assumption.
  cbn [fmap list_fmap]. by rewrite Pa, Pb, Pc, Pd.
Qed.

Lemma startsWith_v0_length s :
  JS.startsWith "v=0" s = true -> (3 <= String.length s)%nat.
Proof.
  unfold JS.startsWith.
  destruct s as [|c1 [|c2 [|c3 r]]]; cbn [String.prefix String.length];
    try discriminate; try lia.
  - destruct (ascii_dec _ _); discriminate.
  - destruct (ascii_dec _ _); [|discriminate].
    destruct (ascii_dec _ _); discriminate.
Qed.

Lemma toString_from s : Buffer.toString (Buffer.from s) = s.
Proof. apply string_of_list_byte_of_string. Qed.

Lemma toString_take n s :
  Buffer.toString (take n (Buffer.from s)) = firstChars n s.
Proof.
  unfold Buffer.toString, Buffer.from, firstChars, string_of_list_byte,
    list_byte_of_string.
  revert n. induction s as [|c s IH]; intros [|n]; cbn; try done.
  rewrite ascii_of_byte_of_ascii. f_equal. apply IH.
Qed.

(** The facts about a sender packet that the decoder looks at. *)
Lemma sender_packet_len first hash a b c d body :
  Buffer.len (sapHeader first hash a b c d ++ SAPAnnouncer.payloadTypeTag
              ++ body)
  = 24 + Buffer.len body.
Proof.
  unfold Buffer.len. rewrite !length_app.
  change (length (sapHeader first hash a b c d)) with 8%nat.
  change (length SAPAnnouncer.payloadTypeTag) with 16%nat. lia.
Qed.

Lemma sender_packet_slice_from first hash a b c d body :
  Buffer.slice_from
    (sapHeader first hash a b c d ++ SAPAnnouncer.payloadTypeTag ++ body) 24
  = body.
Proof.
  unfold Buffer.slice_from, Buffer.slice, Buffer.clamp.
  rewrite sender_packet_len.
  change (24 <? 0) with false. cbv iota.
  destruct (Z.ltb_spec (24 + Buffer.len body) 0);
    [unfold Buffer.len in *; lia|].
  rewrite !Z.min_l by (unfold Buffer.len; lia).
  change (drop (Z.to_nat 24)
            (sapHeader first hash a b c d ++ SAPAnnouncer.payloadTypeTag
             ++ body)) with body.
  apply take_ge. unfold Buffer.len. lia.
Qed.

Lemma sender_packet_slice_tag first hash a b c d body :
  8 < Buffer.len body ->
  Buffer.slice
    (sapHeader first hash a b c d ++ SAPAnnouncer.payloadTypeTag ++ body)
    24 (24 + 8)
  = take 8 body.
Proof.
  intros Hlen. unfold Buffer.slice, Buffer.clamp.
  rewrite sender_packet_len.
  change (24 <? 0) with false. change (24 + 8 <? 0) with false. cbv iota.
  rewrite !Z.min_l by lia.
  change (drop (Z.to_nat 24)
            (sapHeader first hash a b c d ++ SAPAnnouncer.payloadTypeTag
             ++ body)) with body.
  reflexivity.
Qed.

Lemma sender_packet_skipToNull first hash a b c d body :
  AES67Discovery.skipToNull
    (drop (Z.to_nat 8)
       (sapHeader first hash a b c d ++ SAPAnnouncer.payloadTypeTag ++ body))
    8
  = 23.
Proof. reflexivity. Qed.

(** Decoding what the sender encodes. *)
Lemma decodeSAP_sender hash a b c d sdpData :
  0 <= a < 256 -> 0 <= b < 256 -> 0 <= c < 256 -> 0 <= d < 256 ->
  JS.startsWith "v=0" sdpData = true ->
  (String.length sdpData <= 8)%nat
  \/ JS.includes "sdp" (firstChars 8 sdpData) = false ->
  AES67Discovery.decodeSAP
    (sapHeader 32 hash a b c d ++ SAPAnnouncer.payloadTypeTag
     ++ Buffer.from sdpData)
  = Some (AES67Discovery.mkSapMessage sdpData (dotted a b c d) 0).
Proof.
  intros Ha Hb Hc Hd Hv Hsdp.
  pose proof (startsWith_v0_length sdpData Hv) as Hn.
  pose proof (from_length sdpData) as Hfl.
  set (body := Buffer.from sdpData) in *.
  set (msg := sapHeader 32 hash a b c d ++ SAPAnnouncer.payloadTypeTag ++ body).
  assert (Buffer.len msg = 24 + Buffer.len body) as Hlen
    by apply sender_packet_len.
  assert (Buffer.len body = Z.of_nat (String.length sdpData)) as Hbody
    by (unfold Buffer.len; lia).
  unfold AES67Discovery.decodeSAP.
  destruct (Z.ltb_spec (Buffer.len msg) 8); [lia|].
  change (Buffer.bits msg 0) with (Buffer.u8 (Buffer.of_u8 32)).
  change (Buffer.bits msg 1) with (Buffer.u8 (Buffer.of_u8 0)).
  change (Buffer.bits msg 4) with (Buffer.u8 (Buffer.of_u8 a)).
  change (Buffer.bits msg 5) with (Buffer.u8 (Buffer.of_u8 b)).
  change (Buffer.bits msg 6) with (Buffer.u8 (Buffer.of_u8 c)).
  change (Buffer.bits msg 7) with (Buffer.u8 (Buffer.of_u8 d)).
  rewrite !u8_of_u8 by lia.
  assert (exists h, Buffer.readUInt16BE msg 2 = Some h) as [h ->].
  { unfold Buffer.readUInt16BE.
    destruct (Z.leb_spec (2 + 2) (Buffer.len msg)); [|lia]. cbn. eauto. }
  change (JS.band (JS.shr 32 5) 7 =? 1) with true.
  change (JS.band (JS.shr 32 2) 1) with 0.
  change (8 + 0 * 4) with 8. cbn [negb].
  change (AES67Discovery.skipToNull (drop (Z.to_nat 8) msg) 8) with 23.
  change (23 + 1) with 24. fold (dotted a b c d).
  destruct (Z.leb_spec (Buffer.len msg) 8); [lia|].
  destruct (Z.leb_spec (Buffer.len msg) 24); [lia|].
  assert ((if 24 + 8 <? Buffer.len msg
           then if JS.includes "sdp"
                     (Buffer.toString (Buffer.slice msg 24 (24 + 8)))
                then 24 + 8 else 24
           else 24) = 24) as ->.
  { destruct (Z.ltb_spec (24 + 8) (Buffer.len msg)) as [Hlong|]; [|done].
    subst msg. rewrite sender_packet_slice_tag by lia.
    subst body. rewrite toString_take.
    destruct Hsdp as [Hshort | ->]; [lia | done]. }
  destruct (Z.leb_spec (Buffer.len msg) 24); [lia|].
  subst msg. rewrite sender_packet_slice_from. subst body.
  rewrite toString_from, Hv.
  destruct (String.eqb_spec sdpData "") as [-> | _]; [cbn in Hn; lia|].
  reflexivity.
Qed.

(** The sender's two packets have the layout of the specification: byte 0
    is 0x20 (announce) or 0x24 (delete), byte 1 is 0, bytes 4-7 are the
    octets of the source address, bytes 8-23 the sixteen bytes of
    "application/sdp" and its null terminator, and the SDP text follows
    from offset 24. *)
Lemma sender_packets_layout (this : SAPAnnouncer.t) (sdpData : string)
    (junk : Buffer.t) :
  0 <= SAPAnnouncer.msgIdHash this <= 65535 ->
  let ipParts :=
    JS.parseInt <$> JS.split "."%char (SAPAnnouncer.sourceIP this) in
  let octets :=
    [Buffer.of_u8 (ipPart ipParts 0); Buffer.of_u8 (ipPart ipParts 1);
     Buffer.of_u8 (ipPart ipParts 2); Buffer.of_u8 (ipPart ipParts 3)] in
  exists announce deletion,
    SAPAnnouncer.createSAPPacket this sdpData junk = JS.Return announce
    /\ SAPAnnouncer.sendDeletion this sdpData junk = JS.Return deletion
    /\ Buffer.get announce 0 = Some 32 /\ Buffer.get deletion 0 = Some 36
    /\ Buffer.get announce 1 = Some 0 /\ Buffer.get deletion 1 = Some 0
    /\ Buffer.slice announce 4 8 = octets
    /\ Buffer.slice deletion 4 8 = octets
    /\ Buffer.slice announce 8 24 = SAPAnnouncer.payloadTypeTag
    /\ Buffer.slice deletion 8 24 = SAPAnnouncer.payloadTypeTag
    /\ Buffer.slice_from announce 24 = Buffer.from sdpData
    /\ Buffer.slice_from deletion 24 = Buffer.from sdpData.
Proof.
  intros Hhash ipParts octets.
  unfold SAPAnnouncer.createSAPPacket, SAPAnnouncer.sendDeletion.
  rewrite !sapPacket_layout by exact Hhash. fold ipParts.
  eexists _, _. split; [reflexivity|]. split; [reflexivity|].
  rewrite !sender_packet_slice_from.
  assert (forall first hash a b c d body,
            Buffer.slice (sapHeader first hash a b c d
                          ++ SAPAnnouncer.payloadTypeTag ++ body) 8 24
            = SAPAnnouncer.payloadTypeTag) as Htag.
  { intros. unfold Buffer.slice, Buffer.clamp. rewrite sender_packet_len.
    change (8 <? 0) with false. change (24 <? 0) with false. cbv iota.
    rewrite !Z.min_l by (unfold Buffer.len; lia). reflexivity. }
  assert (forall first hash a b c d body,
            Buffer.slice (sapHeader first hash a b c d
                          ++ SAPAnnouncer.payloadTypeTag ++ body) 4 8
            = [Buffer.of_u8 a; Buffer.of_u8 b; Buffer.of_u8 c; Buffer.of_u8 d])
    as Hip.
  { intros. unfold Buffer.slice, Buffer.clamp. rewrite sender_packet_len.
    change (4 <? 0) with false. change (8 <? 0) with false. cbv iota.
    rewrite !Z.min_l by (unfold Buffer.len; lia). reflexivity. }
  rewrite !Htag, !Hip. repeat split; reflexivity.
Qed.

(** C5 (the code departs from it): the router's own [createSAPPacket]
    reserves eight bytes for the fifteen characters of "application/sdp"
    and then copies the SDP text over offset 16. For the session
    description of the end-to-end scenario its packet holds "applicat" in
    bytes 8-15 and the SDP text from offset 16, not the sixteen-byte tag in
    bytes 8-23 and the text from offset 24; the router's own decoder
    drops that packet. *)
Theorem router_createSAPPacket_overwrites_tag :
  AES67Discovery.createSAPPacket (discoveryAt "192.168.1.10") scenarioSDP []
  = Some routerPacket
  /\ routerPacket <> specifiedPacket
  /\ Buffer.slice routerPacket 8 16 = Buffer.from "applicat"
  /\ Buffer.slice routerPacket 8 24 <> SAPAnnouncer.payloadTypeTag
  /\ Buffer.slice_from routerPacket 16 = Buffer.from scenarioSDP
  /\ Buffer.slice_from routerPacket 24 <> Buffer.from scenarioSDP
  /\ AES67Discovery.decodeSAP routerPacket = None
  /\ SAPAnnouncer.createSAPPacket (SAPAnnouncer.mk "192.168.1.10" 0)
       scenarioSDP []
     = JS.Return specifiedPacket.
Proof.
  vm_compute. repeat split; discriminate.
Qed.

(** C1, the claim as stated fails: the text [sdpNamedSdp] begins with
    "v=0" and holds no null byte, yet the packet the sender builds for it
    is dropped by the decoder, which takes the first eight bytes of the
    text for a payload-type tag because they contain "sdp". *)
Lemma sap_roundtrip_fails_on_sdp_in_first_bytes :
  JS.startsWith "v=0" sdpNamedSdp = true
  /\ nullFree sdpNamedSdp = true
  /\ SAPAnnouncer.createSAPPacket
       (SAPAnnouncer.mk (dotted 192 168 1 10) 513) sdpNamedSdp []
     = JS.Return (sapHeader 32 513 192 168 1 10
                  ++ SAPAnnouncer.payloadTypeTag ++ Buffer.from sdpNamedSdp)
  /\ AES67Discovery.decodeSAP
       (sapHeader 32 513 192 168 1 10
        ++ SAPAnnouncer.payloadTypeTag ++ Buffer.from sdpNamedSdp)
     = None.
Proof.
  vm_compute. repeat split; reflexivity.
Qed.

(** C1, amended: for every SDP text that begins with "v=0" and is at most
    eight bytes long or has no "sdp" within its first eight bytes, and
    every dotted-quad source address, the decoder accepts the announce
    packet that the sender builds and recovers exactly that source address
    from bytes 4-7, exactly that text as the payload, and the announce
    message type. *)
Theorem sap_roundtrip (a b c d msgIdHash : Z) (sdpData : string)
    (junk : Buffer.t) :
  0 <= a < 256 -> 0 <= b < 256 -> 0 <= c < 256 -> 0 <= d < 256 ->
  0 <= msgIdHash <= 65535 ->
  JS.startsWith "v=0" sdpData = true ->
  (String.length sdpData <= 8)%nat
  \/ JS.includes "sdp" (firstChars 8 sdpData) = false ->
  exists packet,
    SAPAnnouncer.createSAPPacket
      (SAPAnnouncer.mk (dotted a b c d) msgIdHash) sdpData junk
    = JS.Return packet
    /\ AES67Discovery.decodeSAP packet
       = Some (AES67Discovery.mkSapMessage sdpData (dotted a b c d) 0).
Proof.
  intros Ha Hb Hc Hd Hh Hv Hsdp. unfold SAPAnnouncer.createSAPPacket.
  rewrite sapPacket_layout by exact Hh. cbn [SAPAnnouncer.sourceIP
    SAPAnnouncer.msgIdHash].
  rewrite ipParts_dotted by assumption.
  eexists. split; [reflexivity|].
  change (ipPart [Some a; Some b; Some c; Some d] 0) with a.
  change (ipPart [Some a; Some b; Some c; Some d] 1) with b.
  change (ipPart [Some a; Some b; Some c; Some d] 2) with c.
  change (ipPart [Some a; Some b; Some c; Some d] 3) with d.
  by apply decodeSAP_sender.
Qed.

(** The round trip on the session description of the end-to-end scenario,
    announced from 192.168.1.10. *)
Lemma sap_roundtrip_witness :
  exists packet,
    SAPAnnouncer.createSAPPacket
      (SAPAnnouncer.mk (dotted 192 168 1 10) 513) scenarioSDP [xff; xfe]
    = JS.Return packet
    /\ AES67Discovery.decodeSAP packet
       = Some (AES67Discovery.mkSapMessage scenarioSDP
                 (dotted 192 168 1 10) 0).
Proof.
  apply (sap_roundtrip 192 168 1 10 513 scenarioSDP [xff; xfe]);
    try lia; [vm_compute; reflexivity | right; vm_compute; reflexivity].
Defined.

(** ** Stream registry *)

Lemma filter_key_absent {A} (l : list (string * A)) k :
  k ∉ l.*1 -> filter (fun kv => kv.1 = k) l = [].
Proof.
  induction l as [|[k' v'] l IH]; intros Hk; [done|].
  cbn in Hk. apply not_elem_of_cons in Hk as [Hne Hk].
  rewrite filter_cons. cbn [fst]. rewrite decide_False by done. by apply IH.
Qed.

(** In a list without repeated keys a key that occurs has one entry. *)
Lemma filter_key_unique {A} (l : list (string * A)) k v :
  NoDup l.*1 -> (k, v) ∈ l ->
  filter (fun kv => kv.1 = k) l = [(k, v)].
Proof.
  induction l as [|[k' v'] l IH]; intros Hnd Hin; [by apply elem_of_nil in Hin|].
  cbn in Hnd. apply NoDup_cons in Hnd as [Hk' Hnd].
  rewrite filter_cons. cbn [fst].
  apply elem_of_cons in Hin as [[= <- <-] | Hin].
  - rewrite decide_True by done. f_equal. by apply filter_key_absent.
  - assert (k' <> k) as Hne.
    { intros ->. apply Hk'. apply list_elem_of_fmap. by exists (k, v). }
    rewrite decide_False by done. by apply IH.
Qed.

Lemma registry_one_entry (m : gmap string AES67Discovery.streamInfo) k v :
  m !! k = Some v ->
  filter (fun kv => kv.1 = k) (map_to_list m) = [(k, v)].
Proof.
  intros Hk. apply filter_key_unique.
  - apply NoDup_fst_map_to_list.
  - by apply elem_of_map_to_list.
Qed.

(** What a call that passes the guard does to the registry and to the
    messages sent. *)
Lemma registerStream_accepted this info :
  AES67Discovery.sourceIP info <> "" -> AES67Discovery.port info <> 0 ->
  let this' := (AES67Discovery.registerStream this info).1 in
  let key := AES67Discovery.streamKey info in
  AES67Discovery.streams this' = <[key := info]> (AES67Discovery.streams this)
  /\ AES67Discovery.globalStreamRegistry this'
     = <[key := info]> (AES67Discovery.globalStreamRegistry this)
  /\ AES67Discovery.sent this'
     = AES67Discovery.sent this
       ++ (if bool_decide (AES67Discovery.streams this !! key = None)
              && String.eqb (AES67Discovery.status info) "active"
           then [info] else [])
  /\ (AES67Discovery.registerStream this info).2 = JS.VUndefined.
Proof.
  intros Hip Hport. unfold AES67Discovery.registerStream.
  destruct (String.eqb_spec (AES67Discovery.sourceIP info) ""); [done|].
  unfold JS.truthy. destruct (Z.eqb_spec (AES67Discovery.port info) 0); [done|].
  cbn [negb orb fst snd AES67Discovery.streams
       AES67Discovery.globalStreamRegistry AES67Discovery.sent].
  repeat split.
  destruct (AES67Discovery.streams this !! AES67Discovery.streamKey info)
    as [old|] eqn:Hold.
  - rewrite bool_decide_eq_true_2 by eauto.
    rewrite bool_decide_eq_false_2 by done. cbn. by rewrite app_nil_r.
  - rewrite bool_decide_eq_false_2 by (intros [? ?]; done).
    rewrite bool_decide_eq_true_2 by done. cbn [negb andb].
    destruct (String.eqb _ _); [done | by rewrite app_nil_r].
Qed.

(** C6, the claim as stated fails: [registerStream] reports nothing. It
    returns undefined both when the key is new and when it is not, so the
    caller cannot tell the two apart; and a descriptor whose port is 0 is
    turned away by the guard, leaving no entry for its key. *)
Lemma registerStream_reports_nothing :
  let first := descriptor 5004 2 "active" in
  let second := descriptor 5004 8 "active" in
  let this := discoveryAt "192.168.1.20" in
  let this1 := (AES67Discovery.registerStream this first).1 in
  AES67Discovery.streamKey first = AES67Discovery.streamKey second
  /\ AES67Discovery.streams this !! AES67Discovery.streamKey first = None
  /\ AES67Discovery.streams this1 !! AES67Discovery.streamKey second
     = Some first
  /\ (AES67Discovery.registerStream this first).2
     = (AES67Discovery.registerStream this1 second).2
  /\ AES67Discovery.streams
       (AES67Discovery.registerStream
          (AES67Discovery.registerStream this (descriptor 0 2 "active")).1
          (descriptor 0 8 "active")).1
     !! AES67Discovery.streamKey (descriptor 0 8 "active")
     = None.
Proof.
  cbv zeta.
  split; [reflexivity|]. split; [apply lookup_empty|].
  destruct (registerStream_accepted (discoveryAt "192.168.1.20")
              (descriptor 5004 2 "active") ltac:(done) ltac:(done))
    as (Hs & _ & _ & Hr).
  split; [rewrite Hs; apply lookup_insert_eq|].
  split; [|reflexivity].
  rewrite Hr. symmetry.
  apply (registerStream_accepted _ (descriptor 5004 8 "active")); done.
Qed.

(** C6, amended: for every two descriptors with the same (sourceIP, port)
    key, a non-empty sourceIP and a non-zero port, registering the first
    and then the second leaves exactly one entry for that key, holding
    the second descriptor (so its channels value), in the discovery
    object's registry and in the global one; a stream-discovered message
    is sent for the first only, and only when the key was new and the
    first descriptor's status is active, so a descriptor whose status is
    deleted is written without any message; both calls return
    undefined. *)
Theorem registerStream_upsert (this : AES67Discovery.t)
    (d1 d2 : AES67Discovery.streamInfo) :
  AES67Discovery.sourceIP d1 = AES67Discovery.sourceIP d2 ->
  AES67Discovery.port d1 = AES67Discovery.port d2 ->
  AES67Discovery.sourceIP d1 <> "" ->
  AES67Discovery.port d1 <> 0 ->
  let key := AES67Discovery.streamKey d1 in
  let this1 := (AES67Discovery.registerStream this d1).1 in
  let this2 := (AES67Discovery.registerStream this1 d2).1 in
  AES67Discovery.streamKey d2 = key
  /\ AES67Discovery.streams this1 !! key = Some d1
  /\ AES67Discovery.streams this2 !! key = Some d2
  /\ AES67Discovery.globalStreamRegistry this2 !! key = Some d2
  /\ filter (fun kv => kv.1 = key) (map_to_list (AES67Discovery.streams this2))
     = [(key, d2)]
  /\ size (AES67Discovery.streams this2) = size (AES67Discovery.streams this1)
  /\ AES67Discovery.sent this1
     = AES67Discovery.sent this
       ++ (if bool_decide (AES67Discovery.streams this !! key = None)
              && String.eqb (AES67Discovery.status d1) "active"
           then [d1] else [])
  /\ AES67Discovery.sent this2 = AES67Discovery.sent this1
  /\ (AES67Discovery.registerStream this d1).2 = JS.VUndefined
  /\ (AES67Discovery.registerStream this1 d2).2 = JS.VUndefined.
Proof.
  intros Hip Hport Hne Hnz key this1 this2.
  assert (AES67Discovery.streamKey d2 = key) as Hkey.
  { subst key. unfold AES67Discovery.streamKey. by rewrite Hip, Hport. }
  destruct (registerStream_accepted this d1 Hne Hnz) as (Hs1 & Hg1 & Hm1 & Hr1).
  destruct (registerStream_accepted this1 d2
              ltac:(by rewrite <- Hip) ltac:(by rewrite <- Hport))
    as (Hs2 & Hg2 & Hm2 & Hr2).
  fold this1 in Hs1, Hg1, Hm1. fold this2 in Hs2, Hg2, Hm2.
  rewrite Hkey in Hs2, Hg2, Hm2. fold key in Hs1, Hg1, Hm1.
  assert (AES67Discovery.streams this1 !! key = Some d1) as H1
    by (rewrite Hs1; apply lookup_insert_eq).
  assert (AES67Discovery.streams this2 !! key = Some d2) as H2
    by (rewrite Hs2; apply lookup_insert_eq).
  split; [exact Hkey|]. split; [exact H1|]. split; [exact H2|].
  split; [rewrite Hg2; apply lookup_insert_eq|].
  split; [by apply registry_one_entry|].
  split.
  { rewrite Hs2. apply map_size_insert_Some. eauto. }
  split; [exact Hm1|].
  split.
  { rewrite Hm2, H1. rewrite bool_decide_eq_false_2 by done.
    cbn. apply app_nil_r. }
  split; [exact Hr1 | exact Hr2].
Qed.

(** An active descriptor followed by a deleted one for the same stream:
    the deleted one is what the registry holds, and no message is added. *)
Lemma registerStream_upsert_witness :
  let first := descriptor 5004 2 "active" in
  let second := descriptor 5004 8 "deleted" in
  let this := discoveryAt "192.168.1.20" in
  let this1 := (AES67Discovery.registerStream this first).1 in
  let this2 := (AES67Discovery.registerStream this1 second).1 in
  AES67Discovery.streams this2 !! AES67Discovery.streamKey first = Some second
  /\ AES67Discovery.sent this2 = AES67Discovery.sent this1.
Proof.
  cbv zeta.
  destruct (registerStream_upsert (discoveryAt "192.168.1.20")
              (descriptor 5004 2 "active") (descriptor 5004 8 "deleted")
              eq_refl eq_refl ltac:(discriminate) ltac:(discriminate))
    as (_ & _ & H2 & _ & _ & _ & _ & Hsent & _).
  split; [exact H2 | exact Hsent].
Defined.

(** * Further properties *)

(** ** RTP packets of the sender *)

Lemma u8_of_u8_mod z : Buffer.u8 (Buffer.of_u8 z) = z mod 256.
Proof.
  unfold Buffer.of_u8. pose proof (Z.mod_pos_bound z 256 ltac:(lia)) as Hb.
  fold (Buffer.of_u8 (z mod 256)).
  rewrite <- (u8_of_u8 (z mod 256)) at 2 by lia.
  unfold Buffer.of_u8. by rewrite Z.mod_mod by lia.
Qed.

Lemma be16_value v :
  0 <= v <= 65535 -> (v / 256) mod 256 * 256 + v mod 256 = v.
Proof. intros Hv. Z.to_euclidean_division_equations. lia. Qed.

Lemma be32_value v :
  0 <= v <= 4294967295 ->
  (v / 2 ^ 24) mod 256 * 2 ^ 24 + (v / 2 ^ 16) mod 256 * 2 ^ 16
  + (v / 2 ^ 8) mod 256 * 2 ^ 8 + v mod 256 = v.
Proof.
  intros Hv.
  change (2 ^ 24) with 16777216. change (2 ^ 16) with 65536.
  change (2 ^ 8) with 256. Z.to_euclidean_division_equations. lia.
Qed.

(** The second header byte holds the marker in bit 7 and the low seven
    bits of the payload type. *)
Lemma marker_byte_fields (marker : bool) (payloadType : Z) :
  let b := Buffer.u8 (Buffer.of_u8
             (JS.bor (if marker then 128 else 0) (JS.band payloadType 127))) in
  JS.band (JS.shr b 7) 1 = (if marker then 1 else 0)
  /\ JS.band b 127 = payloadType mod 128.
Proof.
  change 127 with (Z.ones 7). rewrite band_ones by lia.
  change (2 ^ 7) with 128.
  pose proof (Z.mod_pos_bound payloadType 128 ltac:(lia)) as Hb.
  set (x := payloadType mod 128) in *.
  set (P := fun x : Z =>
              let b0 := Buffer.u8 (Buffer.of_u8 (JS.bor 0 x)) in
              let b1 := Buffer.u8 (Buffer.of_u8 (JS.bor 128 x)) in
              (JS.band (JS.shr b0 7) 1 =? 0) && (JS.band b0 (Z.ones 7) =? x)
              && (JS.band (JS.shr b1 7) 1 =? 1)
              && (JS.band b1 (Z.ones 7) =? x)).
  assert (forallb P (List.map Z.of_nat (seq 0 128)) = true) as Hall
    by (vm_compute; reflexivity).
  assert (P x = true) as HP.
  { rewrite forallb_forall in Hall. apply Hall.
    rewrite <- (Z2Nat.id x) by lia. apply in_map. apply in_seq. lia. }
  unfold P in HP. cbv zeta in HP.
  apply andb_true_iff in HP as [HP H4]. apply andb_true_iff in HP as [HP H3].
  apply andb_true_iff in HP as [H1 H2].
  apply Z.eqb_eq in H1, H2, H3, H4.
  destruct marker; cbv zeta; split; assumption.
Qed.

(** For a session in range [buildPacket] returns the twelve header bytes
    followed by the payload, whatever the allocator held, and steps the
    sequence number modulo 65536; the timestamp is left as it is. *)
Lemma buildPacket_inRange this audioData marker junk :
  inRange this ->
  RTPPacketBuilder.buildPacket this audioData marker junk
  = (RTPPacketBuilder.mk (RTPPacketBuilder.payloadType this)
       (RTPPacketBuilder.ssrc this) (RTPPacketBuilder.sampleRate this)
       ((RTPPacketBuilder.sequenceNumber this + 1) mod 65536)
       (RTPPacketBuilder.timestamp this),
     JS.Return
       (rtpHeaderBytes marker (RTPPacketBuilder.payloadType this)
          (RTPPacketBuilder.sequenceNumber this)
          (RTPPacketBuilder.timestamp this) (RTPPacketBuilder.ssrc this)
        ++ audioData)).
Proof.
  intros (Hs & Ht & Hc). unfold RTPPacketBuilder.buildPacket.
  rewrite band_65535.
  set (p := allocUnsafe 12 junk).
  assert (length p = 12%nat) as Hp by (subst p; by rewrite allocUnsafe_length).
  do 12 (destruct p as [|? p]; [cbn in Hp; lia|]).
  destruct p; [|cbn in Hp; lia].
  unfold writeUInt16BE, writeUInt32BE, Buffer.bytesUInt16BE,
    Buffer.bytesUInt32BE, rtpHeaderBytes, Buffer.set, Buffer.blit.
  destruct (Z.leb_spec 0 (RTPPacketBuilder.sequenceNumber this)); [|lia].
  destruct (Z.leb_spec (RTPPacketBuilder.sequenceNumber this) 65535); [|lia].
  destruct (Z.leb_spec 0 (RTPPacketBuilder.timestamp this)); [|lia].
  destruct (Z.leb_spec (RTPPacketBuilder.timestamp this) 4294967295); [|lia].
  destruct (Z.leb_spec 0 (RTPPacketBuilder.ssrc this)); [|lia].
  destruct (Z.leb_spec (RTPPacketBuilder.ssrc this) 4294967295); [|lia].
  generalize (Buffer.of_u8 128)
    (Buffer.of_u8 (JS.bor (if marker then 128 else 0)
                     (JS.band (RTPPacketBuilder.payloadType this) 127)))
    (Buffer.of_u8 (RTPPacketBuilder.sequenceNumber this / 256))
    (Buffer.of_u8 (RTPPacketBuilder.sequenceNumber this))
    (Buffer.of_u8 (RTPPacketBuilder.timestamp this / 2 ^ 24))
    (Buffer.of_u8 (RTPPacketBuilder.timestamp this / 2 ^ 16))
    (Buffer.of_u8 (RTPPacketBuilder.timestamp this / 2 ^ 8))
    (Buffer.of_u8 (RTPPacketBuilder.timestamp this))
    (Buffer.of_u8 (RTPPacketBuilder.ssrc this / 2 ^ 24))
    (Buffer.of_u8 (RTPPacketBuilder.ssrc this / 2 ^ 16))
    (Buffer.of_u8 (RTPPacketBuilder.ssrc this / 2 ^ 8))
    (Buffer.of_u8 (RTPPacketBuilder.ssrc this)).
  intros. reflexivity.
Qed.

Lemma rtp_packet_len marker pt sn ts ss audioData :
  Buffer.len (rtpHeaderBytes marker pt sn ts ss ++ audioData)
  = 12 + Buffer.len audioData.
Proof.
  unfold Buffer.len. rewrite length_app.
  change (length (rtpHeaderBytes marker pt sn ts ss)) with 12%nat. lia.
Qed.

(** Reading back the header that [buildPacket] writes. *)
Lemma read_built marker pt sn ts ss audioData :
  0 <= sn <= 65535 -> 0 <= ts <= 4294967295 -> 0 <= ss <= 4294967295 ->
  RTPHeader.read (rtpHeaderBytes marker pt sn ts ss ++ audioData)
  = Some (RTPHeader.mk 2 0 0 0 (if marker then 1 else 0) (pt mod 128)
            sn ts ss).
Proof.
  intros Hsn Hts Hss.
  set (packet := rtpHeaderBytes marker pt sn ts ss ++ audioData).
  assert (Buffer.len packet = 12 + Buffer.len audioData) as Hlen
    by apply rtp_packet_len.
  assert (0 <= Buffer.len audioData) as Hpos by (unfold Buffer.len; lia).
  unfold RTPHeader.read, Buffer.readUInt16BE, Buffer.readUInt32BE.
  destruct (Z.leb_spec (2 + 2) (Buffer.len packet)); [|lia].
  destruct (Z.leb_spec (4 + 4) (Buffer.len packet)); [|lia].
  destruct (Z.leb_spec (8 + 4) (Buffer.len packet)); [|lia].
  cbn [andb Z.leb Z.compare].
  change (Buffer.bits packet 0) with (Buffer.u8 (Buffer.of_u8 128)).
  change (Buffer.bits packet 1)
    with (Buffer.u8 (Buffer.of_u8
            (JS.bor (if marker then 128 else 0) (JS.band pt 127)))).
  change (Buffer.bits packet 2) with (Buffer.u8 (Buffer.of_u8 (sn / 256))).
  change (Buffer.bits packet (2 + 1)) with (Buffer.u8 (Buffer.of_u8 sn)).
  change (Buffer.bits packet 4) with (Buffer.u8 (Buffer.of_u8 (ts / 2 ^ 24))).
  change (Buffer.bits packet (4 + 1))
    with (Buffer.u8 (Buffer.of_u8 (ts / 2 ^ 16))).
  change (Buffer.bits packet (4 + 2))
    with (Buffer.u8 (Buffer.of_u8 (ts / 2 ^ 8))).
  change (Buffer.bits packet (4 + 3)) with (Buffer.u8 (Buffer.of_u8 ts)).
  change (Buffer.bits packet 8) with (Buffer.u8 (Buffer.of_u8 (ss / 2 ^ 24))).
  change (Buffer.bits packet (8 + 1))
    with (Buffer.u8 (Buffer.of_u8 (ss / 2 ^ 16))).
  change (Buffer.bits packet (8 + 2))
    with (Buffer.u8 (Buffer.of_u8 (ss / 2 ^ 8))).
  change (Buffer.bits packet (8 + 3)) with (Buffer.u8 (Buffer.of_u8 ss)).
  destruct (marker_byte_fields marker pt) as [Hm Hpt]. cbv zeta in Hm, Hpt.
  rewrite Hm, Hpt.
  change (Buffer.u8 (Buffer.of_u8 128)) with 128.
  change (JS.band (JS.shr 128 6) 3) with 2.
  change (JS.band (JS.shr 128 5) 1) with 0.
  change (JS.band (JS.shr 128 4) 1) with 0.
  change (JS.band 128 15) with 0.
  rewrite !u8_of_u8_mod.
  rewrite (be16_value sn Hsn), (be32_value ts Hts), (be32_value ss Hss).
  reflexivity.
Qed.

Lemma rtp_packet_payload marker pt sn ts ss audioData :
  Buffer.slice_from (rtpHeaderBytes marker pt sn ts ss ++ audioData) 12
  = audioData.
Proof.
  unfold Buffer.slice_from, Buffer.slice, Buffer.clamp.
  rewrite rtp_packet_len.
  assert (0 <= Buffer.len audioData) as Hpos by (unfold Buffer.len; lia).
  change (12 <? 0) with false. cbv iota.
  destruct (Z.ltb_spec (12 + Buffer.len audioData) 0); [lia|].
  rewrite !Z.min_l by lia.
  change (drop (Z.to_nat 12) (rtpHeaderBytes marker pt sn ts ss ++ audioData))
    with audioData.
  apply take_ge. unfold Buffer.len. lia.
Qed.

(** X1: what the sender builds, the receiver's parser reads back: for a
    session in range, [parsePacket] applied to the packet of
    [buildPacket] returns version 2, no padding, no extension, no CSRC, the
    marker, the payload type modulo 128, the session's sequence number,
    timestamp and SSRC, and exactly the payload that was sent. *)
Theorem rtp_roundtrip (this : RTPPacketBuilder.t)
    (parser : RTPPacketParser.t) (audioData : Buffer.t) (marker : bool)
    (junk : Buffer.t) :
  inRange this ->
  exists packet,
    (RTPPacketBuilder.buildPacket this audioData marker junk).2
    = JS.Return packet
    /\ Buffer.len packet = 12 + Buffer.len audioData
    /\ (RTPPacketParser.parsePacket parser packet).2
       = JS.Return
           (Some (RTPPacketParser.mkPacket
                    (RTPHeader.mk 2 0 0 0 (if marker then 1 else 0)
                       (RTPPacketBuilder.payloadType this mod 128)
                       (RTPPacketBuilder.sequenceNumber this)
                       (RTPPacketBuilder.timestamp this)
                       (RTPPacketBuilder.ssrc this))
                    audioData)).
Proof.
  intros Hr. rewrite (buildPacket_inRange _ _ _ _ Hr).
  destruct Hr as (Hs & Ht & Hc). eexists. split; [reflexivity|].
  split; [apply rtp_packet_len|].
  unfold RTPPacketParser.parsePacket. rewrite rtp_packet_len.
  assert (0 <= Buffer.len audioData) as Hpos by (unfold Buffer.len; lia).
  destruct (Z.ltb_spec (12 + Buffer.len audioData) 12); [lia|].
  rewrite read_built by assumption.
  cbn [RTPHeader.sequenceNumber RTPHeader.csrcCount].
  unfold RTPPacketParser.extended. cbn [RTPHeader.extension].
  change (JS.truthy 0) with false. cbv iota.
  change (12 + 0 * 4) with 12. rewrite rtp_packet_payload.
  unfold RTPPacketParser.unpad. cbn [RTPHeader.padding].
  change (JS.truthy 0) with false. reflexivity.
Qed.

(** A session at the top of the sequence range, marker set, payload type
    96. *)
Lemma rtp_roundtrip_witness :
  exists packet,
    (RTPPacketBuilder.buildPacket
       (RTPPacketBuilder.mk 96 1734803456 48000 65535 4294967295)
       [x01; x02; x03] true [xff]).2
    = JS.Return packet
    /\ Buffer.len packet = 12 + Buffer.len [x01; x02; x03]
    /\ (RTPPacketParser.parsePacket RTPPacketParser.new packet).2
       = JS.Return
           (Some (RTPPacketParser.mkPacket
                    (RTPHeader.mk 2 0 0 0 1 (96 mod 128) 65535 4294967295
                       1734803456)
                    [x01; x02; x03])).
Proof.
  apply (rtp_roundtrip
           (RTPPacketBuilder.mk 96 1734803456 48000 65535 4294967295)
           RTPPacketParser.new [x01; x02; x03] true [xff]).
  unfold inRange. cbn. lia.
Defined.

(** X2: a session out of range makes [buildPacket] raise in one of its
    range-checked writes; nothing is returned and the session, sequence
    number included, is left as it was. *)
Theorem buildPacket_out_of_range (this : RTPPacketBuilder.t)
    (audioData : Buffer.t) (marker : bool) (junk : Buffer.t) :
  ~ inRange this ->
  RTPPacketBuilder.buildPacket this audioData marker junk
  = (this, JS.Throw "ERR_OUT_OF_RANGE").
Proof.
  intros Hout. unfold RTPPacketBuilder.buildPacket.
  set (p := allocUnsafe 12 junk).
  assert (length p = 12%nat) as Hp by (subst p; by rewrite allocUnsafe_length).
  do 12 (destruct p as [|? p]; [cbn in Hp; lia|]).
  destruct p; [|cbn in Hp; lia].
  unfold writeUInt16BE, writeUInt32BE, Buffer.bytesUInt16BE,
    Buffer.bytesUInt32BE, Buffer.set, Buffer.blit.
  destruct ((0 <=? RTPPacketBuilder.sequenceNumber this)
            && (RTPPacketBuilder.sequenceNumber this <=? 65535)) eqn:Hs.
  2:{ destruct ((0 <=? 2) && _); reflexivity. }
  destruct ((0 <=? RTPPacketBuilder.timestamp this)
            && (RTPPacketBuilder.timestamp this <=? 4294967295)) eqn:Ht.
  2:{ generalize (Buffer.of_u8 128)
        (Buffer.of_u8 (JS.bor (if marker then 128 else 0)
                         (JS.band (RTPPacketBuilder.payloadType this) 127)))
        (Buffer.of_u8 (RTPPacketBuilder.sequenceNumber this / 256))
        (Buffer.of_u8 (RTPPacketBuilder.sequenceNumber this)).
      intros. reflexivity. }
  destruct ((0 <=? RTPPacketBuilder.ssrc this)
            && (RTPPacketBuilder.ssrc this <=? 4294967295)) eqn:Hc.
  2:{ generalize (Buffer.of_u8 128)
        (Buffer.of_u8 (JS.bor (if marker then 128 else 0)
                         (JS.band (RTPPacketBuilder.payloadType this) 127)))
        (Buffer.of_u8 (RTPPacketBuilder.sequenceNumber this / 256))
        (Buffer.of_u8 (RTPPacketBuilder.sequenceNumber this))
        (Buffer.of_u8 (RTPPacketBuilder.timestamp this / 2 ^ 24))
        (Buffer.of_u8 (RTPPacketBuilder.timestamp this / 2 ^ 16))
        (Buffer.of_u8 (RTPPacketBuilder.timestamp this / 2 ^ 8))
        (Buffer.of_u8 (RTPPacketBuilder.timestamp this)).
      intros. reflexivity. }
  exfalso. apply Hout. unfold inRange. lia.
Qed.

(** A session whose timestamp has gone negative. *)
Lemma buildPacket_out_of_range_witness :
  RTPPacketBuilder.buildPacket
    (RTPPacketBuilder.mk 96 1734803456 48000 7 (-2147483648))
    [x01; x02; x03] false []
  = (RTPPacketBuilder.mk 96 1734803456 48000 7 (-2147483648),
     JS.Throw "ERR_OUT_OF_RANGE").
Proof.
  apply (buildPacket_out_of_range
           (RTPPacketBuilder.mk 96 1734803456 48000 7 (-2147483648))).
  unfold inRange. cbn. lia.
Defined.

Lemma buildPacket_keeps_range this audioData marker junk :
  inRange this ->
  inRange (RTPPacketBuilder.buildPacket this audioData marker junk).1.
Proof.
  intros Hr. rewrite (buildPacket_inRange _ _ _ _ Hr).
  destruct Hr as (Hs & Ht & Hc). unfold inRange. cbn.
  pose proof (Z.mod_pos_bound
                (RTPPacketBuilder.sequenceNumber this + 1) 65536 ltac:(lia)).
  lia.
Qed.

Lemma buildAll_spec this payloads junk :
  inRange this ->
  let s := RTPPacketBuilder.sequenceNumber this in
  let '(this', results) := buildAll this payloads junk in
  length results = length payloads
  /\ RTPPacketBuilder.sequenceNumber this'
     = (s + Z.of_nat (length payloads)) mod 65536
  /\ RTPPacketBuilder.timestamp this' = RTPPacketBuilder.timestamp this
  /\ forall (i : nat) r,
       results !! i = Some r ->
       exists packet audioData,
         r = JS.Return packet /\ payloads !! i = Some audioData
         /\ Buffer.readUInt16BE packet 2 = Some ((s + Z.of_nat i) mod 65536)
         /\ Buffer.slice_from packet 12 = audioData.
Proof.
  revert this. induction payloads as [|a rest IH]; intros this Hr s.
  - cbn. split; [done|]. split.
    + subst s. destruct Hr as (Hs & _). rewrite Z.add_0_r, Z.mod_small; lia.
    + split; [done|]. intros i r Hi. by rewrite lookup_nil in Hi.
  - cbn [buildAll].
    pose proof (buildPacket_keeps_range this a false junk Hr) as Hr'.
    rewrite (buildPacket_inRange _ _ _ _ Hr) in Hr' |- *. cbn [fst] in Hr'.
    set (packet0 := rtpHeaderBytes false (RTPPacketBuilder.payloadType this)
                      (RTPPacketBuilder.sequenceNumber this)
                      (RTPPacketBuilder.timestamp this)
                      (RTPPacketBuilder.ssrc this) ++ a).
    specialize (IH _ Hr'). cbv zeta in IH.
    destruct (buildAll _ rest junk) as [this'' rs].
    cbn [RTPPacketBuilder.sequenceNumber RTPPacketBuilder.timestamp] in IH.
    destruct IH as (Hlen & Hseq & Hts & Hnth).
    split; [cbn [length]; by rewrite Hlen|]. split.
    { rewrite Hseq. fold s. rewrite Zplus_mod_idemp_l.
      replace (s + Z.of_nat (length (a :: rest)))
        with (s + 1 + Z.of_nat (length rest)) by (cbn [length]; lia).
      reflexivity. }
    split; [exact Hts|].
    intros [|i] r Hi.
    + change (Some (JS.Return packet0) = Some r) in Hi.
      injection Hi as <-. exists packet0, a. split; [reflexivity|].
      split; [reflexivity|]. destruct Hr as (Hs & Ht & Hc).
      split; [|apply rtp_packet_payload].
      pose proof (read_built false (RTPPacketBuilder.payloadType this)
                    s (RTPPacketBuilder.timestamp this)
                    (RTPPacketBuilder.ssrc this) a Hs Ht Hc) as Hread.
      fold packet0 in Hread. unfold RTPHeader.read in Hread. fold s.
      destruct (Buffer.readUInt16BE _ 2) as [sn|]; [|discriminate].
      destruct (Buffer.readUInt32BE _ 4); [|discriminate].
      destruct (Buffer.readUInt32BE _ 8); [|discriminate].
      assert (sn = s) as -> by congruence.
      rewrite Z.add_0_r, Z.mod_small; [done | subst s; lia].
    + change (rs !! i = Some r) in Hi.
      destruct (Hnth i r Hi) as (packet & audioData & -> & Hp & Hsn & Hpay).
      exists packet, audioData. split; [done|]. split; [exact Hp|].
      split; [|exact Hpay]. rewrite Hsn. fold s.
      rewrite Zplus_mod_idemp_l.
      replace (s + Z.of_nat (S i)) with (s + 1 + Z.of_nat i) by lia.
      reflexivity.
Qed.

(** X3: building one packet per payload from a session in range never
    raises; the i-th packet carries the sequence number (s + i) mod 65536
    and its own payload, so the numbers run on through 65535 to 0 without
    a gap, and the session is left at (s + n) mod 65536 with its timestamp
    untouched. *)
Theorem sequence_numbers_wrap (this : RTPPacketBuilder.t)
    (payloads : list Buffer.t) (junk : Buffer.t) :
  inRange this ->
  let s := RTPPacketBuilder.sequenceNumber this in
  length (buildAll this payloads junk).2 = length payloads
  /\ RTPPacketBuilder.sequenceNumber (buildAll this payloads junk).1
     = (s + Z.of_nat (length payloads)) mod 65536
  /\ RTPPacketBuilder.timestamp (buildAll this payloads junk).1
     = RTPPacketBuilder.timestamp this
  /\ forall (i : nat) r,
       (buildAll this payloads junk).2 !! i = Some r ->
       exists packet audioData,
         r = JS.Return packet /\ payloads !! i = Some audioData
         /\ Buffer.readUInt16BE packet 2 = Some ((s + Z.of_nat i) mod 65536)
         /\ Buffer.slice_from packet 12 = audioData.
Proof.
  intros Hr s. pose proof (buildAll_spec this payloads junk Hr) as H.
  cbv zeta in H. destruct (buildAll this payloads junk) as [this' results].
  exact H.
Qed.

(** Three packets from sequence number 65534: the session is left at 1. *)
Lemma sequence_numbers_wrap_witness :
  RTPPacketBuilder.sequenceNumber
    (buildAll (RTPPacketBuilder.mk 96 1734803456 48000 65534 0)
       [[x01]; [x02]; [x03]] []).1
  = (65534 + 3) mod 65536.
Proof.
  apply (sequence_numbers_wrap
           (RTPPacketBuilder.mk 96 1734803456 48000 65534 0)
           [[x01]; [x02]; [x03]] []).
  unfold inRange. cbn. lia.
Defined.

(** X4: [incrementTimestamp] stores a value congruent to old + samples
    modulo 2^32 that lies in [-2^31, 2^31): it is old + samples itself
    when that sum is below 2^31 and not negative, and every other field of
    the session is kept. *)
Theorem incrementTimestamp_congruent (this : RTPPacketBuilder.t)
    (samples : Z) :
  let this' := RTPPacketBuilder.incrementTimestamp this samples in
  let sum := RTPPacketBuilder.timestamp this + samples in
  RTPPacketBuilder.timestamp this' mod 2 ^ 32 = sum mod 2 ^ 32
  /\ - 2 ^ 31 <= RTPPacketBuilder.timestamp this' < 2 ^ 31
  /\ (0 <= sum < 2 ^ 31 -> RTPPacketBuilder.timestamp this' = sum)
  /\ RTPPacketBuilder.sequenceNumber this'
     = RTPPacketBuilder.sequenceNumber this
  /\ RTPPacketBuilder.ssrc this' = RTPPacketBuilder.ssrc this
  /\ RTPPacketBuilder.payloadType this' = RTPPacketBuilder.payloadType this.
Proof.
  cbn. rewrite band_all_ones.
  split; [apply ToInt32_mod_pow2; lia|]. split; [apply ToInt32_range|].
  split; [intros; apply ToInt32_id; lia | done].
Qed.

(** ** Loss accounting of the receiver *)

Lemma feed_cons this b bufs :
  RTPPacketParser.feed this (b :: bufs)
  = RTPPacketParser.feed (RTPPacketParser.parsePacket this b).1 bufs.
Proof. reflexivity. Qed.

Lemma feed_carriesSeq this b n bufs :
  carriesSeq b n ->
  RTPPacketParser.feed this (b :: bufs)
  = RTPPacketParser.feed (RTPPacketParser.account this n) bufs.
Proof.
  intros Hb. rewrite feed_cons.
  by destruct (parsePacket_carriesSeq this b n Hb) as [pkt ->].
Qed.

Lemma feed_in_order this s bufs :
  RTPPacketParser.lastSequence this = None
  \/ RTPPacketParser.lastSequence this = Some ((s - 1) mod 65536) ->
  (forall (i : nat) b, bufs !! i = Some b ->
                       carriesSeq b ((s + Z.of_nat i) mod 65536)) ->
  RTPPacketParser.packetsLost (RTPPacketParser.feed this bufs)
  = RTPPacketParser.packetsLost this
  /\ RTPPacketParser.packetsReceived (RTPPacketParser.feed this bufs)
     = RTPPacketParser.packetsReceived this + Z.of_nat (length bufs).
Proof.
  revert this s. induction bufs as [|b bufs IH]; intros this s Hlast Hall.
  - cbn. lia.
  - pose proof (Hall 0%nat b eq_refl) as Hb. rewrite Z.add_0_r in Hb.
    rewrite (feed_carriesSeq _ _ _ _ Hb).
    destruct (IH (RTPPacketParser.account this (s mod 65536)) (s + 1))
      as [Hl Hr].
    + right. cbn. f_equal. replace (s + 1 - 1) with s by lia. reflexivity.
    + intros i b' Hi. specialize (Hall (S i) b' Hi).
      replace (s + 1 + Z.of_nat i) with (s + Z.of_nat (S i)) by lia.
      exact Hall.
    + rewrite Hl, Hr. rewrite account_lost.
      cbn [RTPPacketParser.account RTPPacketParser.packetsReceived length].
      split; [|lia].
      destruct Hlast as [-> | ->]; [reflexivity|].
      rewrite Zplus_mod_idemp_l. replace (s - 1 + 1) with s by lia.
      replace (s mod 65536 - s mod 65536 + 65536) with (0 + 1 * 65536) by lia.
      rewrite Z_mod_plus_full, Z.mod_0_l by lia. lia.
Qed.

(** X5: a stream that arrives in order is counted without loss: on a fresh
    parser, datagrams numbered s, s+1, s+2, ... modulo 65536, through any
    number of wrap-arounds, leave packetsLost = 0 and packetsReceived equal
    to their number. *)
Theorem in_order_stream_has_no_loss (s : Z) (bufs : list Buffer.t) :
  (forall (i : nat) b, bufs !! i = Some b ->
                       carriesSeq b ((s + Z.of_nat i) mod 65536)) ->
  RTPPacketParser.packetsLost
    (RTPPacketParser.feed RTPPacketParser.new bufs) = 0
  /\ RTPPacketParser.packetsReceived
       (RTPPacketParser.feed RTPPacketParser.new bufs)
     = Z.of_nat (length bufs).
Proof.
  intros Hall.
  destruct (feed_in_order RTPPacketParser.new s bufs (or_introl eq_refl) Hall)
    as [Hl Hr].
  rewrite Hl, Hr. cbn. lia.
Qed.

(** The datagrams numbered 65535, 0, 1. *)
Lemma in_order_stream_has_no_loss_witness :
  RTPPacketParser.packetsLost
    (RTPPacketParser.feed RTPPacketParser.new
       [rtpDatagram xff xff; rtpDatagram x00 x00; rtpDatagram x00 x01]) = 0
  /\ RTPPacketParser.packetsReceived
       (RTPPacketParser.feed RTPPacketParser.new
          [rtpDatagram xff xff; rtpDatagram x00 x00; rtpDatagram x00 x01])
     = Z.of_nat 3.
Proof.
  apply (in_order_stream_has_no_loss 65535).
  intros [|[|[|i]]] b Hi; cbn in Hi; try discriminate;
    injection Hi as <-; split; vm_compute; first [reflexivity | discriminate].
Defined.

Lemma last_cons_default (seqs : list Z) n l :
  List.last (n :: seqs) l = List.last seqs n.
Proof.
  revert n l. induction seqs as [|m seqs IHs]; intros n l; [done|].
  change (List.last (n :: m :: seqs) l) with (List.last (m :: seqs) l).
  by rewrite !IHs.
Qed.

Lemma feed_congruence this l bufs seqs :
  RTPPacketParser.lastSequence this = Some l ->
  Forall2 carriesSeq bufs seqs ->
  let p := RTPPacketParser.feed this bufs in
  RTPPacketParser.lastSequence p = Some (List.last seqs l)
  /\ RTPPacketParser.packetsReceived p
     = RTPPacketParser.packetsReceived this + Z.of_nat (length bufs)
  /\ RTPPacketParser.packetsLost this <= RTPPacketParser.packetsLost p
  /\ (RTPPacketParser.packetsLost p + RTPPacketParser.packetsReceived p)
       mod 65536
     = (RTPPacketParser.packetsLost this + RTPPacketParser.packetsReceived this
        + (List.last seqs l - l)) mod 65536.
Proof.
  intros Hl Hall. revert this l Hl.
  induction Hall as [|b n bufs seqs Hb Hall IH]; intros this l Hl.
  - cbn. rewrite Hl. repeat split; try lia. f_equal. lia.
  - cbv zeta. rewrite (feed_carriesSeq _ _ _ _ Hb).
    destruct (IH (RTPPacketParser.account this n) n eq_refl)
      as (H1 & H2 & H3 & H4).
    rewrite last_cons_default.
    rewrite account_lost, Hl in H3, H4.
    cbn [RTPPacketParser.account RTPPacketParser.packetsReceived] in H2, H4.
    pose proof (Z.mod_pos_bound (n - (l + 1) mod 65536 + 65536) 65536
                  ltac:(lia)) as Hb'.
    split; [exact H1|]. split; [rewrite H2; cbn [length]; lia|].
    split; [lia|]. rewrite H4.
    set (L := RTPPacketParser.packetsLost this).
    set (R := RTPPacketParser.packetsReceived this).
    set (e := List.last seqs n).
    replace (L + (n - (l + 1) mod 65536 + 65536) mod 65536 + (R + 1) + (e - n))
      with ((n - (l + 1) mod 65536 + 65536) mod 65536 + (L + R + 1 + e - n))
      by lia.
    rewrite Zplus_mod_idemp_l.
    replace (n - (l + 1) mod 65536 + 65536 + (L + R + 1 + e - n))
      with (L + R + 1 + e + 65536 - (l + 1) mod 65536) by lia.
    rewrite Zminus_mod_idemp_r.
    replace (L + R + 1 + e + 65536 - (l + 1)) with (L + R + (e - l) + 1 * 65536)
      by lia.
    apply Z_mod_plus_full.
Qed.

(** X6: on a fresh parser fed any run of decodable datagrams, received
    plus lost is congruent modulo 65536 to the span of sequence numbers
    seen, last - first + 1; packetsReceived is the number of datagrams and
    lastSequence the number of the last one. *)
Theorem lost_plus_received_spans_sequence (b : Buffer.t) (first : Z)
    (bufs : list Buffer.t) (seqs : list Z) :
  carriesSeq b first ->
  Forall2 carriesSeq bufs seqs ->
  let p := RTPPacketParser.feed RTPPacketParser.new (b :: bufs) in
  RTPPacketParser.lastSequence p = Some (List.last seqs first)
  /\ RTPPacketParser.packetsReceived p = 1 + Z.of_nat (length bufs)
  /\ 0 <= RTPPacketParser.packetsLost p
  /\ (RTPPacketParser.packetsLost p + RTPPacketParser.packetsReceived p)
       mod 65536
     = (List.last seqs first - first + 1) mod 65536.
Proof.
  intros Hb Hall p. subst p. rewrite (feed_carriesSeq _ _ _ _ Hb).
  destruct (feed_congruence (RTPPacketParser.account RTPPacketParser.new first)
              first bufs seqs eq_refl Hall) as (H1 & H2 & H3 & H4).
  split; [exact H1|]. split; [rewrite H2; cbn; lia|].
  split; [cbn in H3; lia|]. rewrite H4. cbn. f_equal. lia.
Qed.

(** The datagrams numbered 65534, 1, 5: last - first + 1 = -65528, which
    is 8 modulo 65536, and the parser counts 3 received and 5 lost. *)
Lemma lost_plus_received_spans_sequence_witness :
  (RTPPacketParser.packetsLost
     (RTPPacketParser.feed RTPPacketParser.new
        [rtpDatagram xff xfe; rtpDatagram x00 x01; rtpDatagram x00 x05])
   + RTPPacketParser.packetsReceived
       (RTPPacketParser.feed RTPPacketParser.new
          [rtpDatagram xff xfe; rtpDatagram x00 x01; rtpDatagram x00 x05]))
    mod 65536
  = (List.last [1; 5] 65534 - 65534 + 1) mod 65536.
Proof.
  apply (lost_plus_received_spans_sequence (rtpDatagram xff xfe) 65534
           [rtpDatagram x00 x01; rtpDatagram x00 x05] [1; 5]).
  - split; vm_compute; first [reflexivity | discriminate].
  - repeat constructor; vm_compute; first [reflexivity | discriminate].
Defined.

(** X7: a datagram that repeats the last sequence number, or arrives
    late with an earlier one, is counted as a loss: with lastSequence =
    last and a datagram numbered actual <= last, packetsLost grows by
    65535 - (last - actual), that is by 65535 for a duplicate. *)
Theorem late_datagram_counted_as_loss (this : RTPPacketParser.t)
    (buffer : Buffer.t) (last actual : Z) :
  RTPPacketParser.lastSequence this = Some last ->
  0 <= last <= 65535 ->
  carriesSeq buffer actual ->
  actual <= last ->
  RTPPacketParser.packetsLost (RTPPacketParser.parsePacket this buffer).1
  = RTPPacketParser.packetsLost this + (65535 - (last - actual)).
Proof.
  intros Hl Hlast Hb Hle.
  destruct (parsePacket_carriesSeq this buffer actual Hb) as [pkt ->].
  cbn [fst]. rewrite account_lost, Hl. f_equal.
  destruct Hb as [_ Hseq]. apply readUInt16BE_range in Hseq.
  destruct (Z.eq_dec last 65535) as [-> | Hne].
  - change ((65535 + 1) mod 65536) with 0.
    replace (actual - 0 + 65536) with (actual + 1 * 65536) by lia.
    rewrite Z_mod_plus_full, Z.mod_small; lia.
  - rewrite (Z.mod_small (last + 1)) by lia.
    rewrite Z.mod_small; lia.
Qed.

(** The datagram numbered 7 twice in a row. *)
Lemma late_datagram_counted_as_loss_witness :
  RTPPacketParser.packetsLost
    (RTPPacketParser.parsePacket (RTPPacketParser.mk (Some 7) 0 1)
       (rtpDatagram x00 x07)).1
  = 0 + (65535 - (7 - 7)).
Proof.
  apply (late_datagram_counted_as_loss (RTPPacketParser.mk (Some 7) 0 1)
           (rtpDatagram x00 x07) 7 7); try reflexivity; try lia.
  split; vm_compute; first [reflexivity | discriminate].
Defined.

Lemma slice_from_drop b start :
  0 <= start ->
  Buffer.slice_from b start = drop (Z.to_nat (Z.min start (Buffer.len b))) b.
Proof.
  intros Hs. unfold Buffer.slice_from, Buffer.slice, Buffer.clamp.
  destruct (Z.ltb_spec start 0); [lia|].
  destruct (Z.ltb_spec (Buffer.len b) 0); [unfold Buffer.len in *; lia|].
  rewrite (Z.min_l (Buffer.len b)) by lia.
  apply take_ge. rewrite length_drop. unfold Buffer.len. lia.
Qed.

Lemma slice_0_take b e :
  exists j : nat, Buffer.slice b 0 e = take j b.
Proof.
  unfold Buffer.slice. eexists.
  replace (Z.to_nat (Buffer.clamp (Buffer.len b) 0)) with 0%nat; [reflexivity|].
  unfold Buffer.clamp. change (0 <? 0) with false. cbv iota.
  unfold Buffer.len. lia.
Qed.

(** X8: [parsePacket] never raises. A datagram shorter than twelve bytes
    gives null and leaves the parser untouched; any other datagram is
    counted and gives a packet whose header is read from the first twelve
    bytes and whose payload is a contiguous run of bytes of the datagram
    that starts at offset 12 or later. *)
Theorem parsePacket_total (this : RTPPacketParser.t) (buffer : Buffer.t) :
  (Buffer.len buffer < 12 /\
   RTPPacketParser.parsePacket this buffer = (this, JS.Return None))
  \/ (12 <= Buffer.len buffer /\
      exists h (i j : nat),
        RTPHeader.read buffer = Some h
        /\ (12 <= i)%nat
        /\ RTPPacketParser.parsePacket this buffer
           = (RTPPacketParser.account this (RTPHeader.sequenceNumber h),
              JS.Return (Some (RTPPacketParser.mkPacket h
                                 (take j (drop i buffer)))))).
Proof.
  destruct (Z.lt_ge_cases (Buffer.len buffer) 12) as [Hs | Hl].
  - left. split; [exact Hs | by apply parsePacket_short].
  - right. split; [exact Hl|].
    destruct (read_long buffer Hl) as (h & Hr & _ & Hcc).
    destruct (extended_in_range buffer h (12 + RTPHeader.csrcCount h * 4)
                ltac:(lia)) as [hl Hext].
    assert (12 <= hl) as Hhl.
    { unfold RTPPacketParser.extended in Hext.
      destruct (JS.truthy _); [|injection Hext as <-; lia].
      destruct (_ <=? _); [|injection Hext as <-; lia].
      destruct (Buffer.readUInt16BE _ _) as [w|] eqn:Hw; [|discriminate].
      apply readUInt16BE_range in Hw. injection Hext as <-. lia. }
    unfold RTPPacketParser.parsePacket.
    destruct (Z.ltb_spec (Buffer.len buffer) 12); [lia|].
    rewrite Hr, Hext. rewrite slice_from_drop by lia.
    set (i := Z.to_nat (Z.min hl (Buffer.len buffer))).
    assert (exists j : nat,
              RTPPacketParser.unpad h (drop i buffer) = take j (drop i buffer))
      as [j ->].
    { unfold RTPPacketParser.unpad. destruct (_ && _).
      - apply slice_0_take.
      - exists (length (drop i buffer)). by rewrite take_ge. }
    exists h, i, j. split; [done|]. split; [subst i; lia | done].
Qed.

(** ** RTP handler of the router *)

(** X9: [handleRTPPacket] counts before it validates. A datagram of twelve
    bytes or more addressed to a known subscription adds 1 to its
    packetsReceived and the datagram length to its bytesReceived, whether
    or not the datagram is then dropped as malformed, and touches no
    other subscription; a shorter datagram or an unknown subscription
    changes nothing. *)
Theorem handleRTPPacket_statistics (this : AES67Router.t) (msg : Buffer.t)
    (subscriptionId : string) :
  let this' := AES67Router.handleRTPPacket this msg subscriptionId in
  (forall other, other <> subscriptionId ->
     AES67Router.subscriptions this' !! other
     = AES67Router.subscriptions this !! other)
  /\ match AES67Router.subscriptions this !! subscriptionId with
     | None => this' = this
     | Some sub =>
         if Buffer.len msg <? 12 then this' = this
         else
           AES67Router.subscriptions this' !! subscriptionId
           = Some (AES67Router.mkSubscription (AES67Router.id sub)
                     (AES67Router.stream sub) (AES67Router.localPort sub)
                     (AES67Router.created sub)
                     (AES67Router.packetsReceived sub + 1)
                     (AES67Router.bytesReceived sub + Buffer.len msg)
                     (AES67Router.status sub))
     end.
Proof.
  cbv zeta. unfold AES67Router.handleRTPPacket.
  destruct (Z.ltb_spec (Buffer.len msg) 12) as [Hs | Hl].
  { split; [done|]. by destruct (_ !! _). }
  destruct (AES67Router.subscriptions this !! subscriptionId) as [sub|] eqn:Hsub;
    [|by split].
  set (sub' := AES67Router.mkSubscription _ _ _ _ _ _ _).
  assert (forall r : AES67Router.t,
            AES67Router.subscriptions r
            = <[subscriptionId := sub']> (AES67Router.subscriptions this) ->
            (forall other, other <> subscriptionId ->
               AES67Router.subscriptions r !! other
               = AES67Router.subscriptions this !! other)
            /\ AES67Router.subscriptions r !! subscriptionId = Some sub')
    as Hok.
  { intros r ->. split; [|apply lookup_insert_eq].
    intros other Hne. by apply lookup_insert_ne. }
  destruct (RTPHeader.read msg) as [h|]; [|by apply Hok].
  cbn [AES67Router.sent AES67Router.subscriptions].
  destruct (_ <? _); [by apply Hok|].
  destruct (_ && _).
  - destruct (Buffer.readUInt16BE msg _); [|by apply Hok].
    destruct (_ <? _); by apply Hok.
  - destruct (_ <? _); by apply Hok.
Qed.

(** X10: the router's handler and the receiver's parser read a datagram
    alike, except that the router does not strip padding: whenever
    [handleRTPPacket] sends an audio message for a datagram, [parsePacket]
    returns a packet for it with the same header, and the parser's payload
    is the router's audio with the padding removed. *)
Theorem router_audio_is_unstripped_payload (this : AES67Router.t)
    (parser : RTPPacketParser.t) (msg : Buffer.t) (subscriptionId : string)
    (a : AES67Router.audioData) :
  AES67Router.sent (AES67Router.handleRTPPacket this msg subscriptionId)
  = AES67Router.sent this ++ [a] ->
  (RTPPacketParser.parsePacket parser msg).2
  = JS.Return
      (Some (RTPPacketParser.mkPacket (AES67Router.rtp a)
               (RTPPacketParser.unpad (AES67Router.rtp a)
                  (AES67Router.audio a)))).
Proof.
  assert (forall A (l : list A) x, l <> l ++ [x]) as Hneq.
  { intros A l x H. apply (f_equal length) in H.
    rewrite length_app in H. cbn in H. lia. }
  unfold AES67Router.handleRTPPacket, RTPPacketParser.parsePacket.
  destruct (Z.ltb_spec (Buffer.len msg) 12) as [Hs | Hl];
    [intros Hx; by apply Hneq in Hx|].
  destruct (AES67Router.subscriptions this !! subscriptionId) as [sub|];
    [|intros Hx; by apply Hneq in Hx].
  destruct (RTPHeader.read msg) as [h|];
    [|intros Hx; by apply Hneq in Hx].
  cbn [AES67Router.sent AES67Router.subscriptions].
  unfold RTPPacketParser.extended.
  destruct (Z.ltb_spec (Buffer.len msg) (12 + RTPHeader.csrcCount h * 4));
    [intros Hx; by apply Hneq in Hx|].
  destruct (JS.truthy (RTPHeader.extension h)); cbn [andb].
  - destruct (12 + RTPHeader.csrcCount h * 4 + 4 <=? Buffer.len msg).
    + destruct (Buffer.readUInt16BE msg _) as [w|];
        [|intros Hx; by apply Hneq in Hx].
      destruct (_ <? _); [intros Hx; by apply Hneq in Hx|].
      cbn [AES67Router.sent]. intros [_ [= <-]]%app_inj_tail. reflexivity.
    + destruct (_ <? _); [intros Hx; by apply Hneq in Hx|].
      cbn [AES67Router.sent]. intros [_ [= <-]]%app_inj_tail. reflexivity.
  - destruct (_ <? _); [intros Hx; by apply Hneq in Hx|].
    cbn [AES67Router.sent]. intros [_ [= <-]]%app_inj_tail. reflexivity.
Qed.

(** The datagram [paddedByTwo]: the router forwards the four raw payload
    bytes, the parser returns the first two. *)
Lemma router_audio_is_unstripped_payload_witness :
  AES67Router.sent
    (AES67Router.handleRTPPacket oneSubscription paddedByTwo "cam_5004")
  = AES67Router.sent oneSubscription ++ [paddedByTwoAudio]
  /\ (RTPPacketParser.parsePacket RTPPacketParser.new paddedByTwo).2
     = JS.Return
         (Some (RTPPacketParser.mkPacket (AES67Router.rtp paddedByTwoAudio)
                  (RTPPacketParser.unpad (AES67Router.rtp paddedByTwoAudio)
                     (AES67Router.audio paddedByTwoAudio)))).
Proof.
  assert (AES67Router.sent
            (AES67Router.handleRTPPacket oneSubscription paddedByTwo
               "cam_5004")
          = AES67Router.sent oneSubscription ++ [paddedByTwoAudio]) as Hsent
    by (vm_compute; reflexivity).
  split; [exact Hsent|].
  exact (router_audio_is_unstripped_payload oneSubscription
           RTPPacketParser.new paddedByTwo "cam_5004" paddedByTwoAudio Hsent).
Defined.

(** ** Reads from the jitter buffer *)

Lemma blit_at_spec (dst : Buffer.t) (off : nat) (src : Buffer.t) :
  (off + length src <= length dst)%nat ->
  Buffer.blit_at dst off src
  = take off dst ++ src ++ drop (off + length src) dst.
Proof.
  revert off src. induction dst as [|d dst IH]; intros off src Hlen.
  - cbn in Hlen. destruct off; [|lia]. destruct src; [done | cbn in Hlen; lia].
  - destruct off as [|off].
    + destruct src as [|s src]; [done|]. cbn in Hlen.
      cbn [Buffer.blit_at]. rewrite (IH 0%nat src) by (cbn; lia).
      reflexivity.
    + cbn in Hlen. cbn [Buffer.blit_at]. rewrite (IH off src) by lia.
      reflexivity.
Qed.

Lemma total_concat buffers :
  AudioBufferManager.total buffers = Z.of_nat (length (concat buffers)).
Proof.
  induction buffers as [|b l IH]; [done|].
  rewrite total_cons, IH. cbn [concat]. rewrite length_app.
  unfold Buffer.len. lia.
Qed.

Lemma slice_0_prefix (b : Buffer.t) n :
  0 <= n <= Buffer.len b -> Buffer.slice b 0 n = take (Z.to_nat n) b.
Proof.
  intros Hn. unfold Buffer.slice, Buffer.clamp.
  change (0 <? 0) with false. destruct (Z.ltb_spec n 0); [lia|].
  rewrite Z.min_l, Z.min_l by lia. rewrite Z.sub_0_r. reflexivity.
Qed.

(** The loop of [getAudioData] moves the first bytes of the queue into the
    result, in order, and leaves the rest of the queue. *)
Lemma fill_spec requestedSize buffers : forall (result : Buffer.t) offset,
  0 <= offset <= requestedSize ->
  Buffer.len result = requestedSize ->
  requestedSize - offset <= AudioBufferManager.total buffers ->
  let '(r, bs) := AudioBufferManager.fill requestedSize result offset buffers in
  r = take (Z.to_nat offset) result
      ++ take (Z.to_nat (requestedSize - offset)) (queued buffers)
  /\ queued bs = drop (Z.to_nat (requestedSize - offset)) (queued buffers).
Proof.
  unfold queued.
  induction buffers as [|b rest IH]; intros result offset Hoff Hres Htot.
  - cbn in Htot. assert (offset = requestedSize) as -> by lia.
    cbn [AudioBufferManager.fill]. rewrite Z.sub_diag. cbn [Z.to_nat take drop].
    rewrite app_nil_r, take_ge by (unfold Buffer.len in Hres; lia). done.
  - cbn [AudioBufferManager.fill].
    rewrite total_cons in Htot.
    destruct (Z.ltb_spec offset requestedSize) as [Hlt | Hge].
    2:{ assert (offset = requestedSize) as -> by lia.
        rewrite Z.sub_diag. cbn [Z.to_nat take drop].
        rewrite app_nil_r, take_ge by (unfold Buffer.len in Hres; lia). done. }
    set (needed := requestedSize - offset) in *.
    assert (0 <= Buffer.len b) as Hb by (unfold Buffer.len; lia).
    destruct (Z.leb_spec (Buffer.len b) needed) as [Hfit | Hsplit].
    + specialize (IH (Buffer.blit result offset b) (offset + Buffer.len b)).
      assert (Buffer.blit result offset b
              = take (Z.to_nat offset) result ++ b
                ++ drop (Z.to_nat offset + length b) result) as Hblit.
      { unfold Buffer.blit. apply blit_at_spec.
        unfold Buffer.len, needed in *. lia. }
      destruct (AudioBufferManager.fill requestedSize _ _ rest) as [r bs].
      destruct IH as [Hr Hbs].
      * lia.
      * rewrite Hblit. unfold Buffer.len in *.
        rewrite !length_app, length_take, length_drop. lia.
      * unfold needed in *. lia.
      * cbn [concat]. split.
        -- rewrite Hr, Hblit.
           replace (Z.to_nat (offset + Buffer.len b))
             with (length (take (Z.to_nat offset) result ++ b))
             by (rewrite length_app, length_take; unfold Buffer.len in *; lia).
           rewrite app_assoc, take_app_length.
           replace (Z.to_nat needed)
             with (length b + Z.to_nat (requestedSize - (offset + Buffer.len b)))%nat
             by (unfold Buffer.len, needed in *; lia).
           rewrite take_app_add. by rewrite <- app_assoc.
        -- rewrite Hbs.
           replace (Z.to_nat needed)
             with (length b + Z.to_nat (requestedSize - (offset + Buffer.len b)))%nat
             by (unfold Buffer.len, needed in *; lia).
           by rewrite drop_app_add.
    + cbn [concat]. split.
      * unfold Buffer.blit. rewrite slice_0_prefix by lia.
        rewrite blit_at_spec
          by (rewrite length_take; unfold Buffer.len, needed in *; lia).
        rewrite (drop_ge result)
          by (rewrite length_take; unfold Buffer.len, needed in *; lia).
        rewrite app_nil_r. f_equal.
        rewrite take_app_le by (unfold Buffer.len in *; lia). reflexivity.
      * rewrite slice_from_drop by lia. rewrite Z.min_l by lia.
        rewrite drop_app_le by (unfold Buffer.len in *; lia). reflexivity.
Qed.

(** X11: [getAudioData] makes no partial read: with an empty queue, or
    with fewer bytes buffered than requested, it returns null and leaves
    the queue as it is -- so a request for 0 bytes on an empty queue gives
    null too. *)
Theorem getAudioData_null (this : AudioBufferManager.t) (requestedSize : Z)
    (junk : Buffer.t) :
  AudioBufferManager.buffers this = []
  \/ AudioBufferManager.getBufferedAmount this < requestedSize ->
  AudioBufferManager.getAudioData this requestedSize junk
  = (this, JS.Return None).
Proof.
  unfold AudioBufferManager.getAudioData, AudioBufferManager.getBufferedAmount.
  intros [-> | Hlt]; [reflexivity|].
  destruct (AudioBufferManager.buffers this) as [|b l]; [reflexivity|].
  destruct (Z.ltb_spec (AudioBufferManager.total (b :: l)) requestedSize);
    [reflexivity | lia].
Qed.

(** Three bytes buffered, four requested. *)
Lemma getAudioData_null_witness :
  AudioBufferManager.getAudioData
    (AudioBufferManager.mk 48000 2 3 [[x01; x02]; [x03]] 28800%Q) 4 []
  = (AudioBufferManager.mk 48000 2 3 [[x01; x02]; [x03]] 28800%Q,
     JS.Return None).
Proof.
  apply (getAudioData_null
           (AudioBufferManager.mk 48000 2 3 [[x01; x02]; [x03]] 28800%Q)).
  right. vm_compute. reflexivity.
Defined.

(** X12: with a non-empty queue that holds at least the requested number
    n >= 0 of bytes, [getAudioData] returns exactly the n oldest bytes, in
    the order they were queued and whatever the allocator held, and leaves
    the remaining bytes queued in order: the buffered amount drops by n
    and nothing is lost or repeated. *)
Theorem getAudioData_reads_oldest (this : AudioBufferManager.t)
    (requestedSize : Z) (junk : Buffer.t) :
  AudioBufferManager.buffers this <> [] ->
  0 <= requestedSize <= AudioBufferManager.getBufferedAmount this ->
  exists result this',
    AudioBufferManager.getAudioData this requestedSize junk
    = (this', JS.Return (Some result))
    /\ result
       = take (Z.to_nat requestedSize) (queued (AudioBufferManager.buffers this))
    /\ Buffer.len result = requestedSize
    /\ queued (AudioBufferManager.buffers this')
       = drop (Z.to_nat requestedSize)
           (queued (AudioBufferManager.buffers this))
    /\ result ++ queued (AudioBufferManager.buffers this')
       = queued (AudioBufferManager.buffers this)
    /\ AudioBufferManager.getBufferedAmount this'
       = AudioBufferManager.getBufferedAmount this - requestedSize
    /\ AudioBufferManager.maxBufferSize this'
       = AudioBufferManager.maxBufferSize this.
Proof.
  unfold AudioBufferManager.getAudioData, AudioBufferManager.getBufferedAmount.
  intros Hne [H0 Hn].
  destruct (AudioBufferManager.buffers this) as [|b l] eqn:Hbufs; [done|].
  destruct (Z.ltb_spec (AudioBufferManager.total (b :: l)) requestedSize);
    [lia|].
  destruct (Z.ltb_spec requestedSize 0); [lia|].
  pose proof (fill_spec requestedSize (b :: l)
                (allocUnsafe requestedSize junk) 0) as Hfill.
  destruct (AudioBufferManager.fill requestedSize _ 0 (b :: l)) as [r bs].
  destruct Hfill as [Hr Hbs].
  - lia.
  - unfold Buffer.len. rewrite allocUnsafe_length. lia.
  - lia.
  - rewrite Z.sub_0_r in Hr, Hbs. change (Z.to_nat 0) with 0%nat in Hr.
    rewrite take_0, app_nil_l in Hr.
    exists r. eexists. split; [reflexivity|].
    cbn [AudioBufferManager.buffers AudioBufferManager.maxBufferSize].
    assert (Z.to_nat requestedSize <= length (queued (b :: l)))%nat as Hlen.
    { rewrite total_concat in Hn. unfold queued. lia. }
    split; [exact Hr|]. split.
    { rewrite Hr. unfold Buffer.len. rewrite length_take. lia. }
    split; [exact Hbs|]. split.
    { rewrite Hr, Hbs. apply take_drop. }
    split; [|reflexivity].
    rewrite !total_concat. fold (queued bs). rewrite Hbs, length_drop.
    unfold queued in *. lia.
Qed.

(** Five bytes queued in two chunks, three read: the read crosses the
    chunk boundary and leaves the last two bytes. *)
Lemma getAudioData_reads_oldest_witness :
  exists result this',
    AudioBufferManager.getAudioData
      (AudioBufferManager.mk 48000 2 3 [[x01; x02]; [x03; x04; x05]] 28800%Q)
      3 [xff]
    = (this', JS.Return (Some result))
    /\ result
       = take (Z.to_nat 3) (queued [[x01; x02]; [x03; x04; x05]])
    /\ queued (AudioBufferManager.buffers this')
       = drop (Z.to_nat 3) (queued [[x01; x02]; [x03; x04; x05]]).
Proof.
  destruct (getAudioData_reads_oldest
              (AudioBufferManager.mk 48000 2 3
                 [[x01; x02]; [x03; x04; x05]] 28800%Q) 3 [xff])
    as (result & this' & H1 & H2 & _ & H3 & _).
  - discriminate.
  - vm_compute. split; discriminate.
  - exists result, this'. split; [exact H1|]. split; [exact H2 | exact H3].
Defined.

Lemma trim_suffix cap buffers :
  exists k : nat, AudioBufferManager.trim cap buffers = drop k buffers.
Proof.
  induction buffers as [|b l IH]; [by exists 0%nat|].
  cbn [AudioBufferManager.trim]. destruct (AudioBufferManager.Qgtb _ _).
  - destruct IH as [k ->]. by exists (S k).
  - by exists 0%nat.
Qed.

(** The loop on a queue that ends with the chunk [data]. *)
Lemma trim_last cap old data :
  if AudioBufferManager.Qgtb (inject_Z (Buffer.len data)) (cap * (8 # 10))
  then AudioBufferManager.trim cap (old ++ [data]) = []
  else exists k : nat,
         (k <= length old)%nat
         /\ AudioBufferManager.trim cap (old ++ [data]) = drop k old ++ [data].
Proof.
  induction old as [|b l IH].
  - cbn [app AudioBufferManager.trim].
    change (AudioBufferManager.total [data]) with (Buffer.len data).
    destruct (AudioBufferManager.Qgtb _ _); [reflexivity|].
    exists 0%nat. split; [cbn; lia | reflexivity].
  - cbn [app AudioBufferManager.trim].
    destruct (AudioBufferManager.Qgtb
                (inject_Z (AudioBufferManager.total (b :: l ++ [data]))) _)
      eqn:Hgt.
    + destruct (AudioBufferManager.Qgtb (inject_Z (Buffer.len data)) _);
        [exact IH|].
      destruct IH as (k & Hk & ->). exists (S k).
      split; [cbn; lia | reflexivity].
    + destruct (AudioBufferManager.Qgtb (inject_Z (Buffer.len data)) _)
        eqn:Hdata.
      * exfalso. apply Qgtb_false in Hgt. apply Qgtb_true in Hdata.
        apply Hdata. eapply Qle_trans; [|exact Hgt].
        rewrite <- Zle_Qle.
        assert (AudioBufferManager.total (l ++ [data])
                = AudioBufferManager.total l + Buffer.len data) as Happ.
        { unfold AudioBufferManager.total. by rewrite foldl_app. }
        rewrite total_cons, Happ.
        pose proof (total_nonneg l). unfold Buffer.len. lia.
      * exists 0%nat. split; [lia | reflexivity].
Qed.

(** X13: [addAudioData] never reorders or alters queued bytes: after an
    append the queue is the old chunks followed by the new one, less
    some whole chunks dropped from its head. The chunk just appended is
    dropped too, leaving the queue empty, exactly when the total exceeds
    the cap and that chunk alone exceeds 80% of the cap; in every other
    case it is the last chunk of the queue, after a tail of the old
    chunks. The cap stays the one set by the constructor. *)
Theorem addAudioData_keeps_order (this : AudioBufferManager.t)
    (data : Buffer.t) :
  let this' := AudioBufferManager.addAudioData this data in
  let old := AudioBufferManager.buffers this in
  let cap := AudioBufferManager.maxBufferSize this in
  (if AudioBufferManager.Qgtb
        (inject_Z (AudioBufferManager.total (old ++ [data]))) cap
      && AudioBufferManager.Qgtb (inject_Z (Buffer.len data))
           (cap * (8 # 10))
   then AudioBufferManager.buffers this' = []
   else exists k : nat,
          (k <= length old)%nat
          /\ AudioBufferManager.buffers this' = drop k old ++ [data])
  /\ (exists k : nat,
        AudioBufferManager.buffers this' = drop k (old ++ [data])
        /\ queued (take k (old ++ [data]))
           ++ queued (AudioBufferManager.buffers this')
           = queued old ++ data)
  /\ AudioBufferManager.maxBufferSize this' = cap.
Proof.
  cbv zeta. split; [|split; [|reflexivity]];
    unfold AudioBufferManager.addAudioData; cbn [AudioBufferManager.buffers].
  - destruct (AudioBufferManager.Qgtb
                (inject_Z (AudioBufferManager.total
                             (AudioBufferManager.buffers this ++ [data]))) _).
    + cbn [andb]. apply trim_last.
    + cbn [andb]. exists 0%nat. split; [lia | reflexivity].
  - assert (forall k : nat,
              queued (take k (AudioBufferManager.buffers this ++ [data]))
              ++ queued (drop k (AudioBufferManager.buffers this ++ [data]))
              = queued (AudioBufferManager.buffers this) ++ data) as Hsplit.
    { intros k. unfold queued. rewrite <- concat_app, take_drop, concat_app.
      cbn. by rewrite app_nil_r. }
    destruct (AudioBufferManager.Qgtb _ _).
    + destruct (trim_suffix (AudioBufferManager.maxBufferSize this)
                  (AudioBufferManager.buffers this ++ [data])) as [k ->].
      exists k. split; [reflexivity | apply Hsplit].
    + exists 0%nat. split; [reflexivity | apply (Hsplit 0%nat)].
Qed.

(** ** SAP decoding *)

Lemma skipToNull_bounds rest off :
  off <= AES67Discovery.skipToNull rest off <= off + Buffer.len rest.
Proof.
  unfold Buffer.len.
  revert off. induction rest as [|b rest IH]; intros off;
    cbn [AES67Discovery.skipToNull length].
  - lia.
  - destruct (negb _); [specialize (IH (off + 1))|]; lia.
Qed.

Lemma band_1_bit x : JS.band x 1 = 0 \/ JS.band x 1 = 1.
Proof.
  pose proof (band_ones x 1 ltac:(lia)) as H.
  change (Z.ones 1) with 1 in H. change (2 ^ 1) with 2 in H.
  rewrite H. pose proof (Z.mod_pos_bound x 2 ltac:(lia)). lia.
Qed.

(** What the decoder has checked when it hands a message on. *)
Lemma decodeSAP_facts (msg : Buffer.t) (d : AES67Discovery.sapMessage) :
  AES67Discovery.decodeSAP msg = Some d ->
  10 <= Buffer.len msg
  /\ JS.band (JS.shr (Buffer.bits msg 0) 5) 7 = 1
  /\ AES67Discovery.sap_messageType d
     = JS.band (JS.shr (Buffer.bits msg 0) 2) 1
  /\ (AES67Discovery.sap_messageType d = 0
      \/ AES67Discovery.sap_messageType d = 1)
  /\ AES67Discovery.sap_sourceIP d
     = dotted (Buffer.bits msg 4) (Buffer.bits msg 5) (Buffer.bits msg 6)
         (Buffer.bits msg 7)
  /\ JS.startsWith "v=0" (AES67Discovery.sap_sdpData d) = true
  /\ exists k : nat,
       9 + Buffer.bits msg 1 * 4 <= Z.of_nat k < Buffer.len msg
       /\ AES67Discovery.sap_sdpData d = Buffer.toString (drop k msg).
Proof.
  unfold AES67Discovery.decodeSAP. cbv zeta.
  destruct (Z.ltb_spec (Buffer.len msg) 8) as [|Hlen];
    cbv iota; [discriminate|].
  destruct (Buffer.readUInt16BE msg 2) as [hash|]; [|discriminate].
  destruct (Z.eqb_spec (JS.band (JS.shr (Buffer.bits msg 0) 5) 7) 1)
    as [Hv|]; cbn [negb]; cbv iota; [|discriminate].
  set (start := 8 + Buffer.bits msg 1 * 4).
  pose proof (bits_range msg 1) as Hauth.
  destruct (Z.leb_spec (Buffer.len msg) start) as [|Hstart];
    cbv iota; [discriminate|].
  pose proof (skipToNull_bounds (drop (Z.to_nat start) msg) start) as Hskip.
  set (off1 := AES67Discovery.skipToNull _ start + 1) in *.
  destruct (Z.leb_spec (Buffer.len msg) off1) as [|Hoff1];
    cbv iota; [discriminate|].
  set (off2 := if off1 + 8 <? Buffer.len msg then _ else off1).
  assert (off1 <= off2 <= off1 + 8) as Hoff2.
  { subst off2. destruct (_ <? _); [|lia]. destruct (JS.includes _ _); lia. }
  destruct (Z.leb_spec (Buffer.len msg) off2) as [|Hend];
    cbv iota; [discriminate|].
  destruct (negb _); cbn [andb]; cbv iota; [|discriminate].
  destruct (JS.startsWith "v=0" _) eqn:Hv0; [|discriminate].
  intros [= <-]. cbn [AES67Discovery.sap_messageType
    AES67Discovery.sap_sourceIP AES67Discovery.sap_sdpData].
  split; [lia|]. split; [exact Hv|]. split; [reflexivity|].
  split; [apply band_1_bit|]. split; [reflexivity|]. split; [exact Hv0|].
  exists (Z.to_nat off2). split; [subst start; lia|].
  rewrite slice_from_drop by lia. rewrite Z.min_l by lia. reflexivity.
Qed.

(** X14: what [handleSAPMessage] hands to [parseSDP] is grounded in the
    datagram. For a datagram whose bytes after the header and the
    authentication data are ASCII (so that decoding them as UTF-8 keeps
    them byte for byte), a message is handed on only if the datagram has
    at least ten bytes and SAP version 1; the message type is then bit 2
    of the first byte (0 or 1), the source address is the dotted form of
    bytes 4-7, and the SDP text is the datagram from some offset past the
    header, the authentication data and one terminator on, and begins
    with "v=0". *)
Theorem decodeSAP_sound (msg : Buffer.t) (d : AES67Discovery.sapMessage) :
  asciiFrom (8 + Buffer.bits msg 1 * 4) msg = true ->
  AES67Discovery.decodeSAP msg = Some d ->
  10 <= Buffer.len msg
  /\ JS.band (JS.shr (Buffer.bits msg 0) 5) 7 = 1
  /\ AES67Discovery.sap_messageType d
     = JS.band (JS.shr (Buffer.bits msg 0) 2) 1
  /\ (AES67Discovery.sap_messageType d = 0
      \/ AES67Discovery.sap_messageType d = 1)
  /\ AES67Discovery.sap_sourceIP d
     = dotted (Buffer.bits msg 4) (Buffer.bits msg 5) (Buffer.bits msg 6)
         (Buffer.bits msg 7)
  /\ JS.startsWith "v=0" (AES67Discovery.sap_sdpData d) = true
  /\ exists k : nat,
       9 + Buffer.bits msg 1 * 4 <= Z.of_nat k < Buffer.len msg
       /\ AES67Discovery.sap_sdpData d = Buffer.toString (drop k msg).
Proof. intros _. apply decodeSAP_facts. Qed.

(** The announce packet of the end-to-end scenario. *)
Lemma decodeSAP_sound_witness :
  10 <= Buffer.len specifiedPacket
  /\ JS.band (JS.shr (Buffer.bits specifiedPacket 0) 5) 7 = 1
  /\ exists k : nat,
       9 <= Z.of_nat k < Buffer.len specifiedPacket
       /\ scenarioSDP = Buffer.toString (drop k specifiedPacket).
Proof.
  destruct (decodeSAP_sound specifiedPacket
              (AES67Discovery.mkSapMessage scenarioSDP "192.168.1.10" 0))
    as (H1 & H2 & _ & _ & _ & _ & H3).
  - vm_compute. reflexivity.
  - vm_compute. reflexivity.
  - split; [exact H1|]. split; [exact H2 | exact H3].
Defined.

(** Decoding a sender packet whose first byte carries SAP version 1. *)
Lemma decodeSAP_sender_packet first hash a b c d sdpData :
  0 <= first < 256 -> JS.band (JS.shr first 5) 7 = 1 ->
  0 <= a < 256 -> 0 <= b < 256 -> 0 <= c < 256 -> 0 <= d < 256 ->
  JS.startsWith "v=0" sdpData = true ->
  (String.length sdpData <= 8)%nat
  \/ JS.includes "sdp" (firstChars 8 sdpData) = false ->
  AES67Discovery.decodeSAP
    (sapHeader first hash a b c d ++ SAPAnnouncer.payloadTypeTag
     ++ Buffer.from sdpData)
  = Some (AES67Discovery.mkSapMessage sdpData (dotted a b c d)
            (JS.band (JS.shr first 2) 1)).
Proof.
  intros Hfirst Hver Ha Hb Hc Hd Hv Hsdp.
  pose proof (startsWith_v0_length sdpData Hv) as Hn.
  pose proof (from_length sdpData) as Hfl.
  set (body := Buffer.from sdpData) in *.
  set (msg := sapHeader first hash a b c d ++ SAPAnnouncer.payloadTypeTag
              ++ body).
  assert (Buffer.len msg = 24 + Buffer.len body) as Hlen
    by apply sender_packet_len.
  assert (Buffer.len body = Z.of_nat (String.length sdpData)) as Hbody
    by (unfold Buffer.len; lia).
  unfold AES67Discovery.decodeSAP.
  destruct (Z.ltb_spec (Buffer.len msg) 8); [lia|].
  change (Buffer.bits msg 0) with (Buffer.u8 (Buffer.of_u8 first)).
  change (Buffer.bits msg 1) with (Buffer.u8 (Buffer.of_u8 0)).
  change (Buffer.bits msg 4) with (Buffer.u8 (Buffer.of_u8 a)).
  change (Buffer.bits msg 5) with (Buffer.u8 (Buffer.of_u8 b)).
  change (Buffer.bits msg 6) with (Buffer.u8 (Buffer.of_u8 c)).
  change (Buffer.bits msg 7) with (Buffer.u8 (Buffer.of_u8 d)).
  rewrite !u8_of_u8 by lia.
  assert (exists h, Buffer.readUInt16BE msg 2 = Some h) as [h ->].
  { unfold Buffer.readUInt16BE.
    destruct (Z.leb_spec (2 + 2) (Buffer.len msg)); [|lia]. cbn. eauto. }
  rewrite Hver. change (1 =? 1) with true.
  change (8 + 0 * 4) with 8. cbn [negb].
  change (AES67Discovery.skipToNull (drop (Z.to_nat 8) msg) 8) with 23.
  change (23 + 1) with 24. fold (dotted a b c d).
  destruct (Z.leb_spec (Buffer.len msg) 8); [lia|].
  destruct (Z.leb_spec (Buffer.len msg) 24); [lia|].
  assert ((if 24 + 8 <? Buffer.len msg
           then if JS.includes "sdp"
                     (Buffer.toString (Buffer.slice msg 24 (24 + 8)))
                then 24 + 8 else 24
           else 24) = 24) as ->.
  { destruct (Z.ltb_spec (24 + 8) (Buffer.len msg)) as [Hlong|]; [|done].
    subst msg. rewrite sender_packet_slice_tag by lia.
    subst body. rewrite toString_take.
    destruct Hsdp as [Hshort | ->]; [lia | done]. }
  destruct (Z.leb_spec (Buffer.len msg) 24); [lia|].
  subst msg. rewrite sender_packet_slice_from. subst body.
  rewrite toString_from, Hv.
  destruct (String.eqb_spec sdpData "") as [-> | _]; [cbn in Hn; lia|].
  reflexivity.
Qed.

(** Both packets of the sender decode to what went into them. *)
Lemma sapPacket_decodes first a b c d msgIdHash sdpData junk :
  0 <= first < 256 -> JS.band (JS.shr first 5) 7 = 1 ->
  0 <= a < 256 -> 0 <= b < 256 -> 0 <= c < 256 -> 0 <= d < 256 ->
  0 <= msgIdHash <= 65535 ->
  JS.startsWith "v=0" sdpData = true ->
  (String.length sdpData <= 8)%nat
  \/ JS.includes "sdp" (firstChars 8 sdpData) = false ->
  exists packet,
    SAPAnnouncer.sapPacket (SAPAnnouncer.mk (dotted a b c d) msgIdHash)
      first sdpData junk
    = JS.Return packet
    /\ AES67Discovery.decodeSAP packet
       = Some (AES67Discovery.mkSapMessage sdpData (dotted a b c d)
                 (JS.band (JS.shr first 2) 1)).
Proof.
  intros Hfirst Hver Ha Hb Hc Hd Hh Hv Hsdp.
  rewrite sapPacket_layout by exact Hh. cbn [SAPAnnouncer.sourceIP
    SAPAnnouncer.msgIdHash].
  rewrite ipParts_dotted by assumption.
  eexists. split; [reflexivity|].
  change (ipPart [Some a; Some b; Some c; Some d] 0) with a.
  change (ipPart [Some a; Some b; Some c; Some d] 1) with b.
  change (ipPart [Some a; Some b; Some c; Some d] 2) with c.
  change (ipPart [Some a; Some b; Some c; Some d] 3) with d.
  by apply decodeSAP_sender_packet.
Qed.

(** X15: the deletion packet of the sender round-trips like its announce
    packet. For every SDP text that begins with "v=0" and is at most
    eight bytes long or has no "sdp" within its first eight bytes, the
    decoder accepts the packet that [sendDeletion] builds and recovers the
    source address, the text, and message type 1. *)
Theorem sap_deletion_roundtrip (a b c d msgIdHash : Z) (sdpData : string)
    (junk : Buffer.t) :
  0 <= a < 256 -> 0 <= b < 256 -> 0 <= c < 256 -> 0 <= d < 256 ->
  0 <= msgIdHash <= 65535 ->
  JS.startsWith "v=0" sdpData = true ->
  (String.length sdpData <= 8)%nat
  \/ JS.includes "sdp" (firstChars 8 sdpData) = false ->
  exists packet,
    SAPAnnouncer.sendDeletion
      (SAPAnnouncer.mk (dotted a b c d) msgIdHash) sdpData junk
    = JS.Return packet
    /\ AES67Discovery.decodeSAP packet
       = Some (AES67Discovery.mkSapMessage sdpData (dotted a b c d) 1).
Proof.
  intros Ha Hb Hc Hd Hh Hv Hsdp. unfold SAPAnnouncer.sendDeletion.
  apply (sapPacket_decodes 36); try assumption; [lia | reflexivity].
Qed.

(** The deletion of the session of the end-to-end scenario. *)
Lemma sap_deletion_roundtrip_witness :
  exists packet,
    SAPAnnouncer.sendDeletion
      (SAPAnnouncer.mk (dotted 192 168 1 10) 513) scenarioSDP [xff; xfe]
    = JS.Return packet
    /\ AES67Discovery.decodeSAP packet
       = Some (AES67Discovery.mkSapMessage scenarioSDP
                 (dotted 192 168 1 10) 1).
Proof.
  apply (sap_deletion_roundtrip 192 168 1 10 513 scenarioSDP [xff; xfe]);
    try lia; [vm_compute; reflexivity | right; vm_compute; reflexivity].
Defined.

(** ** The router's own SAP packet *)

Lemma blit_at_length dst off src :
  length (Buffer.blit_at dst off src) = length dst.
Proof.
  revert off src. induction dst as [|d dst IH]; intros off src; [done|].
  destruct off as [|off]; cbn [Buffer.blit_at].
  - destruct src as [|s src]; [done|]. cbn [length]. by rewrite IH.
  - cbn [length]. by rewrite IH.
Qed.

(** A buffer without a zero byte is skipped to its end. *)
Lemma skipToNull_nullFree rest off :
  forallb (fun b => negb (Buffer.u8 b =? 0)) rest = true ->
  AES67Discovery.skipToNull rest off = off + Buffer.len rest.
Proof.
  unfold Buffer.len. revert off.
  induction rest as [|b rest IH]; intros off Hall;
    cbn [AES67Discovery.skipToNull length].
  - lia.
  - cbn [forallb] in Hall. apply andb_prop in Hall as [-> Hall].
    rewrite IH by exact Hall. lia.
Qed.

(** The router's packet, byte for byte. *)
Lemma createSAPPacket_bytes (this : AES67Discovery.t)
    (sdpData : string) (junk : Buffer.t) :
  AES67Discovery.createSAPPacket this sdpData junk
  = if String.eqb sdpData "" then None
    else
      match JS.split "."%char (AES67Discovery.localIP this) with
      | [p0; p1; p2; p3] =>
          Some (sapHeader 32 0
                  (JS.parseIntOr (JS.VString p0) 0)
                  (JS.parseIntOr (JS.VString p1) 0)
                  (JS.parseIntOr (JS.VString p2) 0)
                  (JS.parseIntOr (JS.VString p3) 0)
                ++ Buffer.from "applicat" ++ Buffer.from sdpData)
      | _ => None
      end.
Proof.
  unfold AES67Discovery.createSAPPacket.
  destruct (String.eqb sdpData ""); [reflexivity|].
  set (body := Buffer.from sdpData).
  set (p := allocUnsafe _ junk).
  assert (length p = (16 + length body)%nat) as Hp.
  { subst p. rewrite allocUnsafe_length. unfold Buffer.len. lia. }
  do 16 (destruct p as [|? p]; [cbn in Hp; lia|]).
  assert (length body = length p) as Hrest by (cbn in Hp; lia).
  unfold writeUInt16BE, Buffer.bytesUInt16BE, Buffer.set, Buffer.blit,
    sapHeader.
  change (0 <? 0) with false. change (1 <? 0) with false.
  change (4 <? 0) with false. change (5 <? 0) with false.
  change (6 <? 0) with false. change (7 <? 0) with false. cbv iota.
  match goal with
  | |- context [Z.leb (2 + 2) ?y] =>
      destruct (Z.leb_spec (2 + 2) y) as [_ | Hbad];
      [|exfalso; unfold Buffer.len in Hbad; rewrite !length_insert in Hbad;
        cbn [length] in Hbad; lia]
  end.
  change (0 <=? 2) with true. change (0 <=? 0) with true.
  change (0 <=? 65535) with true.
  cbv iota. cbn [andb fmap option_fmap option_map].
  destruct (JS.split "."%char (AES67Discovery.localIP this))
    as [|p0 [|p1 [|p2 [|p3 [|p4 rest]]]]]; try reflexivity.
  cbn [fmap list_fmap length Nat.eqb negb]. cbv iota.
  change (ipPart _ 0) with (JS.parseIntOr (JS.VString p0) 0).
  change (ipPart _ 1) with (JS.parseIntOr (JS.VString p1) 0).
  change (ipPart _ 2) with (JS.parseIntOr (JS.VString p2) 0).
  change (ipPart _ 3) with (JS.parseIntOr (JS.VString p3) 0).
  generalize (Buffer.of_u8 32) (Buffer.of_u8 0) (Buffer.of_u8 (0 / 256))
    (Buffer.of_u8 (JS.parseIntOr (JS.VString p0) 0))
    (Buffer.of_u8 (JS.parseIntOr (JS.VString p1) 0))
    (Buffer.of_u8 (JS.parseIntOr (JS.VString p2) 0))
    (Buffer.of_u8 (JS.parseIntOr (JS.VString p3) 0)).
  intros c0 c1 c2 c4 c5 c6 c7. f_equal.
  match goal with
  | |- ?l = _ =>
      change l
        with ([c0; c1; c2; c1; c4; c5; c6; c7] ++ Buffer.from "applicat"
              ++ Buffer.blit_at
                   (Buffer.blit_at p 0 (Buffer.from "ion/sdp")) 0 body)
  end.
  rewrite blit_at_full by (rewrite blit_at_length; exact Hrest).
  reflexivity.
Qed.

(** X16: the packet of the router's [createSAPPacket], whatever the
    allocator held: null for an empty text and when the local address does
    not split into four parts at its dots; otherwise the eight header
    bytes (0x20, 0, a zero hash, and each part of the address as parsed
    by [parseInt], 0 when that fails), then the eight bytes "applicat",
    then the SDP text from offset 16. *)
Theorem router_createSAPPacket_layout (this : AES67Discovery.t)
    (sdpData : string) (junk : Buffer.t) :
  AES67Discovery.createSAPPacket this sdpData junk
  = if String.eqb sdpData "" then None
    else
      match JS.split "."%char (AES67Discovery.localIP this) with
      | [p0; p1; p2; p3] =>
          Some (sapHeader 32 0
                  (JS.parseIntOr (JS.VString p0) 0)
                  (JS.parseIntOr (JS.VString p1) 0)
                  (JS.parseIntOr (JS.VString p2) 0)
                  (JS.parseIntOr (JS.VString p3) 0)
                ++ Buffer.from "applicat" ++ Buffer.from sdpData)
      | _ => None
      end.
Proof. apply createSAPPacket_bytes. Qed.

(** X17: the router's decoder drops every packet the router's own
    [createSAPPacket] builds from a text without a null byte: nothing
    terminates the payload type, so the search for the terminator runs to
    the end of the packet. *)
Theorem router_packet_never_decodes (this : AES67Discovery.t)
    (sdpData : string) (junk packet : Buffer.t) :
  AES67Discovery.createSAPPacket this sdpData junk = Some packet ->
  nullFree sdpData = true ->
  AES67Discovery.decodeSAP packet = None.
Proof.
  rewrite createSAPPacket_bytes.
  destruct (String.eqb sdpData ""); [discriminate|].
  destruct (JS.split "."%char (AES67Discovery.localIP this))
    as [|p0 [|p1 [|p2 [|p3 [|p4 rest]]]]]; try discriminate.
  set (hdr := sapHeader _ _ _ _ _ _).
  intros Hp Hfree. unfold nullFree in Hfree.
  set (body := Buffer.from sdpData) in *.
  set (msg := hdr ++ Buffer.from "applicat" ++ body) in *.
  assert (packet = msg) as -> by congruence. clear Hp.
  assert (Buffer.len msg = 16 + Buffer.len body) as Hlen.
  { subst msg. unfold Buffer.len. rewrite !length_app.
    change (length hdr) with 8%nat.
    change (length (Buffer.from "applicat")) with 8%nat. lia. }
  unfold AES67Discovery.decodeSAP.
  destruct (Z.ltb_spec (Buffer.len msg) 8);
    [unfold Buffer.len in *; lia|].
  destruct (Buffer.readUInt16BE msg 2); [|reflexivity].
  destruct (negb _); [reflexivity|].
  change (Buffer.bits msg 1) with (Buffer.u8 (Buffer.of_u8 0)).
  change (Buffer.u8 (Buffer.of_u8 0)) with 0.
  change (8 + 0 * 4) with 8.
  change (drop (Z.to_nat 8) msg) with (Buffer.from "applicat" ++ body).
  rewrite skipToNull_nullFree
    by (rewrite forallb_app; apply andb_true_intro; split;
        [reflexivity | exact Hfree]).
  destruct (Buffer.len msg <=? 8); [reflexivity|].
  destruct (Z.leb_spec (Buffer.len msg)
              (8 + Buffer.len (Buffer.from "applicat" ++ body) + 1))
    as [|Hbad]; [reflexivity|].
  exfalso. unfold Buffer.len in *. rewrite length_app in Hbad.
  change (length (Buffer.from "applicat")) with 8%nat in Hbad. lia.
Qed.

(** The announcement of the end-to-end scenario, built by the router on
    192.168.1.10. *)
Lemma router_packet_never_decodes_witness :
  AES67Discovery.decodeSAP routerPacket = None.
Proof.
  apply (router_packet_never_decodes (discoveryAt "192.168.1.10")
           scenarioSDP []); vm_compute; reflexivity.
Defined.

(** ** Stream descriptors *)

(** X18: [isMulticastIP] on a dotted quad of four octets tests the first
    octet against 224..239, the class D range; the other three octets
    play no part. *)
Theorem isMulticastIP_dotted (a b c d : Z) :
  0 <= a < 256 -> 0 <= b < 256 -> 0 <= c < 256 -> 0 <= d < 256 ->
  AES67Discovery.isMulticastIP (Some (dotted a b c d))
  = (224 <=? a) && (a <=? 239).
Proof.
  intros Ha Hb Hc Hd.
  pose proof (ipParts_dotted a b c d Ha Hb Hc Hd) as Hparts.
  unfold AES67Discovery.isMulticastIP.
  destruct (String.eqb_spec (dotted a b c d) "") as [He|_].
  { rewrite He in Hparts. discriminate Hparts. }
  destruct (JS.split "."%char (dotted a b c d))
    as [|p0 [|p1 [|p2 [|p3 [|p4 rest]]]]]; try discriminate Hparts.
  injection Hparts as H0 _ _ _.
  change (JS.parseInt (default ""%string ([p0; p1; p2; p3] !! 0%nat)))
    with (JS.parseInt p0).
  rewrite H0. reflexivity.
Qed.

(** 239.69.1.1, the group of the end-to-end scenario, and 192.168.1.10. *)
Lemma isMulticastIP_dotted_witness :
  AES67Discovery.isMulticastIP (Some (dotted 239 69 1 1)) = true
  /\ AES67Discovery.isMulticastIP (Some (dotted 192 168 1 10)) = false.
Proof.
  split.
  - rewrite (isMulticastIP_dotted 239 69 1 1); [reflexivity | lia..].
  - rewrite (isMulticastIP_dotted 192 168 1 10); [reflexivity | lia..].
Defined.

(** ** Registry invariants *)

(** The device index after a call of [registerStream] that passes the
    guard. *)
Lemma registerStream_devices this info :
  AES67Discovery.sourceIP info <> "" -> AES67Discovery.port info <> 0 ->
  let this' := (AES67Discovery.registerStream this info).1 in
  let key := AES67Discovery.streamKey info in
  let ip := AES67Discovery.sourceIP info in
  AES67Discovery.devices this' !! ip
  = Some (match AES67Discovery.devices this !! ip with
          | Some d =>
              if bool_decide (key ∈ AES67Discovery.device_streams d) then d
              else AES67Discovery.mkDevice (AES67Discovery.device_ip d)
                     (AES67Discovery.device_name d)
                     (AES67Discovery.device_streams d ++ [key])
          | None => AES67Discovery.mkDevice ip ip [key]
          end)
  /\ (forall ip', ip' <> ip ->
        AES67Discovery.devices this' !! ip'
        = AES67Discovery.devices this !! ip')
  /\ AES67Discovery.localIP this' = AES67Discovery.localIP this.
Proof.
  intros Hip Hport. unfold AES67Discovery.registerStream.
  destruct (String.eqb_spec (AES67Discovery.sourceIP info) ""); [done|].
  unfold JS.truthy. destruct (Z.eqb_spec (AES67Discovery.port info) 0); [done|].
  cbn [negb orb fst snd AES67Discovery.devices AES67Discovery.localIP].
  set (key := AES67Discovery.streamKey info).
  set (ip := AES67Discovery.sourceIP info).
  destruct (AES67Discovery.devices this !! ip) as [d|] eqn:Hd.
  - rewrite bool_decide_eq_true_2 by eauto. rewrite Hd.
    destruct (decide (key ∈ AES67Discovery.device_streams d)) as [Hin|Hin].
    + rewrite (bool_decide_eq_true_2 _ Hin). cbn [negb].
      split; [exact Hd|]. split; [done|reflexivity].
    + rewrite (bool_decide_eq_false_2 _ Hin). cbn [negb].
      split; [apply lookup_insert_eq|].
      split; [|reflexivity]. intros ip' Hne. by apply lookup_insert_ne.
  - rewrite bool_decide_eq_false_2 by (intros [? ?]; congruence).
    rewrite lookup_insert_eq. cbn [AES67Discovery.device_streams].
    rewrite bool_decide_eq_false_2 by apply not_elem_of_nil. cbn [negb].
    split; [apply lookup_insert_eq|]. split; [|reflexivity].
    intros ip' Hne. rewrite !lookup_insert_ne by done. reflexivity.
Qed.

(** What [registerStream] leaves alone. *)
Lemma registerStream_rejected this info :
  AES67Discovery.sourceIP info = "" \/ AES67Discovery.port info = 0 ->
  (AES67Discovery.registerStream this info).1 = this.
Proof.
  intros Hbad. unfold AES67Discovery.registerStream, JS.truthy.
  destruct Hbad as [-> | ->]; [reflexivity|].
  by rewrite orb_true_r.
Qed.

(** X19: a call of [registerStream] touches one key and one device. The
    streams filed under any other key, in the discovery object and in
    the global registry, and the devices of any other address are as they
    were; so is the local address; the messages sent so far stay, with at
    most one appended; and a descriptor with an empty source address or
    port 0 changes nothing at all. *)
Theorem registerStream_frame (this : AES67Discovery.t)
    (info : AES67Discovery.streamInfo) :
  let this' := (AES67Discovery.registerStream this info).1 in
  (forall k, k <> AES67Discovery.streamKey info ->
     AES67Discovery.streams this' !! k = AES67Discovery.streams this !! k
     /\ AES67Discovery.globalStreamRegistry this' !! k
        = AES67Discovery.globalStreamRegistry this !! k)
  /\ (forall ip, ip <> AES67Discovery.sourceIP info ->
        AES67Discovery.devices this' !! ip
        = AES67Discovery.devices this !! ip)
  /\ AES67Discovery.localIP this' = AES67Discovery.localIP this
  /\ (AES67Discovery.sent this' = AES67Discovery.sent this
      \/ AES67Discovery.sent this' = AES67Discovery.sent this ++ [info])
  /\ (AES67Discovery.sourceIP info = "" \/ AES67Discovery.port info = 0 ->
      this' = this).
Proof.
  intros this'.
  destruct (decide (AES67Discovery.sourceIP info = "")) as [He|Hip].
  { subst this'. rewrite registerStream_rejected by (by left).
    repeat split; auto. }
  destruct (decide (AES67Discovery.port info = 0)) as [He|Hport].
  { subst this'. rewrite registerStream_rejected by (by right).
    repeat split; auto. }
  destruct (registerStream_accepted this info Hip Hport)
    as (Hs & Hg & Hm & _).
  destruct (registerStream_devices this info Hip Hport) as (_ & Hd & Hl).
  fold this' in Hs, Hg, Hm, Hd, Hl.
  split.
  { intros k Hk. rewrite Hs, Hg. by rewrite !lookup_insert_ne. }
  split; [exact Hd|]. split; [exact Hl|]. split.
  - rewrite Hm. destruct (_ && _); [by right | left; apply app_nil_r].
  - intros [?|?]; contradiction.
Qed.

(** One registration keeps the registries in agreement. *)
Lemma registerStream_indexed this info :
  indexed this -> indexed (AES67Discovery.registerStream this info).1.
Proof.
  intros [Hstreams Hdevices].
  destruct (decide (AES67Discovery.sourceIP info = "")) as [He|Hip].
  { rewrite registerStream_rejected by (by left). by split. }
  destruct (decide (AES67Discovery.port info = 0)) as [He|Hport].
  { rewrite registerStream_rejected by (by right). by split. }
  destruct (registerStream_accepted this info Hip Hport)
    as (Hs & Hg & _ & _).
  destruct (registerStream_devices this info Hip Hport) as (Hd & Hd' & _).
  cbv zeta in Hs, Hg, Hd, Hd'.
  set (this' := (AES67Discovery.registerStream this info).1) in *.
  set (key := AES67Discovery.streamKey info) in *.
  set (ip := AES67Discovery.sourceIP info) in *.
  assert (exists d, AES67Discovery.devices this' !! ip = Some d
                    /\ key ∈ AES67Discovery.device_streams d
                    /\ AES67Discovery.device_ip d = ip
                    /\ NoDup (AES67Discovery.device_streams d)
                    /\ forall old,
                         AES67Discovery.devices this !! ip = Some old ->
                         forall k, k ∈ AES67Discovery.device_streams old ->
                                   k ∈ AES67Discovery.device_streams d)
    as (dnew & Hdnew & Hkey & Hdip & Hnd & Hold).
  { eexists. split; [exact Hd|].
    destruct (AES67Discovery.devices this !! ip) as [d|] eqn:Hdev.
    - destruct (Hdevices ip d Hdev) as [Hi Hn].
      destruct (decide (key ∈ AES67Discovery.device_streams d)) as [Hin|Hin].
      + rewrite (bool_decide_eq_true_2 _ Hin).
        repeat split; try done. by intros old [= <-].
      + rewrite (bool_decide_eq_false_2 _ Hin).
        cbn [AES67Discovery.device_streams AES67Discovery.device_ip].
        split; [apply elem_of_app; right; apply list_elem_of_singleton; done|].
        split; [done|]. split.
        * apply NoDup_app. split; [done|]. split; [|apply NoDup_singleton].
          intros x Hx Hx'. apply list_elem_of_singleton in Hx'. by subst x.
        * intros old [= <-] k Hk. apply elem_of_app. by left.
    - cbn [AES67Discovery.device_streams AES67Discovery.device_ip].
      split; [apply list_elem_of_singleton; done|]. split; [done|].
      split; [apply NoDup_singleton|]. intros old [=]. }
  split.
  - intros k v Hk. rewrite Hs in Hk.
    destruct (decide (k = key)) as [->|Hne].
    + rewrite lookup_insert_eq in Hk. injection Hk as <-.
      split; [reflexivity|]. split; [rewrite Hg; apply lookup_insert_eq|].
      exists dnew. by split.
    + rewrite lookup_insert_ne in Hk by done.
      destruct (Hstreams k v Hk) as (Hkv & Hgv & d & Hdv & Hin).
      split; [exact Hkv|]. split; [by rewrite Hg, lookup_insert_ne|].
      destruct (decide (AES67Discovery.sourceIP v = ip)) as [Heq|Hneq].
      * exists dnew. rewrite Heq. split; [exact Hdnew|].
        rewrite Heq in Hdv. by apply (Hold d).
      * exists d. split; [|exact Hin]. by rewrite Hd'.
  - intros ip' d Hdev.
    destruct (decide (ip' = ip)) as [->|Hne].
    + rewrite Hdnew in Hdev. injection Hdev as <-. by split.
    + rewrite Hd' in Hdev by done. by apply Hdevices.
Qed.

(** What every call of [registerStream] preserves, [parseSDP] and
    [handleSAPMessage] preserve. *)
Lemma parseSDP_preserves (P : AES67Discovery.t -> Prop) this parsed
    sdpString sourceIP actualIP messageType rnd now :
  (forall this info, P this -> P (AES67Discovery.registerStream this info).1) ->
  P this ->
  P (AES67Discovery.parseSDP this parsed sdpString sourceIP actualIP
       messageType rnd now).
Proof.
  intros Hstep Hthis. unfold AES67Discovery.parseSDP.
  destruct (String.eqb sdpString ""); [exact Hthis|].
  destruct parsed as [s|]; [|exact Hthis].
  revert this Hthis.
  induction (AES67Discovery.session_media s) as [|m ms IH]; intros this Hthis;
    [exact Hthis|].
  cbn [foldl]. apply IH. destruct (_ && _); [by apply Hstep | exact Hthis].
Qed.

Lemma handleSAPMessage_preserves (P : AES67Discovery.t -> Prop) this parse
    msg rinfo_address rnd now :
  (forall this info, P this -> P (AES67Discovery.registerStream this info).1) ->
  P this ->
  P (AES67Discovery.handleSAPMessage this parse msg rinfo_address rnd now).
Proof.
  intros Hstep Hthis. unfold AES67Discovery.handleSAPMessage.
  destruct (AES67Discovery.decodeSAP msg); [|exact Hthis].
  by apply parseSDP_preserves.
Qed.

(** X20: handling a SAP datagram keeps the registries in agreement,
    whatever the datagram holds and whatever [sdp.parse] makes of its
    text: afterwards every stream of the discovery object is still filed
    under its own source-address:port key, is held by the global registry
    too and is listed by the device of its source address, and no device
    lists a key twice. *)
Theorem handleSAPMessage_indexed (this : AES67Discovery.t)
    (parse : string -> option AES67Discovery.session) (msg : Buffer.t)
    (rinfo_address : option string) (rnd : string) (now : Z) :
  indexed this ->
  indexed (AES67Discovery.handleSAPMessage this parse msg rinfo_address rnd
             now).
Proof.
  apply handleSAPMessage_preserves. intros ? ?. apply registerStream_indexed.
Qed.

(** The announcement of the end-to-end scenario arriving at an empty
    discovery object. *)
Lemma handleSAPMessage_indexed_witness :
  indexed (AES67Discovery.handleSAPMessage (discoveryAt "192.168.1.20")
             (fun _ => Some scenarioSession) specifiedPacket
             (Some "192.168.1.10"%string) "00" 1000).
Proof.
  apply handleSAPMessage_indexed. split.
  - intros k v Hk. cbn in Hk. by rewrite lookup_empty in Hk.
  - intros ip d Hd. cbn in Hd. by rewrite lookup_empty in Hd.
Defined.

Lemma extends_refl this : extends this this.
Proof.
  split; [done|]. split; [done|]. split; [|split; reflexivity].
  intros ip d Hd. exists d.
  split; [done|]. split; [done|]. split; [done | reflexivity].
Qed.

Lemma extends_trans a b c : extends a b -> extends b c -> extends a c.
Proof.
  intros (Hs1 & Hg1 & Hd1 & Hm1 & Hl1) (Hs2 & Hg2 & Hd2 & Hm2 & Hl2).
  split; [auto|]. split; [auto|]. split.
  - intros ip d Hd. destruct (Hd1 ip d Hd) as (d' & Hd' & Hi' & Hn' & Hp').
    destruct (Hd2 ip d' Hd') as (d'' & Hd'' & Hi'' & Hn'' & Hp'').
    exists d''. split; [done|]. split; [congruence|]. split; [congruence|].
    by etrans.
  - split; [by etrans | congruence].
Qed.

Lemma registerStream_extends this info :
  extends this (AES67Discovery.registerStream this info).1.
Proof.
  destruct (decide (AES67Discovery.sourceIP info = "")) as [He|Hip].
  { rewrite registerStream_rejected by (by left). apply extends_refl. }
  destruct (decide (AES67Discovery.port info = 0)) as [He|Hport].
  { rewrite registerStream_rejected by (by right). apply extends_refl. }
  destruct (registerStream_accepted this info Hip Hport)
    as (Hs & Hg & Hm & _).
  destruct (registerStream_devices this info Hip Hport) as (Hd & Hd' & Hl).
  cbv zeta in Hs, Hg, Hm, Hd, Hd', Hl.
  set (this' := (AES67Discovery.registerStream this info).1) in *.
  assert (forall (m : gmap string AES67Discovery.streamInfo) k k' v,
            is_Some (m !! k) -> is_Some (<[k' := v]> m !! k)) as Hins.
  { intros m k k' v Hk. destruct (decide (k = k')) as [->|Hne].
    - rewrite lookup_insert_eq. eauto.
    - by rewrite lookup_insert_ne. }
  split; [intros k; rewrite Hs; apply Hins|].
  split; [intros k; rewrite Hg; apply Hins|].
  split.
  - intros ip d Hdev.
    destruct (decide (ip = AES67Discovery.sourceIP info)) as [->|Hne].
    + rewrite Hdev in Hd. eexists. split; [exact Hd|].
      destruct (bool_decide (_ ∈ _));
        cbn [AES67Discovery.device_ip AES67Discovery.device_name
             AES67Discovery.device_streams];
        (split; [reflexivity|]); (split; [reflexivity|]);
        [reflexivity | by apply prefix_app_r].
    + exists d. rewrite Hd' by done.
      split; [done|]. split; [done|]. split; [done | reflexivity].
  - split; [|exact Hl]. rewrite Hm. by apply prefix_app_r.
Qed.

(** X21: a SAP datagram never takes anything away, a deletion included.
    After [handleSAPMessage] every key of the discovery object's registry
    and of the global one is still present, every device is still there
    with its address, its name and the keys it listed, the messages sent
    before are still the first ones sent, and the local address is the
    same. *)
Theorem handleSAPMessage_extends (this : AES67Discovery.t)
    (parse : string -> option AES67Discovery.session) (msg : Buffer.t)
    (rinfo_address : option string) (rnd : string) (now : Z) :
  extends this
    (AES67Discovery.handleSAPMessage this parse msg rinfo_address rnd now).
Proof.
  apply (handleSAPMessage_preserves (extends this)); [|apply extends_refl].
  intros this' info H. eapply extends_trans; [exact H|].
  apply registerStream_extends.
Qed.

Lemma registerStream_silent this info :
  AES67Discovery.status info <> "active" ->
  AES67Discovery.sent (AES67Discovery.registerStream this info).1
  = AES67Discovery.sent this.
Proof.
  intros Hst.
  destruct (decide (AES67Discovery.sourceIP info = "")) as [He|Hip].
  { by rewrite registerStream_rejected by (by left). }
  destruct (decide (AES67Discovery.port info = 0)) as [He|Hport].
  { by rewrite registerStream_rejected by (by right). }
  destruct (registerStream_accepted this info Hip Hport) as (_ & _ & Hm & _).
  cbv zeta in Hm. rewrite Hm.
  destruct (String.eqb_spec (AES67Discovery.status info) "active"); [done|].
  rewrite andb_false_r. apply app_nil_r.
Qed.

Lemma parseSDP_silent this parsed sdpString sourceIP actualIP messageType
    rnd now :
  messageType <> 0 ->
  AES67Discovery.sent
    (AES67Discovery.parseSDP this parsed sdpString sourceIP actualIP
       messageType rnd now)
  = AES67Discovery.sent this.
Proof.
  intros Hmt. unfold AES67Discovery.parseSDP.
  destruct (String.eqb sdpString ""); [reflexivity|].
  destruct parsed as [s|]; [|reflexivity].
  revert this.
  induction (AES67Discovery.session_media s) as [|m ms IH]; intros this;
    [reflexivity|].
  cbn [foldl]. rewrite IH. destruct (_ && _); [|reflexivity].
  apply registerStream_silent.
  cbn [AES67Discovery.streamInfoOf AES67Discovery.status].
  destruct (Z.eqb_spec messageType 0); [done | discriminate].
Qed.

(** X22: only announcements are reported. A datagram whose first byte has
    bit 2 set (a SAP deletion) sends no stream-discovered message,
    whatever else it holds and whatever [sdp.parse] makes of its text. *)
Theorem deletion_sends_nothing (this : AES67Discovery.t)
    (parse : string -> option AES67Discovery.session) (msg : Buffer.t)
    (rinfo_address : option string) (rnd : string) (now : Z) :
  JS.band (JS.shr (Buffer.bits msg 0) 2) 1 = 1 ->
  AES67Discovery.sent
    (AES67Discovery.handleSAPMessage this parse msg rinfo_address rnd now)
  = AES67Discovery.sent this.
Proof.
  intros Hbit. unfold AES67Discovery.handleSAPMessage.
  destruct (AES67Discovery.decodeSAP msg) as [d|] eqn:Hd; [|reflexivity].
  apply decodeSAP_facts in Hd as (_ & _ & Hmt & _).
  apply parseSDP_silent. rewrite Hmt, Hbit. discriminate.
Qed.

Lemma deletionPacket_built :
  SAPAnnouncer.sendDeletion (SAPAnnouncer.mk "192.168.1.10" 0) scenarioSDP []
  = JS.Return deletionPacket.
Proof. vm_compute. reflexivity. Qed.

(** The deletion of the session of the end-to-end scenario. *)
Lemma deletion_sends_nothing_witness :
  AES67Discovery.sent
    (AES67Discovery.handleSAPMessage (discoveryAt "192.168.1.20")
       (fun _ => Some scenarioSession) deletionPacket
       (Some "192.168.1.10"%string) "00" 1000)
  = [].
Proof.
  apply (deletion_sends_nothing (discoveryAt "192.168.1.20")).
  vm_compute. reflexivity.
Defined.

(** ** From the sender's packet to the registry *)

(** X23: what the sender announces or deletes, the router files. For
    every SDP text the decoder accepts (beginning with "v=0"; at most
    eight bytes long or without "sdp" in its first eight bytes) that
    [sdp.parse] turns into a session with one audio RTP/AVP media section
    on a non-zero port, the packet built by [createSAPPacket], or by
    [sendDeletion], and received from the non-empty address [addr]
    leaves a descriptor under the key addr:port in both registries. The
    descriptor carries the address the datagram came from, not the one
    in the SAP header, the SDP text, the arrival time, and status active
    for the announcement and deleted for the deletion, which removes
    nothing; a stream-discovered message goes out only for an
    announcement of a key that was not yet there. *)
Theorem sender_packet_is_filed (deletion : bool) (a b c d msgIdHash : Z)
    (sdpData : string) (junk : Buffer.t) (this : AES67Discovery.t)
    (parse : string -> option AES67Discovery.session)
    (s : AES67Discovery.session) (m : AES67Discovery.media)
    (addr rnd : string) (now : Z) :
  0 <= a < 256 -> 0 <= b < 256 -> 0 <= c < 256 -> 0 <= d < 256 ->
  0 <= msgIdHash <= 65535 ->
  JS.startsWith "v=0" sdpData = true ->
  (String.length sdpData <= 8)%nat
  \/ JS.includes "sdp" (firstChars 8 sdpData) = false ->
  parse sdpData = Some s ->
  AES67Discovery.session_media s = [m] ->
  AES67Discovery.media_type m = "audio" ->
  AES67Discovery.media_protocol m = "RTP/AVP" ->
  AES67Discovery.media_port m <> 0 ->
  addr <> "" ->
  let sender := SAPAnnouncer.mk (dotted a b c d) msgIdHash in
  let key :=
    addr +:+ ":" +:+ JS.Number_toString (AES67Discovery.media_port m) in
  exists packet info,
    (if deletion then SAPAnnouncer.sendDeletion sender sdpData junk
     else SAPAnnouncer.createSAPPacket sender sdpData junk)
    = JS.Return packet
    /\ let this' :=
         AES67Discovery.handleSAPMessage this parse packet (Some addr) rnd
           now in
       AES67Discovery.streams this' !! key = Some info
       /\ AES67Discovery.globalStreamRegistry this' !! key = Some info
       /\ AES67Discovery.sourceIP info = addr
       /\ AES67Discovery.port info = AES67Discovery.media_port m
       /\ AES67Discovery.sdp info = sdpData
       /\ AES67Discovery.lastSeen info = now
       /\ AES67Discovery.status info
          = (if deletion then "deleted" else "active")
       /\ AES67Discovery.sent this'
          = AES67Discovery.sent this
            ++ (if negb deletion
                   && bool_decide (AES67Discovery.streams this !! key = None)
                then [info] else []).
Proof.
  intros Ha Hb Hc Hd Hh Hv Hsdp Hparse Hmedia Htype Hproto Hport Haddr
    sender key.
  pose proof (startsWith_v0_length sdpData Hv) as Hn.
  set (first := if deletion then 36 else 32).
  assert (0 <= first < 256 /\ JS.band (JS.shr first 5) 7 = 1
          /\ JS.band (JS.shr first 2) 1 = (if deletion then 1 else 0))
    as (Hfirst & Hver & Hmt).
  { subst first. destruct deletion; (split; [lia|]); split; reflexivity. }
  destruct (sapPacket_decodes first a b c d msgIdHash sdpData junk
              Hfirst Hver Ha Hb Hc Hd Hh Hv Hsdp) as (packet & Hbuilt & Hdec).
  set (info := AES67Discovery.streamInfoOf s m sdpData (dotted a b c d)
                 (Some addr) (if deletion then 1 else 0) rnd now).
  exists packet, info. split.
  { subst first sender. by destruct deletion. }
  cbv zeta. unfold AES67Discovery.handleSAPMessage. rewrite Hdec, Hmt.
  cbn [AES67Discovery.sap_sdpData AES67Discovery.sap_sourceIP
       AES67Discovery.sap_messageType].
  unfold AES67Discovery.parseSDP. rewrite Hparse, Hmedia.
  destruct (String.eqb_spec sdpData "") as [He|_];
    [rewrite He in Hn; cbn in Hn; lia|].
  cbn [foldl]. rewrite Htype, Hproto.
  change (("audio" =? "audio")%string && ("RTP/AVP" =? "RTP/AVP")%string)
    with true. cbv iota. fold info.
  assert (AES67Discovery.sourceIP info = addr) as Hsrc.
  { subst info. cbn [AES67Discovery.streamInfoOf AES67Discovery.sourceIP].
    unfold JS.strOr at 1. by destruct (String.eqb_spec addr ""). }
  assert (AES67Discovery.port info = AES67Discovery.media_port m) as Hp
    by reflexivity.
  assert (AES67Discovery.streamKey info = key) as Hkey.
  { unfold AES67Discovery.streamKey. by rewrite Hsrc, Hp. }
  destruct (registerStream_accepted this info
              ltac:(by rewrite Hsrc) ltac:(by rewrite Hp))
    as (Hs & Hg & Hm & _).
  cbv zeta in Hs, Hg, Hm. rewrite Hkey in Hs, Hg, Hm.
  split; [rewrite Hs; apply lookup_insert_eq|].
  split; [rewrite Hg; apply lookup_insert_eq|].
  split; [exact Hsrc|]. split; [exact Hp|]. split; [reflexivity|].
  split; [reflexivity|].
  split; [subst info; by destruct deletion|].
  rewrite Hm. f_equal. subst info.
  cbn [AES67Discovery.streamInfoOf AES67Discovery.status].
  destruct deletion; cbn [negb andb]; [|by rewrite andb_true_r].
  by rewrite andb_false_r.
Qed.

(** The deletion of the session of the end-to-end scenario, sent from
    192.168.1.10 to a router that knows nothing of the stream. *)
Lemma sender_packet_is_filed_witness :
  exists packet info,
    SAPAnnouncer.sendDeletion (SAPAnnouncer.mk (dotted 192 168 1 10) 0)
      scenarioSDP []
    = JS.Return packet
    /\ AES67Discovery.streams
         (AES67Discovery.handleSAPMessage (discoveryAt "192.168.1.20")
            (fun _ => Some scenarioSession) packet
            (Some "192.168.1.10"%string) "00" 1000)
       !! "192.168.1.10:5004"%string
       = Some info
    /\ AES67Discovery.status info = "deleted".
Proof.
  destruct (sender_packet_is_filed true 192 168 1 10 0 scenarioSDP []
              (discoveryAt "192.168.1.20") (fun _ => Some scenarioSession)
              scenarioSession scenarioMedia "192.168.1.10" "00" 1000)
    as (packet & info & Hbuilt & Hs & _ & _ & _ & _ & _ & Hst & _);
    try lia; try reflexivity; try discriminate.
  - right. vm_compute. reflexivity.
  - exists packet, info. split; [exact Hbuilt|]. split; [exact Hs | exact Hst].
Defined.

(** ** Expiry of streams *)

Lemma stale_spec now v :
  AES67Discovery.stale now v = true
  <-> AES67Discovery.lastSeen v <> 0
      /\ 120000 < now - AES67Discovery.lastSeen v.
Proof.
  unfold AES67Discovery.stale, JS.truthy.
  destruct (Z.eqb_spec (AES67Discovery.lastSeen v) 0);
    destruct (Z.ltb_spec 120000 (now - AES67Discovery.lastSeen v));
    cbn; split; try done; try lia; intros [? ?]; try done; lia.
Qed.

(** The registries after [cleanupStaleStreams], key by key. *)
Lemma cleanupStaleStreams_lookup this now k :
  let r := AES67Discovery.cleanupStaleStreams this now in
  let gone :=
    match AES67Discovery.streams this !! k with
    | Some v => AES67Discovery.stale now v
    | None => false
    end in
  AES67Discovery.streams r.1 !! k
  = (if gone then None else AES67Discovery.streams this !! k)
  /\ AES67Discovery.globalStreamRegistry r.1 !! k
     = (if gone then None else AES67Discovery.globalStreamRegistry this !! k)
  /\ r.2 !! k = (if gone then AES67Discovery.streams this !! k else None).
Proof.
  cbv zeta. unfold AES67Discovery.cleanupStaleStreams.
  cbn [fst snd AES67Discovery.streams AES67Discovery.globalStreamRegistry].
  destruct (AES67Discovery.streams this !! k) as [v|] eqn:Hk.
  - destruct (AES67Discovery.stale now v) eqn:Hst.
    + split; [apply map_lookup_filter_None; right; intros v' Hv';
              cbn; congruence|].
      split.
      * apply lookup_difference_None. right. exists v.
        by apply map_lookup_filter_Some.
      * by apply map_lookup_filter_Some.
    + split; [by apply map_lookup_filter_Some|].
      assert (filter (fun kv => AES67Discovery.stale now kv.2 = true)
                (AES67Discovery.streams this) !! k = None) as Hnone.
      { apply map_lookup_filter_None. right. intros v' Hv'. cbn. congruence. }
      split; [|exact Hnone].
      destruct (AES67Discovery.globalStreamRegistry this !! k) as [g|] eqn:Hg.
      * by apply lookup_difference_Some.
      * apply lookup_difference_None. by left.
  - assert (forall P : string * AES67Discovery.streamInfo -> Prop,
              forall H : forall x, Decision (P x),
              filter P (AES67Discovery.streams this) !! k = None) as Hnone.
    { intros P H. apply map_lookup_filter_None. by left. }
    split; [apply Hnone|]. split; [|apply Hnone].
    destruct (AES67Discovery.globalStreamRegistry this !! k) as [g|] eqn:Hg.
    + apply lookup_difference_Some. split; [done | apply Hnone].
    + apply lookup_difference_None. by left.
Qed.

(** X24: the two-minute expiry. A stream of the discovery object whose
    [lastSeen] is not 0 and lies more than 120000 ms before [now] is
    deleted from the registry of the object and from the global one and
    reported as removed; every other stream, one with [lastSeen] 0
    included, stays in both as it was and is not reported. Devices, their
    lists of keys and the local address are not touched, and no
    stream-discovered message is sent. *)
Theorem cleanupStaleStreams_ttl (this : AES67Discovery.t) (now : Z)
    (k : string) (v : AES67Discovery.streamInfo) :
  AES67Discovery.streams this !! k = Some v ->
  let this' := (AES67Discovery.cleanupStaleStreams this now).1 in
  let removed := (AES67Discovery.cleanupStaleStreams this now).2 in
  (AES67Discovery.lastSeen v <> 0
   /\ 120000 < now - AES67Discovery.lastSeen v ->
   AES67Discovery.streams this' !! k = None
   /\ AES67Discovery.globalStreamRegistry this' !! k = None
   /\ removed !! k = Some v)
  /\ (AES67Discovery.lastSeen v = 0
      \/ now - AES67Discovery.lastSeen v <= 120000 ->
      AES67Discovery.streams this' !! k = Some v
      /\ AES67Discovery.globalStreamRegistry this' !! k
         = AES67Discovery.globalStreamRegistry this !! k
      /\ removed !! k = None)
  /\ AES67Discovery.devices this' = AES67Discovery.devices this
  /\ AES67Discovery.localIP this' = AES67Discovery.localIP this
  /\ AES67Discovery.sent this' = AES67Discovery.sent this.
Proof.
  intros Hk this' removed.
  destruct (cleanupStaleStreams_lookup this now k) as (Hs & Hg & Hr).
  cbv zeta in Hs, Hg, Hr. rewrite Hk in Hs, Hg, Hr.
  fold this' in Hs, Hg. fold removed in Hr.
  split; [|split; [|by repeat split]].
  - intros Hold. apply stale_spec in Hold. rewrite Hold in Hs, Hg, Hr.
    by repeat split.
  - intros Hfresh.
    assert (AES67Discovery.stale now v = false) as Hst.
    { destruct (AES67Discovery.stale now v) eqn:Hst; [|done].
      apply stale_spec in Hst. lia. }
    rewrite Hst in Hs, Hg, Hr. by repeat split.
Qed.

(** The stream filed at time 1000 is gone at time 121001 and still there
    at time 121000. *)
Lemma cleanupStaleStreams_ttl_witness :
  AES67Discovery.streams
    (AES67Discovery.cleanupStaleStreams oneStream 121001).1
  !! "192.168.1.10:5004"%string = None
  /\ is_Some (AES67Discovery.streams
                (AES67Discovery.cleanupStaleStreams oneStream 121000).1
              !! "192.168.1.10:5004"%string).
Proof.
  assert (AES67Discovery.streams oneStream !! "192.168.1.10:5004"%string
          = Some (AES67Discovery.mkStreamInfo "1" "Test" "" "192.168.1.10"
                    "239.69.1.1" 5004 2 48000 (JS.VString "L24") 1
                    "ptp=IEEE1588-2008:00-00-00-00-00-00-00-00:0" true
                    scenarioSDP 1000 "active")) as Hk
    by apply lookup_insert_eq.
  split.
  - apply (cleanupStaleStreams_ttl oneStream 121001 _ _ Hk).
    cbn [AES67Discovery.lastSeen]. lia.
  - eexists. apply (cleanupStaleStreams_ttl oneStream 121000 _ _ Hk).
    right. cbn [AES67Discovery.lastSeen]. lia.
Defined.

(** X25: announcing again renews a stream. Whatever the registry held
    under its key, a descriptor that passes the guard of
    [registerStream] and was seen no more than 120000 ms before [now]
    (or carries [lastSeen] 0) is still filed, unchanged, in both
    registries after the next [cleanupStaleStreams]. *)
Theorem renewed_stream_survives (this : AES67Discovery.t)
    (info : AES67Discovery.streamInfo) (now : Z) :
  AES67Discovery.sourceIP info <> "" -> AES67Discovery.port info <> 0 ->
  AES67Discovery.lastSeen info = 0
  \/ now - AES67Discovery.lastSeen info <= 120000 ->
  let this' :=
    (AES67Discovery.cleanupStaleStreams
       (AES67Discovery.registerStream this info).1 now).1 in
  AES67Discovery.streams this' !! AES67Discovery.streamKey info = Some info
  /\ AES67Discovery.globalStreamRegistry this'
     !! AES67Discovery.streamKey info = Some info.
Proof.
  intros Hip Hport Hfresh this'.
  destruct (registerStream_accepted this info Hip Hport) as (Hs & Hg & _).
  cbv zeta in Hs, Hg.
  set (this1 := (AES67Discovery.registerStream this info).1) in *.
  destruct (cleanupStaleStreams_lookup this1 now
              (AES67Discovery.streamKey info)) as (Hs' & Hg' & _).
  cbv zeta in Hs', Hg'. fold this' in Hs', Hg'.
  rewrite Hs, lookup_insert_eq in Hs', Hg'.
  assert (AES67Discovery.stale now info = false) as Hst.
  { destruct (AES67Discovery.stale now info) eqn:Hst; [|done].
    apply stale_spec in Hst. lia. }
  rewrite Hst in Hs', Hg'. split; [exact Hs'|].
  by rewrite Hg', Hg, lookup_insert_eq.
Qed.

(** A stream filed long ago and announced again at time 500000, swept at
    time 600000. *)
Lemma renewed_stream_survives_witness :
  let info :=
    AES67Discovery.mkStreamInfo "1" "Test" "" "192.168.1.10" "239.69.1.1"
      5004 2 48000 (JS.VString "L24") 1
      "ptp=IEEE1588-2008:00-00-00-00-00-00-00-00:0" true scenarioSDP 500000
      "active" in
  AES67Discovery.streams
    (AES67Discovery.cleanupStaleStreams
       (AES67Discovery.registerStream oneStream info).1 600000).1
  !! AES67Discovery.streamKey info = Some info.
Proof.
  cbv zeta.
  refine (proj1 (renewed_stream_survives oneStream _ 600000 _ _ _));
    [discriminate | discriminate |].
  right. cbn [AES67Discovery.lastSeen]. lia.
Defined.

(** X26: the sweep keeps the registries in agreement, and the streams and
    global entries it leaves are ones that were there: nothing is added or
    altered. *)
Theorem cleanupStaleStreams_indexed (this : AES67Discovery.t) (now : Z) :
  indexed this ->
  let this' := (AES67Discovery.cleanupStaleStreams this now).1 in
  indexed this'
  /\ AES67Discovery.streams this' ⊆ AES67Discovery.streams this
  /\ AES67Discovery.globalStreamRegistry this'
     ⊆ AES67Discovery.globalStreamRegistry this.
Proof.
  intros [Hstreams Hdevices] this'. split; [split|split].
  - intros k v Hk.
    destruct (cleanupStaleStreams_lookup this now k) as (Hs & Hg & _).
    cbv zeta in Hs, Hg. fold this' in Hs, Hg. rewrite Hs in Hk.
    destruct (AES67Discovery.streams this !! k) as [v0|] eqn:Hk0;
      [|discriminate Hk].
    destruct (AES67Discovery.stale now v0); [done|]. injection Hk as ->.
    destruct (Hstreams k v Hk0) as (Hkey & Hgv & Hdev).
    split; [exact Hkey|]. split; [by rewrite Hg | exact Hdev].
  - exact Hdevices.
  - apply map_filter_subseteq.
  - apply map_subseteq_difference_l. reflexivity.
Qed.

Lemma cleanupStaleStreams_indexed_witness :
  indexed (AES67Discovery.cleanupStaleStreams oneStream 121001).1.
Proof.
  refine (proj1 (cleanupStaleStreams_indexed oneStream 121001 _)).
  apply registerStream_indexed. split.
  - intros k v Hk. cbn in Hk. by rewrite lookup_empty in Hk.
  - intros ip d Hd. cbn in Hd. by rewrite lookup_empty in Hd.
Defined.

(** ** Descriptors of parsed sessions *)




